(** * Book-metadata aggregation and import pipeline

    A shallow embedding of
    - [backend/app/services/external_apis.py]  (source adapters, aggregator),
    - [backend/app/api/endpoints/external.py]  (search, import and cache endpoints),
    - [backend/app/tasks/external_books.py]    (background import and refresh),
    - [backend/app/models/external_book.py]    (the persisted record),
    together with the properties of the pipeline that are checked on it. *)

From Stdlib Require Import ZArith QArith String Ascii List Bool Lia Sorted.
From stdpp Require Import base option list strings gmap pretty countable.

#[local] Set Warnings "-register-all".
Local Open Scope Z_scope.
Local Open Scope string_scope.

(* ===================================================================== *)
(** ** Python values *)
(* ===================================================================== *)

(** What [response.json()] hands to the adapters: [None], [bool], [int],
    [float], [str], [list] and [dict].  A [dict] keeps its insertion order,
    so it is an association list; [dict_lookup] returns the first binding
    of a key.  A [str] is a [string] with one character for each character
    (code point) of the Python string, so that [len], indexing and slices
    count the same on both sides. *)
Inductive json : Type :=
| JNull
| JBool (b : bool)
| JInt (z : Z)
| JFloat (q : Q)
| JStr (s : string)
| JArr (l : list json)
| JObj (kv : list (string * json)).

(** [class ExternalSource(str, Enum)] *)
Inductive ExternalSource : Type := GOOGLE_BOOKS | OPEN_LIBRARY.

Definition source_value (s : ExternalSource) : string :=
  match s with
  | GOOGLE_BOOKS => "google_books"
  | OPEN_LIBRARY => "open_library"
  end.

#[global] Instance ExternalSource_eq_dec : EqDecision ExternalSource.
Proof. solve_decision. Defined.

#[global] Instance ExternalSource_countable : Countable ExternalSource.
Proof.
  refine (inj_countable'
            (fun s => match s with GOOGLE_BOOKS => false | OPEN_LIBRARY => true end)
            (fun b => if b then OPEN_LIBRARY else GOOGLE_BOOKS) _).
  intros []; reflexivity.
Defined.

(** Exceptions.  [ExternalAPIError] is the adapters' own class; the other
    constructors are the interpreter's and the libraries' classes that the
    modelled code can raise ([Retry] is [celery.exceptions.Retry], which
    asks the queue to run the task again after [countdown] seconds). *)
Inductive exn : Type :=
| ExternalAPIError (source : ExternalSource) (message : string)
                   (status_code : option Z)
| AttributeError
| TypeError
| KeyError
| IndexError
| ValueError (message : string)
| ValidationError
| JSONDecodeError
| OverflowError
| MultipleResultsFound
| RuntimeError (message : string)
| HTTPException (status : Z) (detail : string)
| Retry (countdown : Z).

Definition is_ExternalAPIError (e : exn) : bool :=
  match e with ExternalAPIError _ _ _ => true | _ => false end.

(** [str(e)].  [ExternalAPIError.__init__] passes
    [f"{source.value}: {message}"] to [Exception]; for the other classes
    the text is the one the raising site gave, or the class name. *)
Definition exn_str (e : exn) : string :=
  match e with
  | ExternalAPIError s m _ => source_value s +:+ ": " +:+ m
  | AttributeError => "AttributeError"
  | TypeError => "TypeError"
  | KeyError => "KeyError"
  | IndexError => "IndexError"
  | ValueError m => m
  | ValidationError => "ValidationError"
  | JSONDecodeError => "JSONDecodeError"
  | OverflowError => "OverflowError"
  | MultipleResultsFound => "MultipleResultsFound"
  | RuntimeError m => m
  | HTTPException _ d => d
  | Retry _ => "Retry"
  end.

(** A computation that returns or raises. *)
Inductive res (A : Type) : Type :=
| Ok (a : A)
| Raise (e : exn).
Arguments Ok {A} a.
Arguments Raise {A} e.

Definition res_bind {A B} (c : res A) (k : A -> res B) : res B :=
  match c with
  | Ok a => k a
  | Raise e => Raise e
  end.

Declare Scope res_scope.
Delimit Scope res_scope with res.
Notation "x <- c ;; k" := (res_bind c (fun x => k))
  (at level 100, c at next level, right associativity) : res_scope.

(** [try: ... except Exception: return None] *)
Definition except_None {A} (c : res (option A)) : option A :=
  match c with
  | Ok r => r
  | Raise _ => None
  end.

Module Py.

(** Truth value of an object ([if x], [x or y], [not x]). *)
Definition truthy (v : json) : bool :=
  match v with
  | JNull => false
  | JBool b => b
  | JInt z => negb (Z.eqb z 0)
  | JFloat q => negb (Z.eqb (Qnum q) 0)
  | JStr s => negb (String.eqb s "")
  | JArr l => match l with [] => false | _ => true end
  | JObj kv => match kv with [] => false | _ => true end
  end.

(** [a or b] *)
Definition or_ (a b : json) : json := if truthy a then a else b.

Fixpoint dict_lookup (kv : list (string * json)) (k : string) : option json :=
  match kv with
  | [] => None
  | (k', v) :: rest => if String.eqb k' k then Some v else dict_lookup rest k
  end.

(** [d.get(k, default)]; an object that is not a [dict] has no [get]. *)
Definition get_default (d : json) (k : string) (default : json) : res json :=
  match d with
  | JObj kv => Ok (match dict_lookup kv k with Some v => v | None => default end)
  | _ => Raise AttributeError
  end.

(** [d.get(k)] *)
Definition get (d : json) (k : string) : res json := get_default d k JNull.

Fixpoint chars (s : string) : list json :=
  match s with
  | EmptyString => []
  | String c s' => JStr (String c EmptyString) :: chars s'
  end.

(** [for x in v]: the elements of a list, the characters of a string,
    the keys of a dict; the other objects are not iterable. *)
Definition iter (v : json) : res (list json) :=
  match v with
  | JArr l => Ok l
  | JStr s => Ok (chars s)
  | JObj kv => Ok (map (fun p => JStr (fst p)) kv)
  | _ => Raise TypeError
  end.

(** [len(v)] *)
Definition len (v : json) : res Z :=
  match v with
  | JArr l => Ok (Z.of_nat (length l))
  | JStr s => Ok (Z.of_nat (String.length s))
  | JObj kv => Ok (Z.of_nat (length kv))
  | _ => Raise TypeError
  end.

Fixpoint str_take (n : nat) (s : string) : string :=
  match n, s with
  | S n', String c s' => String c (str_take n' s')
  | _, _ => EmptyString
  end.

(** [v[:n]] *)
Definition slice_to (n : nat) (v : json) : res json :=
  match v with
  | JArr l => Ok (JArr (take n l))
  | JStr s => Ok (JStr (str_take n s))
  | _ => Raise TypeError
  end.

(** [v[0]]; the keys of a parsed JSON object are strings, so [d[0]] on a
    dict is a [KeyError]. *)
Definition index0 (v : json) : res json :=
  match v with
  | JArr (x :: _) => Ok x
  | JArr [] => Raise IndexError
  | JStr (String c _) => Ok (JStr (String c EmptyString))
  | JStr EmptyString => Raise IndexError
  | JObj _ => Raise KeyError
  | _ => Raise TypeError
  end.

(** [s.startswith(p)] *)
Definition startswith (p s : string) : bool := String.prefix p s.

Fixpoint replace_go (old new : string) (skip : nat) (s : string) : string :=
  match s with
  | EmptyString => EmptyString
  | String c s' =>
      match skip with
      | S k => replace_go old new k s'
      | O =>
          if String.prefix old s
          then new +:+ replace_go old new (String.length old - 1) s'
          else String c (replace_go old new 0 s')
      end
  end.

(** [s.replace(old, new)] for a non-empty [old]: every occurrence, left
    to right, without overlap. *)
Definition replace (old new s : string) : string := replace_go old new 0 s.

(** [a == b] on the objects that the adapters compare with a string
    literal: only a [str] can be equal to one. *)
Definition eq_str (v : json) (s : string) : bool :=
  match v with
  | JStr s' => String.eqb s' s
  | _ => false
  end.

End Py.

Example replace_http :
  Py.replace "http://" "https://" "http://a/http://b" = "https://a/https://b".
Proof. reflexivity. Qed.

(* ===================================================================== *)
(** ** Canonical model ([external_apis.py]) *)
(* ===================================================================== *)

(** [class ExternalBookResult(BaseModel)] *)
Record ExternalBookResult : Type := mkExternalBookResult {
  external_id : string;
  source : ExternalSource;
  title : string;
  authors : list string;
  description : option string;
  isbn_10 : option string;
  isbn_13 : option string;
  publisher : option string;
  published_date : option string;
  page_count : option Z;
  categories : list string;
  language : option string;
  thumbnail_url : option string;
  preview_link : option string;
  info_link : option string;
  average_rating : option Q;
  ratings_count : option Z;
  maturity_rating : option string;
  raw_metadata : json;
}.

(** [class ExternalSearchResponse(BaseModel)] *)
Record ExternalSearchResponse : Type := mkExternalSearchResponse {
  sr_source : ExternalSource;
  query : string;
  total_items : Z;
  items : list ExternalBookResult;
  search_time_ms : Z;
}.

(** What [await client.get(url, params=...)] does: it raises
    [httpx.TimeoutException] or another [httpx.RequestError], or returns a
    response with a status code and a body ([None] when the body is not
    JSON, so that [response.json()] raises). *)
Inductive http_outcome : Type :=
| TimeoutException
| RequestError (message : string)
| Response (status_code : Z) (body : option json).

Record Request : Type := mkRequest {
  url : string;
  params : list (string * json);
}.

(** The collaborators of the pipeline that are not code of the repository:
    the upstream services, the clock, the settings, and the library
    routines whose results the pipeline only passes on. *)
Record Env : Type := mkEnv {
  (** [settings.google_books_api_key] *)
  google_books_api_key : option string;
  (** the answer to the [n]-th HTTP request of the run *)
  http : nat -> Request -> http_outcome;
  (** the [n]-th reading of the clock ([datetime.now()], [utcnow()]) *)
  clock : nat -> Z;
  (** [int((end - start).total_seconds() * 1000)] *)
  elapsed_ms : Z -> Z -> Z;
  (** [str(v)], also the conversion of [f"{v}"] *)
  py_str : json -> string;
  (** [int(s)] on a string; [None] for [ValueError] *)
  py_int : string -> option Z;
  (** Pydantic's conversion of an object to an [int] field and to a
      [float] field; [None] when validation fails *)
  pydantic_int : json -> option Z;
  pydantic_float : json -> option Q;
}.

(** Pydantic's validation of a constructor argument against the field's
    annotation.  [str] and [list[str]] fields take no other JSON object. *)
Module Validate.

Definition str (v : json) : res string :=
  match v with JStr s => Ok s | _ => Raise ValidationError end.

Definition opt_str (v : json) : res (option string) :=
  match v with
  | JNull => Ok None
  | JStr s => Ok (Some s)
  | _ => Raise ValidationError
  end.

Fixpoint strs (l : list json) : res (list string) :=
  match l with
  | [] => Ok []
  | JStr s :: rest => res_bind (strs rest) (fun r => Ok (s :: r))
  | _ :: _ => Raise ValidationError
  end.

Definition list_str (v : json) : res (list string) :=
  match v with JArr l => strs l | _ => Raise ValidationError end.

Definition opt_num {A} (conv : json -> option A) (v : json) : res (option A) :=
  match v with
  | JNull => Ok None
  | _ => match conv v with
         | Some n => Ok (Some n)
         | None => Raise ValidationError
         end
  end.

Definition dict (v : json) : res json :=
  match v with JObj _ => Ok v | _ => Raise ValidationError end.

End Validate.

(** A [for] loop over a list whose body may raise. *)
Fixpoint for_each {S A : Type} (body : S -> A -> res S) (l : list A) (s : S) : res S :=
  match l with
  | [] => Ok s
  | x :: rest => res_bind (body s x) (for_each body rest)
  end.

(* ===================================================================== *)
(** ** Source adapters: field mapping ([ExternalApisService]) *)
(* ===================================================================== *)

Section Parsing.
Variable env : Env.
Local Open Scope res_scope.

(** Body of the loop over [industryIdentifiers] in [_parse_google_book];
    the accumulator is [(isbn_10, isbn_13)]. *)
Definition google_isbn_body (acc : json * json) (identifier : json)
  : res (json * json) :=
  id_type <- Py.get_default identifier "type" (JStr "") ;;
  if Py.eq_str id_type "ISBN_10" then
    v <- Py.get identifier "identifier" ;; Ok (v, snd acc)
  else if Py.eq_str id_type "ISBN_13" then
    v <- Py.get identifier "identifier" ;; Ok (fst acc, v)
  else Ok acc.

(** [image_links.get("thumbnail") or image_links.get("smallThumbnail")
     or image_links.get("medium") or image_links.get("large")] *)
Definition google_thumbnail_choice (image_links : json) : res json :=
  t <- Py.get image_links "thumbnail" ;;
  st <- Py.get image_links "smallThumbnail" ;;
  m <- Py.get image_links "medium" ;;
  l <- Py.get image_links "large" ;;
  Ok (Py.or_ (Py.or_ (Py.or_ t st) m) l).

(** [if thumbnail_url and thumbnail_url.startswith("http://"):
       thumbnail_url = thumbnail_url.replace("http://", "https://")] *)
Definition https_thumbnail (thumbnail_url : json) : res json :=
  if Py.truthy thumbnail_url then
    match thumbnail_url with
    | JStr s =>
        if Py.startswith "http://" s
        then Ok (JStr (Py.replace "http://" "https://" s))
        else Ok thumbnail_url
    | _ => Raise AttributeError
    end
  else Ok thumbnail_url.

Definition _parse_google_book (item : json) : option ExternalBookResult :=
  except_None (
    volume_info <- Py.get_default item "volumeInfo" (JObj []) ;;
    ids <- Py.get_default volume_info "industryIdentifiers" (JArr []) ;;
    ids <- Py.iter ids ;;
    isbns <- for_each google_isbn_body ids (JNull, JNull) ;;
    image_links <- Py.get_default volume_info "imageLinks" (JObj []) ;;
    thumbnail_url <- google_thumbnail_choice image_links ;;
    thumbnail_url <- https_thumbnail thumbnail_url ;;
    a_id <- Py.get_default item "id" (JStr "") ;;
    a_title <- Py.get_default volume_info "title" (JStr "Unknown Title") ;;
    a_authors <- Py.get_default volume_info "authors" (JArr []) ;;
    a_description <- Py.get volume_info "description" ;;
    a_publisher <- Py.get volume_info "publisher" ;;
    a_published_date <- Py.get volume_info "publishedDate" ;;
    a_page_count <- Py.get volume_info "pageCount" ;;
    a_categories <- Py.get_default volume_info "categories" (JArr []) ;;
    a_language <- Py.get volume_info "language" ;;
    a_preview_link <- Py.get volume_info "previewLink" ;;
    a_info_link <- Py.get volume_info "infoLink" ;;
    a_average_rating <- Py.get volume_info "averageRating" ;;
    a_ratings_count <- Py.get volume_info "ratingsCount" ;;
    a_maturity_rating <- Py.get volume_info "maturityRating" ;;
    r_etag <- Py.get item "etag" ;;
    r_self_link <- Py.get item "selfLink" ;;
    r_sale_info <- Py.get_default item "saleInfo" (JObj []) ;;
    r_access_info <- Py.get_default item "accessInfo" (JObj []) ;;
    r_search_info <- Py.get_default item "searchInfo" (JObj []) ;;
    (* ExternalBookResult(...): validation of the arguments *)
    f_external_id <- Validate.str a_id ;;
    f_title <- Validate.str a_title ;;
    f_authors <- Validate.list_str a_authors ;;
    f_description <- Validate.opt_str a_description ;;
    f_isbn_10 <- Validate.opt_str (fst isbns) ;;
    f_isbn_13 <- Validate.opt_str (snd isbns) ;;
    f_publisher <- Validate.opt_str a_publisher ;;
    f_published_date <- Validate.opt_str a_published_date ;;
    f_page_count <- Validate.opt_num (pydantic_int env) a_page_count ;;
    f_categories <- Validate.list_str a_categories ;;
    f_language <- Validate.opt_str a_language ;;
    f_thumbnail_url <- Validate.opt_str thumbnail_url ;;
    f_preview_link <- Validate.opt_str a_preview_link ;;
    f_info_link <- Validate.opt_str a_info_link ;;
    f_average_rating <- Validate.opt_num (pydantic_float env) a_average_rating ;;
    f_ratings_count <- Validate.opt_num (pydantic_int env) a_ratings_count ;;
    f_maturity_rating <- Validate.opt_str a_maturity_rating ;;
    Ok (Some {|
      external_id := f_external_id;
      source := GOOGLE_BOOKS;
      title := f_title;
      authors := f_authors;
      description := f_description;
      isbn_10 := f_isbn_10;
      isbn_13 := f_isbn_13;
      publisher := f_publisher;
      published_date := f_published_date;
      page_count := f_page_count;
      categories := f_categories;
      language := f_language;
      thumbnail_url := f_thumbnail_url;
      preview_link := f_preview_link;
      info_link := f_info_link;
      average_rating := f_average_rating;
      ratings_count := f_ratings_count;
      maturity_rating := f_maturity_rating;
      raw_metadata := JObj [("etag", r_etag); ("selfLink", r_self_link);
                            ("volumeInfo", volume_info);
                            ("saleInfo", r_sale_info);
                            ("accessInfo", r_access_info);
                            ("searchInfo", r_search_info)];
    |})).

(** [f"https://covers.openlibrary.org/b/id/{cover_id}-M.jpg"] when
    [cover_id] is true, else [None]. *)
Definition cover_thumbnail (cover_id : json) : option string :=
  if Py.truthy cover_id
  then Some ("https://covers.openlibrary.org/b/id/" +:+ py_str env cover_id +:+ "-M.jpg")
  else None.

(** Body of the loop over [isbn_list] in [_parse_open_library_book]. *)
Definition open_library_isbn_body (acc : json * json) (isbn : json)
  : res (json * json) :=
  n <- Py.len isbn ;;
  if Z.eqb n 10 && negb (Py.truthy (fst acc)) then Ok (isbn, snd acc)
  else if Z.eqb n 13 && negb (Py.truthy (snd acc)) then Ok (fst acc, isbn)
  else Ok acc.

(** [doc.get(k, [None])[0] if doc.get(k) else None] *)
Definition first_if_present (doc : json) (k : string) : res json :=
  v <- Py.get doc k ;;
  if Py.truthy v
  then (w <- Py.get_default doc k (JArr [JNull]) ;; Py.index0 w)
  else Ok JNull.

Definition _parse_open_library_book (doc : json) : option ExternalBookResult :=
  except_None (
    key <- Py.get_default doc "key" (JStr "") ;;
    work_key <- match key with
                | JStr s => Ok (Py.replace "/works/" "" s)
                | _ => Raise AttributeError
                end ;;
    if String.eqb work_key "" then Ok None else
    cover_id <- Py.get doc "cover_i" ;;
    isbn_list <- Py.get_default doc "isbn" (JArr []) ;;
    isbn_list <- Py.iter isbn_list ;;
    isbns <- for_each open_library_isbn_body isbn_list (JNull, JNull) ;;
    a_title <- Py.get_default doc "title" (JStr "Unknown Title") ;;
    a_authors <- Py.get_default doc "author_name" (JArr []) ;;
    a_publisher <- first_if_present doc "publisher" ;;
    fpy <- Py.get doc "first_publish_year" ;;
    a_page_count <- Py.get doc "number_of_pages_median" ;;
    subject <- Py.get_default doc "subject" (JArr []) ;;
    a_categories <- Py.slice_to 5 subject ;;
    a_language <- first_if_present doc "language" ;;
    f_title <- Validate.str a_title ;;
    f_authors <- Validate.list_str a_authors ;;
    f_isbn_10 <- Validate.opt_str (fst isbns) ;;
    f_isbn_13 <- Validate.opt_str (snd isbns) ;;
    f_publisher <- Validate.opt_str a_publisher ;;
    f_page_count <- Validate.opt_num (pydantic_int env) a_page_count ;;
    f_categories <- Validate.list_str a_categories ;;
    f_language <- Validate.opt_str a_language ;;
    f_raw <- Validate.dict doc ;;
    Ok (Some {|
      external_id := work_key;
      source := OPEN_LIBRARY;
      title := f_title;
      authors := f_authors;
      description := None;
      isbn_10 := f_isbn_10;
      isbn_13 := f_isbn_13;
      publisher := f_publisher;
      published_date :=
        if Py.truthy fpy then Some (py_str env fpy) else None;
      page_count := f_page_count;
      categories := f_categories;
      language := f_language;
      thumbnail_url := cover_thumbnail cover_id;
      preview_link := None;
      info_link := Some ("https://openlibrary.org/works/" +:+ work_key);
      average_rating := None;
      ratings_count := None;
      maturity_rating := None;
      raw_metadata := f_raw;
    |})).

End Parsing.

(* ===================================================================== *)
(** ** The persisted record ([models/external_book.py]) *)
(* ===================================================================== *)

Module Model.

(** [class ExternalBook(Base)], table [external_books].  Timestamps are
    readings of the clock. *)
Record ExternalBook : Type := mkExternalBook {
  id : Z;
  source : string;
  external_id : string;
  title : string;
  authors : option (list string);
  description : option string;
  cover_url : option string;
  published_date : option string;
  published_year : option Z;
  language : option string;
  categories : option (list string);
  isbn_10 : option string;
  isbn_13 : option string;
  publisher : option string;
  page_count : option Z;
  average_rating : option Q;
  ratings_count : option Z;
  metadata_json : option json;
  preview_link : option string;
  info_link : option string;
  download_url : option string;
  is_imported : bool;
  imported_book_id : option Z;
  imported_by_id : option Z;
  imported_at : option Z;
  created_at : Z;
  updated_at : option Z;
  last_fetched_at : option Z;
}.

End Model.

(* ===================================================================== *)
(** ** Effects *)
(* ===================================================================== *)

(** What an observer of a run sees, in the order it happens. *)
Inductive event : Type :=
| EvCoroutine (s : ExternalSource)
    (** a search coroutine object is created; its body has not started *)
| EvSearch (s : ExternalSource)
    (** the body of [search_google_books] / [search_open_library] starts *)
| EvSearchEnd (s : ExternalSource)
    (** that body returns or raises *)
| EvGetDetails (s : ExternalSource) (external_id : string)
    (** [get_google_book_details] / [get_open_library_book_details] is run *)
| EvHttp (r : Request)
    (** [await client.get(...)] *)
| EvSleep
    (** [asyncio.sleep(0.5)] has run *)
| EvProgress (current total successful failed : Z)
    (** [self.update_state(state="PROGRESS", meta=...)] *).

(** The current event loop of the thread, as [asyncio.get_event_loop()]
    finds it. *)
Inductive loop_state : Type :=
| LoopUnset    (** [set_event_loop] has not been called *)
| LoopOpen
| LoopClosed.

Record World : Type := mkWorld {
  db : list Model.ExternalBook;   (** rows of [external_books] *)
  next_id : Z;                    (** the primary key's sequence *)
  trace : list event;
  http_count : nat;
  clock_count : nat;
  loop : loop_state;
}.

Definition M (A : Type) : Type := World -> res A * World.

Definition ret {A} (a : A) : M A := fun w => (Ok a, w).
Definition raise {A} (e : exn) : M A := fun w => (Raise e, w).
Definition bind {A B} (c : M A) (k : A -> M B) : M B :=
  fun w => match c w with
           | (Ok a, w') => k a w'
           | (Raise e, w') => (Raise e, w')
           end.
Definition lift {A} (c : res A) : M A := fun w => (c, w).

(** [try: c  except <classes selected by handles>: h e] *)
Definition try_except {A} (c : M A) (handles : exn -> bool) (h : exn -> M A) : M A :=
  fun w => match c w with
           | (Raise e, w') => if handles e then h e w' else (Raise e, w')
           | r => r
           end.

Declare Scope M_scope.
Delimit Scope M_scope with M.
Notation "x <- c ;; k" := (bind c (fun x => k))
  (at level 100, c at next level, right associativity) : M_scope.

Definition emit (e : event) : M unit :=
  fun w => (Ok tt, {| db := db w; next_id := next_id w;
                      trace := trace w ++ [e];
                      http_count := http_count w;
                      clock_count := clock_count w; loop := loop w |}).

Fixpoint for_eachM {S A : Type} (body : S -> A -> M S) (l : list A) (s : S) : M S :=
  match l with
  | [] => ret s
  | x :: rest => bind (body s x) (for_eachM body rest)
  end.

Lemma bind_ret_l {A B} (a : A) (k : A -> M B) w : bind (ret a) k w = k a w.
Proof. reflexivity. Qed.

Lemma bind_Ok {A B} (c : M A) (k : A -> M B) w a w' :
  c w = (Ok a, w') -> bind c k w = k a w'.
Proof. unfold bind; intros ->; reflexivity. Qed.

Lemma bind_Raise {A B} (c : M A) (k : A -> M B) w e w' :
  c w = (Raise e, w') -> bind c k w = (Raise e, w').
Proof. unfold bind; intros ->; reflexivity. Qed.

Definition with_trace (t : list event) (w : World) : World :=
  {| db := db w; next_id := next_id w; trace := t;
     http_count := http_count w; clock_count := clock_count w; loop := loop w |}.

Definition with_loop (l : loop_state) (w : World) : World :=
  {| db := db w; next_id := next_id w; trace := trace w;
     http_count := http_count w; clock_count := clock_count w; loop := l |}.

Definition with_db (d : list Model.ExternalBook) (n : Z) (w : World) : World :=
  {| db := d; next_id := n; trace := trace w;
     http_count := http_count w; clock_count := clock_count w; loop := loop w |}.

(** Run [c], then record [e], whether [c] returned or raised. *)
Definition then_emit {A} (c : M A) (e : event) : M A :=
  fun w => match c w with (r, w') => (r, with_trace (trace w' ++ [e]) w') end.

(** [if s:] on a [str | None] *)
Definition nonempty (s : option string) : bool :=
  match s with
  | Some x => negb (String.eqb x "")
  | None => false
  end.

(** [a or b] where [a] is a [str | None] *)
Definition or_else (a b : option string) : option string :=
  if nonempty a then a else b.

(* ===================================================================== *)
(** ** Source adapters: requests ([ExternalApisService]) *)
(* ===================================================================== *)

Definition GOOGLE_BOOKS_BASE_URL : string := "https://www.googleapis.com/books/v1".
Definition OPEN_LIBRARY_BASE_URL : string := "https://openlibrary.org".
Definition MAX_RESULTS_LIMIT : Z := 40.

Section Service.
Variable env : Env.
Local Open Scope M_scope.

(** [datetime.now()], [datetime.utcnow()] *)
Definition now : M Z :=
  fun w => (Ok (clock env (clock_count w)),
            {| db := db w; next_id := next_id w; trace := trace w;
               http_count := http_count w;
               clock_count := S (clock_count w); loop := loop w |}).

(** [await client.get(url, params=params)] *)
Definition client_get (r : Request) : M http_outcome :=
  fun w => (Ok (http env (http_count w) r),
            {| db := db w; next_id := next_id w;
               trace := trace w ++ [EvHttp r];
               http_count := S (http_count w);
               clock_count := clock_count w; loop := loop w |}).

(** The [params] dict that [search_google_books] sends. *)
Definition google_search_params (query : string) (max_results start_index : Z)
    (language print_type order_by : option string) : list (string * json) :=
  let max_results := Z.min (Z.max 1 max_results) MAX_RESULTS_LIMIT in
  [("q", JStr query); ("maxResults", JInt max_results);
   ("startIndex", JInt start_index)]
  ++ (if nonempty (google_books_api_key env)
      then [("key", JStr (default "" (google_books_api_key env)))] else [])
  ++ (if nonempty language
      then [("langRestrict", JStr (default "" language))] else [])
  ++ (if nonempty print_type
      then [("printType", JStr (default "" print_type))] else [])
  ++ (if nonempty order_by
      then [("orderBy", JStr (default "" order_by))] else []).

(** The [params] dict that [search_open_library] sends. *)
Definition open_library_search_params (query : string) (max_results page : Z)
  : list (string * json) :=
  [("q", JStr query); ("limit", JInt (Z.min max_results 100));
   ("page", JInt page)].

Definition required_int (v : json) : res Z :=
  match v with
  | JNull => Raise ValidationError
  | _ => match pydantic_int env v with
         | Some n => Ok n
         | None => Raise ValidationError
         end
  end.

Definition search_google_books (query : string) (max_results start_index : Z)
    (language print_type order_by : option string) : M ExternalSearchResponse :=
  then_emit (
    _ <- emit (EvSearch GOOGLE_BOOKS) ;;
    start_time <- now ;;
    let params := google_search_params query max_results start_index
                    language print_type order_by in
    o <- client_get {| url := GOOGLE_BOOKS_BASE_URL +:+ "/volumes";
                       params := params |} ;;
    data <- match o with
            | TimeoutException =>
                raise (ExternalAPIError GOOGLE_BOOKS "Request timed out" None)
            | RequestError e =>
                raise (ExternalAPIError GOOGLE_BOOKS ("Request failed: " +:+ e) None)
            | Response status body =>
                if Z.eqb status 429 then
                  raise (ExternalAPIError GOOGLE_BOOKS
                           "Rate limit exceeded. Please try again later." (Some 429))
                else if negb (Z.eqb status 200) then
                  raise (ExternalAPIError GOOGLE_BOOKS
                           ("API returned status " +:+ pretty status) (Some status))
                else match body with
                     | Some d => ret d
                     | None => raise JSONDecodeError
                     end
            end ;;
    total <- lift (Py.get_default data "totalItems" (JInt 0)) ;;
    its <- lift (Py.get_default data "items" (JArr [])) ;;
    its <- lift (Py.iter its) ;;
    let items := omap (_parse_google_book env) its in
    end_time <- now ;;
    total <- lift (required_int total) ;;
    ret {| sr_source := GOOGLE_BOOKS; query := query; total_items := total;
           items := items;
           search_time_ms := elapsed_ms env start_time end_time |})
    (EvSearchEnd GOOGLE_BOOKS).

Definition search_open_library (query : string) (max_results page : Z)
  : M ExternalSearchResponse :=
  then_emit (
    _ <- emit (EvSearch OPEN_LIBRARY) ;;
    start_time <- now ;;
    let params := open_library_search_params query max_results page in
    o <- client_get {| url := OPEN_LIBRARY_BASE_URL +:+ "/search.json";
                       params := params |} ;;
    data <- match o with
            | TimeoutException =>
                raise (ExternalAPIError OPEN_LIBRARY "Request timed out" None)
            | RequestError e =>
                raise (ExternalAPIError OPEN_LIBRARY ("Request failed: " +:+ e) None)
            | Response status body =>
                if negb (Z.eqb status 200) then
                  raise (ExternalAPIError OPEN_LIBRARY
                           ("API returned status " +:+ pretty status) (Some status))
                else match body with
                     | Some d => ret d
                     | None => raise JSONDecodeError
                     end
            end ;;
    total <- lift (Py.get_default data "numFound" (JInt 0)) ;;
    docs <- lift (Py.get_default data "docs" (JArr [])) ;;
    docs <- lift (Py.iter docs) ;;
    let items := omap (_parse_open_library_book env) docs in
    end_time <- now ;;
    total <- lift (required_int total) ;;
    ret {| sr_source := OPEN_LIBRARY; query := query; total_items := total;
           items := items;
           search_time_ms := elapsed_ms env start_time end_time |})
    (EvSearchEnd OPEN_LIBRARY).

(** The request of [get_google_book_details]. *)
Definition google_details_request (google_books_id : string) : Request :=
  {| url := GOOGLE_BOOKS_BASE_URL +:+ "/volumes/" +:+ google_books_id;
     params := if nonempty (google_books_api_key env)
               then [("key", JStr (default "" (google_books_api_key env)))]
               else [] |}.

(** [get_google_book_details] from the answer to its request on. *)
Definition google_details_of_answer (google_books_id : string) (o : http_outcome)
  : M ExternalBookResult :=
  data <- match o with
          | TimeoutException =>
              raise (ExternalAPIError GOOGLE_BOOKS "Request timed out" None)
          | RequestError e =>
              raise (ExternalAPIError GOOGLE_BOOKS ("Request failed: " +:+ e) None)
          | Response status body =>
              if Z.eqb status 404 then
                raise (ExternalAPIError GOOGLE_BOOKS
                         ("Book with ID '" +:+ google_books_id +:+ "' not found")
                         (Some 404))
              else if negb (Z.eqb status 200) then
                raise (ExternalAPIError GOOGLE_BOOKS
                         ("API returned status " +:+ pretty status) (Some status))
              else match body with
                   | Some d => ret d
                   | None => raise JSONDecodeError
                   end
          end ;;
  match _parse_google_book env data with
  | Some parsed => ret parsed
  | None => raise (ExternalAPIError GOOGLE_BOOKS "Failed to parse book data" None)
  end.

Definition get_google_book_details (google_books_id : string)
  : M ExternalBookResult :=
  _ <- emit (EvGetDetails GOOGLE_BOOKS google_books_id) ;;
  o <- client_get (google_details_request google_books_id) ;;
  google_details_of_answer google_books_id o.

(** Body of the loop over [work_data.get("authors", [])]: the secondary
    lookup of one author, whose failure is passed over. *)
Definition author_body (authors : list json) (author_ref : json) : M (list json) :=
  a <- lift (Py.get_default author_ref "author" (JObj [])) ;;
  author_key <- lift (Py.get_default a "key" (JStr "")) ;;
  if Py.truthy author_key then
    o <- client_get {| url := OPEN_LIBRARY_BASE_URL +:+ py_str env author_key +:+ ".json";
                       params := [] |} ;;
    match o with
    | Response status (Some author_data) =>
        if Z.eqb status 200 then
          match Py.get_default author_data "name" (JStr "Unknown") with
          | Ok name => ret (authors ++ [name])%list
          | Raise _ => ret authors
          end
        else ret authors
    | Response status None =>
        ret authors
    | TimeoutException | RequestError _ => ret authors
    end
  else ret authors.

(** The first request of [get_open_library_book_details]. *)
Definition work_request (work_key : string) : Request :=
  {| url := OPEN_LIBRARY_BASE_URL +:+ "/works/" +:+ work_key +:+ ".json";
     params := [] |}.

(** [get_open_library_book_details] from the answer to its first request
    on. *)
Definition open_library_details_of_answer (work_key : string) (o : http_outcome)
  : M ExternalBookResult :=
  work_data <- match o with
          | TimeoutException =>
              raise (ExternalAPIError OPEN_LIBRARY "Request timed out" None)
          | RequestError e =>
              raise (ExternalAPIError OPEN_LIBRARY ("Request failed: " +:+ e) None)
          | Response status body =>
              if Z.eqb status 404 then
                raise (ExternalAPIError OPEN_LIBRARY
                         ("Book with key '" +:+ work_key +:+ "' not found")
                         (Some 404))
              else if negb (Z.eqb status 200) then
                raise (ExternalAPIError OPEN_LIBRARY
                         ("API returned status " +:+ pretty status) (Some status))
              else match body with
                   | Some d => ret d
                   | None => raise JSONDecodeError
                   end
          end ;;
  refs <- lift (Py.get_default work_data "authors" (JArr [])) ;;
  refs <- lift (Py.iter refs) ;;
  authors <- for_eachM author_body refs [] ;;
  covers <- lift (Py.get work_data "covers") ;;
  cover_id <- (if Py.truthy covers then lift (Py.index0 covers) else ret JNull) ;;
  let thumbnail_url := cover_thumbnail env cover_id in
  description <- lift (Py.get work_data "description") ;;
  description <- match description with
                 | JObj _ => lift (Py.get_default description "value" (JStr ""))
                 | _ => ret description
                 end ;;
  a_title <- lift (Py.get_default work_data "title" (JStr "Unknown Title")) ;;
  subjects <- lift (Py.get_default work_data "subjects" (JArr [])) ;;
  a_categories <- lift (Py.slice_to 5 subjects) ;;
  f_title <- lift (Validate.str a_title) ;;
  f_authors <- lift (Validate.strs authors) ;;
  f_description <- lift (Validate.opt_str description) ;;
  f_categories <- lift (Validate.list_str a_categories) ;;
  f_raw <- lift (Validate.dict work_data) ;;
  ret {|
    external_id := work_key;
    source := OPEN_LIBRARY;
    title := f_title;
    authors := f_authors;
    description := f_description;
    isbn_10 := None;
    isbn_13 := None;
    publisher := None;
    published_date := None;
    page_count := None;
    categories := f_categories;
    language := None;
    thumbnail_url := thumbnail_url;
    preview_link := None;
    info_link := Some ("https://openlibrary.org/works/" +:+ work_key);
    average_rating := None;
    ratings_count := None;
    maturity_rating := None;
    raw_metadata := f_raw;
  |}.

Definition get_open_library_book_details (work_key : string)
  : M ExternalBookResult :=
  _ <- emit (EvGetDetails OPEN_LIBRARY work_key) ;;
  o <- client_get (work_request work_key) ;;
  open_library_details_of_answer work_key o.

End Service.

(* ===================================================================== *)
(** ** Aggregator ([ExternalApisService.search_all_sources]) *)
(* ===================================================================== *)

Section Aggregator.
Variable env : Env.
Local Open Scope M_scope.

(** The response that stands for a source whose search raised. *)
Definition empty_response (source : ExternalSource) (query : string)
  : ExternalSearchResponse :=
  {| sr_source := source; query := query; total_items := 0; items := [];
     search_time_ms := 0 |}.

(** First loop: calling an [async def] creates a coroutine object and
    runs nothing of its body; the object is the suspended computation. *)
Definition make_task (query : string) (max_results_per_source : Z)
    (tasks : list (ExternalSource * M ExternalSearchResponse))
    (source : ExternalSource)
  : M (list (ExternalSource * M ExternalSearchResponse)) :=
  match source with
  | GOOGLE_BOOKS =>
      _ <- emit (EvCoroutine GOOGLE_BOOKS) ;;
      ret (tasks ++ [(source, search_google_books env query
                                max_results_per_source 0 None None None)])%list
  | OPEN_LIBRARY =>
      _ <- emit (EvCoroutine OPEN_LIBRARY) ;;
      ret (tasks ++ [(source, search_open_library env query
                                max_results_per_source 1)])%list
  end.

(** Second loop: [await task] runs the coroutine to its end. *)
Definition await_task (query : string)
    (results : gmap ExternalSource ExternalSearchResponse)
    (st : ExternalSource * M ExternalSearchResponse)
  : M (gmap ExternalSource ExternalSearchResponse) :=
  try_except
    (r <- snd st ;; ret (<[fst st := r]> results))
    is_ExternalAPIError
    (fun _ => ret (<[fst st := empty_response (fst st) query]> results)).

Definition search_all_sources (query : string) (max_results_per_source : Z)
    (sources : option (list ExternalSource))
  : M (gmap ExternalSource ExternalSearchResponse) :=
  let sources := default [GOOGLE_BOOKS; OPEN_LIBRARY] sources in
  tasks <- for_eachM (make_task query max_results_per_source) sources [] ;;
  for_eachM (await_task query) tasks ∅.

End Aggregator.

(* ===================================================================== *)
(** ** Import store: the SQLAlchemy session on [external_books] *)
(* ===================================================================== *)

(** The record store is taken to be reliable: a statement or a commit does
    not fail, except [scalar_one_or_none()] on several rows. *)
Section Store.
Variable env : Env.
Local Open Scope M_scope.

Definition key_matches (source external_id : string) (b : Model.ExternalBook) : bool :=
  String.eqb (Model.source b) source && String.eqb (Model.external_id b) external_id.

(** [db.execute(select(ExternalBook).where(and_(source == ..,
    external_id == ..))).scalar_one_or_none()] *)
Definition select_by_key (source external_id : string)
  : M (option Model.ExternalBook) :=
  fun w => match List.filter (key_matches source external_id) (db w) with
           | [] => (Ok None, w)
           | [b] => (Ok (Some b), w)
           | _ => (Raise MultipleResultsFound, w)
           end.

(** [db.get(ExternalBook, external_book_id)] *)
Definition get_by_id (external_book_id : Z) : M (option Model.ExternalBook) :=
  fun w => (Ok (List.find (fun b => Z.eqb (Model.id b) external_book_id) (db w)), w).

Definition replace_row (b : Model.ExternalBook) (rows : list Model.ExternalBook)
  : list Model.ExternalBook :=
  map (fun r => if Z.eqb (Model.id r) (Model.id b) then b else r) rows.

(** [updated_at] has [onupdate=func.now()]. *)
Definition stamp_updated (b : Model.ExternalBook) (updated_at : Z)
  : Model.ExternalBook :=
  {| Model.id := Model.id b; Model.source := Model.source b;
     Model.external_id := Model.external_id b; Model.title := Model.title b;
     Model.authors := Model.authors b; Model.description := Model.description b;
     Model.cover_url := Model.cover_url b;
     Model.published_date := Model.published_date b;
     Model.published_year := Model.published_year b;
     Model.language := Model.language b; Model.categories := Model.categories b;
     Model.isbn_10 := Model.isbn_10 b; Model.isbn_13 := Model.isbn_13 b;
     Model.publisher := Model.publisher b; Model.page_count := Model.page_count b;
     Model.average_rating := Model.average_rating b;
     Model.ratings_count := Model.ratings_count b;
     Model.metadata_json := Model.metadata_json b;
     Model.preview_link := Model.preview_link b;
     Model.info_link := Model.info_link b;
     Model.download_url := Model.download_url b;
     Model.is_imported := Model.is_imported b;
     Model.imported_book_id := Model.imported_book_id b;
     Model.imported_by_id := Model.imported_by_id b;
     Model.imported_at := Model.imported_at b;
     Model.created_at := Model.created_at b;
     Model.updated_at := Some updated_at;
     Model.last_fetched_at := Model.last_fetched_at b |}.

(** [db.commit()] after attribute assignments on a loaded row. *)
Definition commit_update (b : Model.ExternalBook) : M unit :=
  t <- now env ;;
  fun w => (Ok tt, with_db (replace_row (stamp_updated b t) (db w)) (next_id w) w).

(** [db.add(new_book); db.commit(); db.refresh(new_book)]: the row gets
    the next primary key and [created_at] from [server_default];
    the result is [new_book.id]. *)
Definition add_and_commit (mk : Z -> Z -> Model.ExternalBook) : M Z :=
  t <- now env ;;
  fun w =>
    let new_id := next_id w in
    (Ok new_id, with_db (db w ++ [mk new_id t]) (new_id + 1) w).

(** The year that the import and the refresh read off [published_date]:
    [int(published_date[:4])] when the string has four characters, and
    nothing when [int] raises [ValueError]. *)
Definition parse_published_year (published_date : option string) : option Z :=
  match published_date with
  | Some date_str =>
      if nonempty published_date then
        if (4 <=? String.length date_str)%nat
        then py_int env (Py.str_take 4 date_str)
        else None
      else None
  | None => None
  end.

(** The assignments that both the import and the refresh make on a
    loaded row from the adapter's result, with the three values that the
    import lets the caller override. *)
Definition assign_metadata (existing : Model.ExternalBook)
    (book_data : ExternalBookResult) (title : string)
    (description language : option string) : Model.ExternalBook :=
  {| Model.id := Model.id existing;
     Model.source := Model.source existing;
     Model.external_id := Model.external_id existing;
     Model.title := title;
     Model.authors := Some (authors book_data);
     Model.description := description;
     Model.cover_url := thumbnail_url book_data;
     Model.published_date := published_date book_data;
     Model.published_year := parse_published_year (published_date book_data);
     Model.language := language;
     Model.categories := Some (categories book_data);
     Model.isbn_10 := isbn_10 book_data;
     Model.isbn_13 := isbn_13 book_data;
     Model.publisher := publisher book_data;
     Model.page_count := page_count book_data;
     Model.average_rating := average_rating book_data;
     Model.ratings_count := ratings_count book_data;
     Model.metadata_json := Some (raw_metadata book_data);
     Model.preview_link := preview_link book_data;
     Model.info_link := info_link book_data;
     Model.download_url := Model.download_url existing;
     Model.is_imported := Model.is_imported existing;
     Model.imported_book_id := Model.imported_book_id existing;
     Model.imported_by_id := Model.imported_by_id existing;
     Model.imported_at := Model.imported_at existing;
     Model.created_at := Model.created_at existing;
     Model.updated_at := Model.updated_at existing;
     Model.last_fetched_at := Model.last_fetched_at existing |}.

(** [existing.is_imported = True; existing.imported_by_id = ..;
    existing.imported_at = ..; existing.last_fetched_at = ..] *)
Definition mark_imported (b : Model.ExternalBook) (user_id : option Z)
    (imported_at last_fetched_at : Z) : Model.ExternalBook :=
  {| Model.id := Model.id b; Model.source := Model.source b;
     Model.external_id := Model.external_id b; Model.title := Model.title b;
     Model.authors := Model.authors b; Model.description := Model.description b;
     Model.cover_url := Model.cover_url b;
     Model.published_date := Model.published_date b;
     Model.published_year := Model.published_year b;
     Model.language := Model.language b; Model.categories := Model.categories b;
     Model.isbn_10 := Model.isbn_10 b; Model.isbn_13 := Model.isbn_13 b;
     Model.publisher := Model.publisher b; Model.page_count := Model.page_count b;
     Model.average_rating := Model.average_rating b;
     Model.ratings_count := Model.ratings_count b;
     Model.metadata_json := Model.metadata_json b;
     Model.preview_link := Model.preview_link b;
     Model.info_link := Model.info_link b;
     Model.download_url := Model.download_url b;
     Model.is_imported := true;
     Model.imported_book_id := Model.imported_book_id b;
     Model.imported_by_id := user_id;
     Model.imported_at := Some imported_at;
     Model.created_at := Model.created_at b;
     Model.updated_at := Model.updated_at b;
     Model.last_fetched_at := Some last_fetched_at |}.

(** [book.last_fetched_at = datetime.utcnow()] *)
Definition stamp_fetched (b : Model.ExternalBook) (last_fetched_at : Z)
  : Model.ExternalBook :=
  {| Model.id := Model.id b; Model.source := Model.source b;
     Model.external_id := Model.external_id b; Model.title := Model.title b;
     Model.authors := Model.authors b; Model.description := Model.description b;
     Model.cover_url := Model.cover_url b;
     Model.published_date := Model.published_date b;
     Model.published_year := Model.published_year b;
     Model.language := Model.language b; Model.categories := Model.categories b;
     Model.isbn_10 := Model.isbn_10 b; Model.isbn_13 := Model.isbn_13 b;
     Model.publisher := Model.publisher b; Model.page_count := Model.page_count b;
     Model.average_rating := Model.average_rating b;
     Model.ratings_count := Model.ratings_count b;
     Model.metadata_json := Model.metadata_json b;
     Model.preview_link := Model.preview_link b;
     Model.info_link := Model.info_link b;
     Model.download_url := Model.download_url b;
     Model.is_imported := Model.is_imported b;
     Model.imported_book_id := Model.imported_book_id b;
     Model.imported_by_id := Model.imported_by_id b;
     Model.imported_at := Model.imported_at b;
     Model.created_at := Model.created_at b;
     Model.updated_at := Model.updated_at b;
     Model.last_fetched_at := Some last_fetched_at |}.

(** [ExternalBook(source=.., external_id=.., title=.., ...,
    is_imported=True, imported_by_id=.., imported_at=..,
    last_fetched_at=..)]; the columns that the constructor is not given
    are [NULL]. *)
Definition new_book (source external_id : string)
    (book_data : ExternalBookResult) (title : string)
    (description language : option string) (user_id : option Z)
    (imported_at last_fetched_at : Z) (new_id created_at : Z)
  : Model.ExternalBook :=
  {| Model.id := new_id;
     Model.source := source;
     Model.external_id := external_id;
     Model.title := title;
     Model.authors := Some (authors book_data);
     Model.description := description;
     Model.cover_url := thumbnail_url book_data;
     Model.published_date := published_date book_data;
     Model.published_year := parse_published_year (published_date book_data);
     Model.language := language;
     Model.categories := Some (categories book_data);
     Model.isbn_10 := isbn_10 book_data;
     Model.isbn_13 := isbn_13 book_data;
     Model.publisher := publisher book_data;
     Model.page_count := page_count book_data;
     Model.average_rating := average_rating book_data;
     Model.ratings_count := ratings_count book_data;
     Model.metadata_json := Some (raw_metadata book_data);
     Model.preview_link := preview_link book_data;
     Model.info_link := info_link book_data;
     Model.download_url := None;
     Model.is_imported := true;
     Model.imported_book_id := None;
     Model.imported_by_id := user_id;
     Model.imported_at := Some imported_at;
     Model.created_at := created_at;
     Model.updated_at := None;
     Model.last_fetched_at := Some last_fetched_at |}.

(** The branch [if existing: ... else: ...] that the endpoint and the
    task share, from the first assignment to [external_book_id]. *)
Definition write_import (existing : option Model.ExternalBook)
    (source external_id : string) (book_data : ExternalBookResult)
    (title_override description_override language_override : option string)
    (user_id : option Z) : M Z :=
  let title' := default "" (or_else title_override (Some (title book_data))) in
  let description' := or_else description_override (description book_data) in
  let language' := or_else language_override (language book_data) in
  match existing with
  | Some existing =>
      imported_at <- now env ;;
      last_fetched_at <- now env ;;
      _ <- commit_update
             (mark_imported
                (assign_metadata existing book_data title' description' language')
                user_id imported_at last_fetched_at) ;;
      ret (Model.id existing)
  | None =>
      imported_at <- now env ;;
      last_fetched_at <- now env ;;
      add_and_commit
        (new_book source external_id book_data title' description' language'
                  user_id imported_at last_fetched_at)
  end.

End Store.

(* ===================================================================== *)
(** ** Interactive import ([api/endpoints/external.py]) *)
(* ===================================================================== *)

Module Schema.

(** [class ExternalBookImportRequest(BaseModel)] *)
Record ExternalBookImportRequest : Type := mkImportRequest {
  source : ExternalSource;
  external_id : string;
  title : option string;
  author : option string;
  description : option string;
  category : option string;
  language : option string;
}.

(** [class ImportResult(CamelCaseModel)] *)
Record ImportResult : Type := mkImportResult {
  r_external_id : string;
  r_source : ExternalSource;
  success : bool;
  message : string;
  external_book_id : option Z;
  error : option string;
}.

(** [class BulkImportResponse(CamelCaseModel)] *)
Record BulkImportResponse : Type := mkBulkImportResponse {
  total : Z;
  successful : Z;
  failed : Z;
  results : list ImportResult;
  task_id : option string;
}.

End Schema.

Section Endpoints.
Variable env : Env.
Local Open Scope M_scope.

(** The adapter's [getDetails] of a source. *)
Definition get_details (source : ExternalSource) (external_id : string)
  : M ExternalBookResult :=
  match source with
  | GOOGLE_BOOKS => get_google_book_details env external_id
  | OPEN_LIBRARY => get_open_library_book_details env external_id
  end.

(** Steps "fetch book details" to the end of [import_external_book]:
    the adapter call, whose [ExternalAPIError] becomes a failed result,
    and the write through the store. *)
Definition fetch_and_store (current_user_id : Z)
    (request : Schema.ExternalBookImportRequest)
    (existing : option Model.ExternalBook) : M Schema.ImportResult :=
  fetched <- try_except
               (b <- get_details (Schema.source request)
                                 (Schema.external_id request) ;;
                ret (inl b))
               is_ExternalAPIError (fun e => ret (inr e)) ;;
  match fetched with
  | inr e =>
      ret {| Schema.r_external_id := Schema.external_id request;
             Schema.r_source := Schema.source request;
             Schema.success := false;
             Schema.message := "Failed to fetch book details";
             Schema.external_book_id := None;
             Schema.error := Some (exn_str e) |}
  | inl book_data =>
      external_book_id <-
        write_import env existing
          (source_value (Schema.source request)) (Schema.external_id request)
          book_data (Schema.title request) (Schema.description request)
          (Schema.language request) (Some current_user_id) ;;
      ret {| Schema.r_external_id := Schema.external_id request;
             Schema.r_source := Schema.source request;
             Schema.success := true;
             Schema.message := "Book imported successfully";
             Schema.external_book_id := Some external_book_id;
             Schema.error := None |}
  end.

(** [POST /external/import].  [ExternalSourceEnum] has the two members of
    [ExternalSource], so the branch that raises [HTTPException(400)] is
    never taken. *)
Definition import_external_book (current_user_id : Z)
    (request : Schema.ExternalBookImportRequest) : M Schema.ImportResult :=
  existing <- select_by_key (source_value (Schema.source request))
                            (Schema.external_id request) ;;
  match existing with
  | Some e =>
      if Model.is_imported e then
        ret {| Schema.r_external_id := Schema.external_id request;
               Schema.r_source := Schema.source request;
               Schema.success := true;
               Schema.message := "Book already imported";
               Schema.external_book_id := Some (Model.id e);
               Schema.error := None |}
      else fetch_and_store current_user_id request existing
  | None => fetch_and_store current_user_id request existing
  end.

(** Body of the loop of [bulk_import_external_books]; the accumulator is
    [(results, successful, failed)]. *)
Definition bulk_endpoint_body (current_user_id : Z)
    (acc : list Schema.ImportResult * Z * Z)
    (item : Schema.ExternalBookImportRequest)
  : M (list Schema.ImportResult * Z * Z) :=
  let '(results, successful, failed) := acc in
  try_except
    (result <- import_external_book current_user_id item ;;
     if Schema.success result
     then ret ((results ++ [result])%list, successful + 1, failed)
     else ret ((results ++ [result])%list, successful, failed + 1))
    (fun _ => true)
    (fun e =>
       ret ((results ++ [{| Schema.r_external_id := Schema.external_id item;
                            Schema.r_source := Schema.source item;
                            Schema.success := false;
                            Schema.message := "Import failed";
                            Schema.external_book_id := None;
                            Schema.error := Some (exn_str e) |}])%list,
            successful, failed + 1)).

(** [POST /external/import/bulk] *)
Definition bulk_import_external_books (current_user_id : Z)
    (request_items : list Schema.ExternalBookImportRequest)
  : M Schema.BulkImportResponse :=
  acc <- for_eachM (bulk_endpoint_body current_user_id) request_items ([], 0, 0) ;;
  let '(results, successful, failed) := acc in
  ret {| Schema.total := Z.of_nat (length request_items);
         Schema.successful := successful;
         Schema.failed := failed;
         Schema.results := results;
         Schema.task_id := None |}.

End Endpoints.

(* ===================================================================== *)
(** ** Background tasks ([tasks/external_books.py]) *)
(* ===================================================================== *)

Module Task.

(** The dict that [_import_book_async] and [import_single_book] return;
    a key that a dict does not have is [None]. *)
Record ImportDict : Type := mkImportDict {
  success : bool;
  external_id : string;
  source : string;
  external_book_id : option Z;
  message : option string;
  error : option string;
}.

(** The dict that [bulk_import_books] returns. *)
Record BulkDict : Type := mkBulkDict {
  total : Z;
  successful : Z;
  failed : Z;
  results : list ImportDict;
}.

(** The dict that [update_book_metadata] returns. *)
Record UpdateDict : Type := mkUpdateDict {
  u_success : bool;
  u_external_book_id : Z;
  u_message : option string;
  u_error : option string;
}.

(** An element of [items]: a dict with [source] and [external_id], and
    maybe [overrides], a dict of strings. *)
Record Item : Type := mkItem {
  i_source : string;
  i_external_id : string;
  i_overrides : option (list (string * string));
}.

End Task.

Section Tasks.
Variable env : Env.
Local Open Scope M_scope.

(** [run_async(coro)]: a new event loop is made the current one, runs
    the coroutine, and is closed in the [finally] clause. *)
Definition run_async {A} (coro : M A) : M A :=
  fun w => match coro (with_loop LoopOpen w) with
           | (r, w') => (r, with_loop LoopClosed w')
           end.

(** [asyncio.get_event_loop().run_until_complete(asyncio.sleep(0.5))].
    [get_event_loop()] returns the loop that [set_event_loop] installed,
    closed or not, and [run_until_complete] begins with
    [self._check_closed()].  With no loop installed, the main thread
    gets a new one. *)
Definition sleep_on_current_loop : M unit :=
  fun w => match loop w with
           | LoopClosed => (Raise (RuntimeError "Event loop is closed"), w)
           | LoopOpen => emit EvSleep w
           | LoopUnset => emit EvSleep (with_loop LoopOpen w)
           end.

(** [raise self.retry(exc=exc, countdown=countdown)] in a task bound with
    [max_retries]; [retries] is [self.request.retries].  Celery raises
    [exc] itself once [retries + 1 > max_retries], and [Retry] before. *)
Definition task_retry {A} (max_retries retries : Z) (exc : exn) (countdown : Z)
  : M A :=
  if Z.ltb max_retries (retries + 1) then raise exc else raise (Retry countdown).

(** The two [except] clauses of [import_single_book] and of
    [update_book_metadata]:
    [except ExternalAPIError as e: if e.status_code == 429: raise
     self.retry(exc=e, countdown=60 * (self.request.retries + 1));
     return <failure>] and [except Exception as e: return <failure>]. *)
Definition task_handler {A} (retries : Z) (failure : exn -> A) (e : exn) : M A :=
  match e with
  | ExternalAPIError _ _ status_code =>
      if bool_decide (status_code = Some 429)
      then task_retry 3 retries e (60 * (retries + 1))
      else ret (failure e)
  | _ => ret (failure e)
  end.

Fixpoint assoc (kv : list (string * string)) (k : string) : option string :=
  match kv with
  | [] => None
  | (k', v) :: rest => if String.eqb k' k then Some v else assoc rest k
  end.

(** [metadata_overrides.get(k) if metadata_overrides else None] *)
Definition override (metadata_overrides : option (list (string * string)))
    (k : string) : option string :=
  match metadata_overrides with
  | Some ((_ :: _) as d) => assoc d k
  | _ => None
  end.

(** [if source == "google_books": book_data = await
    service.get_google_book_details(external_id) elif source ==
    "open_library": ... else: raise ValueError(...)], the first statement
    of [_import_book_async] and of [_update_metadata_async]. *)
Definition fetch_book_data (source external_id : string) : M ExternalBookResult :=
  if String.eqb source "google_books"
  then get_google_book_details env external_id
  else if String.eqb source "open_library"
  then get_open_library_book_details env external_id
  else raise (ValueError ("Unsupported source: " +:+ source)).

Definition _import_book_async (source external_id : string)
    (user_id : option Z) (metadata_overrides : option (list (string * string)))
  : M Task.ImportDict :=
  book_data <- fetch_book_data source external_id ;;
  let title := override metadata_overrides "title" in
  let description := override metadata_overrides "description" in
  let language := override metadata_overrides "language" in
  existing <- select_by_key source external_id ;;
  external_book_id <-
    write_import env existing source external_id book_data
                 title description language user_id ;;
  ret {| Task.success := true;
         Task.external_id := external_id;
         Task.source := source;
         Task.external_book_id := Some external_book_id;
         Task.message := Some "Book imported successfully";
         Task.error := None |}.

Definition failure_dict (source external_id : string) (e : exn) : Task.ImportDict :=
  {| Task.success := false;
     Task.external_id := external_id;
     Task.source := source;
     Task.external_book_id := None;
     Task.message := None;
     Task.error := Some (exn_str e) |}.

(** [@celery_app.task(bind=True, max_retries=3, ...)] *)
Definition import_single_book (retries : Z) (source external_id : string)
    (user_id : option Z) (metadata_overrides : option (list (string * string)))
  : M Task.ImportDict :=
  try_except
    (run_async (_import_book_async source external_id user_id metadata_overrides))
    (fun _ => true)
    (task_handler retries (failure_dict source external_id)).

(** Body of the loop of [bulk_import_books] for the item at index [i];
    the accumulator is [(results, successful, failed)]. *)
Definition bulk_task_body (n : Z) (user_id : option Z)
    (acc : list Task.ImportDict * Z * Z) (it : Z * Task.Item)
  : M (list Task.ImportDict * Z * Z) :=
  let '(results, successful, failed) := acc in
  let '(i, item) := it in
  let source := Task.i_source item in
  let external_id := Task.i_external_id item in
  let overrides := Task.i_overrides item in
  _ <- emit (EvProgress (i + 1) n successful failed) ;;
  acc' <- try_except
            (result <- run_async (_import_book_async source external_id
                                                     user_id overrides) ;;
             if Task.success result
             then ret ((results ++ [result])%list, successful + 1, failed)
             else ret ((results ++ [result])%list, successful, failed + 1))
            (fun _ => true)
            (fun e => ret ((results ++ [failure_dict source external_id e])%list,
                           successful, failed + 1)) ;;
  _ <- (if Z.ltb i (n - 1) then sleep_on_current_loop else ret tt) ;;
  ret acc'.

(** [enumerate(items)] *)
Definition enumerate {A} (l : list A) : list (Z * A) :=
  imap (fun i x => (Z.of_nat i, x)) l.

(** [@celery_app.task(bind=True, max_retries=1, ...)] *)
Definition bulk_import_books (items : list Task.Item) (user_id : option Z)
  : M Task.BulkDict :=
  let n := Z.of_nat (length items) in
  acc <- for_eachM (bulk_task_body n user_id) (enumerate items) ([], 0, 0) ;;
  let '(results, successful, failed) := acc in
  ret {| Task.total := n;
         Task.successful := successful;
         Task.failed := failed;
         Task.results := results |}.

Definition _update_metadata_async (source external_id : string)
    (external_book_id : Z) : M Task.UpdateDict :=
  book_data <- fetch_book_data source external_id ;;
  book <- get_by_id external_book_id ;;
  match book with
  | None =>
      ret {| Task.u_success := false;
             Task.u_external_book_id := external_book_id;
             Task.u_message := None;
             Task.u_error := Some "Book not found" |}
  | Some book =>
      let book := assign_metadata env book book_data (title book_data)
                    (description book_data) (language book_data) in
      last_fetched_at <- now env ;;
      _ <- commit_update env (stamp_fetched book last_fetched_at) ;;
      ret {| Task.u_success := true;
             Task.u_external_book_id := external_book_id;
             Task.u_message := Some "Metadata updated successfully";
             Task.u_error := None |}
  end.

Definition update_failure (external_book_id : Z) (error : string) : Task.UpdateDict :=
  {| Task.u_success := false;
     Task.u_external_book_id := external_book_id;
     Task.u_message := None;
     Task.u_error := Some error |}.

(** [@celery_app.task(bind=True, max_retries=3, ...)] *)
Definition update_book_metadata (retries : Z) (external_book_id : Z)
  : M Task.UpdateDict :=
  try_except
    (book <- get_by_id external_book_id ;;
     match book with
     | None => ret (update_failure external_book_id "Book not found")
     | Some book =>
         run_async (_update_metadata_async (Model.source book)
                      (Model.external_id book) external_book_id)
     end)
    (fun _ => true)
    (task_handler retries (fun e => update_failure external_book_id (exn_str e))).

End Tasks.

(* ===================================================================== *)
(** ** Search, details and cache endpoints ([api/endpoints/external.py]) *)
(* ===================================================================== *)

Module SearchSchema.

(** [class ExternalBookSearchResult(CamelCaseModel)] *)
Record ExternalBookSearchResult : Type := mkExternalBookSearchResult {
  external_id : string;
  source : ExternalSource;
  title : string;
  authors : list string;
  description : option string;
  isbn_10 : option string;
  isbn_13 : option string;
  publisher : option string;
  published_date : option string;
  page_count : option Z;
  categories : list string;
  language : option string;
  thumbnail_url : option string;
  preview_link : option string;
  info_link : option string;
  average_rating : option Q;
  ratings_count : option Z;
  is_imported : bool;
  imported_book_id : option Z;
}.

(** [class ExternalSearchResponse(CamelCaseModel)] *)
Record ExternalSearchResponse : Type := mkExternalSearchResponse {
  sr_source : ExternalSource;
  query : string;
  total_items : Z;
  items : list ExternalBookSearchResult;
  search_time_ms : Z;
}.

(** [class MultiSourceSearchResponse(CamelCaseModel)] *)
Record MultiSourceSearchResponse : Type := mkMultiSourceSearchResponse {
  m_query : string;
  results : gmap string ExternalSearchResponse;
  m_total_items : Z;
  total_search_time_ms : Z;
}.

End SearchSchema.

Module CachedSchema.

(** [class ExternalBookResponse(CamelCaseModel)] *)
Record ExternalBookResponse : Type := mkExternalBookResponse {
  id : Z;
  source : string;
  external_id : string;
  title : string;
  authors : option (list string);
  description : option string;
  cover_url : option string;
  published_date : option string;
  published_year : option Z;
  language : option string;
  categories : option (list string);
  isbn_10 : option string;
  isbn_13 : option string;
  publisher : option string;
  page_count : option Z;
  average_rating : option Q;
  ratings_count : option Z;
  preview_link : option string;
  info_link : option string;
  download_url : option string;
  is_imported : bool;
  imported_book_id : option Z;
  imported_at : option Z;
  created_at : Z;
  updated_at : option Z;
}.

(** [class ExternalBookListResponse(CamelCaseModel)] *)
Record ExternalBookListResponse : Type := mkExternalBookListResponse {
  items : list ExternalBookResponse;
  total : Z;
  skip : Z;
  limit : Z;
  has_more : bool;
}.

End CachedSchema.

Module Auth.

(** What the endpoints read of [current_user]. *)
Record User : Type := mkUser {
  id : Z;
  is_superuser : bool;
}.

End Auth.

Section SearchAndCache.
Variable env : Env.
Local Open Scope M_scope.

(** The rows of [select(ExternalBook.external_id, ExternalBook.is_imported,
    ExternalBook.imported_book_id).where(and_(ExternalBook.source == src,
    ExternalBook.external_id.in_(external_ids)))]. *)
Definition status_rows (source : string) (external_ids : list string)
    (rows : list Model.ExternalBook) : list Model.ExternalBook :=
  List.filter (fun b => String.eqb (Model.source b) source
                        && bool_decide (Model.external_id b ∈ external_ids)) rows.

(** [imported_map = {}; if external_ids: ... for row in result:
    imported_map[row.external_id] = {"is_imported": row.is_imported,
    "imported_book_id": row.imported_book_id}]; the rows are taken in the
    order of the table. *)
Definition imported_map_of (source : string) (external_ids : list string)
  : M (gmap string (bool * option Z)) :=
  match external_ids with
  | [] => ret ∅
  | _ =>
      fun w =>
        (Ok (fold_left
               (fun imported_map row =>
                  <[Model.external_id row :=
                      (Model.is_imported row, Model.imported_book_id row)]> imported_map)
               (status_rows source external_ids (db w)) ∅), w)
  end.

(** [ExternalBookSearchResult(external_id=item.external_id, ...,
    is_imported=import_info.get("is_imported", False),
    imported_book_id=import_info.get("imported_book_id"))] *)
Definition with_import_info (item : ExternalBookResult)
    (import_info : option (bool * option Z)) : SearchSchema.ExternalBookSearchResult :=
  {| SearchSchema.external_id := external_id item;
     SearchSchema.source := source item;
     SearchSchema.title := title item;
     SearchSchema.authors := authors item;
     SearchSchema.description := description item;
     SearchSchema.isbn_10 := isbn_10 item;
     SearchSchema.isbn_13 := isbn_13 item;
     SearchSchema.publisher := publisher item;
     SearchSchema.published_date := published_date item;
     SearchSchema.page_count := page_count item;
     SearchSchema.categories := categories item;
     SearchSchema.language := language item;
     SearchSchema.thumbnail_url := thumbnail_url item;
     SearchSchema.preview_link := preview_link item;
     SearchSchema.info_link := info_link item;
     SearchSchema.average_rating := average_rating item;
     SearchSchema.ratings_count := ratings_count item;
     SearchSchema.is_imported :=
       match import_info with Some (is_imported, _) => is_imported | None => false end;
     SearchSchema.imported_book_id :=
       match import_info with Some (_, imported_book_id) => imported_book_id | None => None end |}.

(** The steps "check import status" and "build response" that the two
    search endpoints share, for the response of one source. *)
Definition with_import_status (src : ExternalSource) (q : string)
    (search_response : ExternalSearchResponse) : M SearchSchema.ExternalSearchResponse :=
  let external_ids := map external_id (items search_response) in
  imported_map <- imported_map_of (source_value src) external_ids ;;
  let items := map (fun item => with_import_info item (imported_map !! external_id item))
                   (items search_response) in
  ret {| SearchSchema.sr_source := src;
         SearchSchema.query := q;
         SearchSchema.total_items := total_items search_response;
         SearchSchema.items := items;
         SearchSchema.search_time_ms := search_time_ms search_response |}.

(** [except ExternalAPIError as e: raise HTTPException(status_code=503,
    detail=str(e))] *)
Definition unavailable {A} (e : exn) : M A := raise (HTTPException 503 (exn_str e)).

(** [GET /external/search/{source}]; [limit] is validated to [1, 40] and
    [offset] to [0, ..) before the function runs.  [ExternalSourceEnum]
    has the two members of [ExternalSource], so the branch that raises
    [HTTPException(400)] is never taken. *)
Definition search_single_source (source : ExternalSource) (q : string)
    (limit offset : Z) : M SearchSchema.ExternalSearchResponse :=
  search_response <-
    try_except
      (match source with
       | GOOGLE_BOOKS => search_google_books env q limit offset None None None
       | OPEN_LIBRARY =>
           let page := if Z.ltb 0 limit then offset / limit + 1 else 1 in
           search_open_library env q limit page
       end)
      is_ExternalAPIError unavailable ;;
  with_import_status source q search_response.

(** Body of the loop over [results.items()] in [search_external_books];
    the accumulator is [(response_results, total_items, total_time)]. *)
Definition search_endpoint_body (q : string)
    (acc : gmap string SearchSchema.ExternalSearchResponse * Z * Z)
    (entry : ExternalSource * ExternalSearchResponse)
  : M (gmap string SearchSchema.ExternalSearchResponse * Z * Z) :=
  let '(response_results, total_items', total_time) := acc in
  let '(src, search_response) := entry in
  r <- with_import_status src q search_response ;;
  ret (<[source_value src := r]> response_results,
       total_items' + total_items search_response,
       total_time + search_time_ms search_response).

(** [results.items()]: a dict gives its entries in the order in which the
    keys were inserted, which is the order in which [search_all_sources]
    takes up the sources; the endpoint asks for one source or for the
    two, so no source comes twice. *)
Definition dict_items (sources : list ExternalSource)
    (results : gmap ExternalSource ExternalSearchResponse)
  : list (ExternalSource * ExternalSearchResponse) :=
  omap (fun s => (fun r => (s, r)) <$> results !! s) sources.

(** [GET /external/search] *)
Definition search_external_books (q : string) (source : option ExternalSource)
    (limit : Z) : M SearchSchema.MultiSourceSearchResponse :=
  let sources := match source with Some s => Some [s] | None => None end in
  results <- try_except (search_all_sources env q limit sources)
               is_ExternalAPIError unavailable ;;
  acc <- for_eachM (search_endpoint_body q)
           (dict_items (default [GOOGLE_BOOKS; OPEN_LIBRARY] sources) results)
           (∅, 0, 0) ;;
  let '(response_results, total_items', total_time) := acc in
  ret {| SearchSchema.m_query := q;
         SearchSchema.results := response_results;
         SearchSchema.m_total_items := total_items';
         SearchSchema.total_search_time_ms := total_time |}.

(** [GET /external/details/{source}/{external_id}] *)
Definition get_book_details (source : ExternalSource) (external_id : string)
  : M SearchSchema.ExternalBookSearchResult :=
  book_data <-
    try_except (get_details env source external_id) is_ExternalAPIError
      (fun e =>
         match e with
         | ExternalAPIError _ _ status_code =>
             if bool_decide (status_code = Some 404)
             then raise (HTTPException 404 (exn_str e))
             else raise (HTTPException 503 (exn_str e))
         | _ => raise (HTTPException 503 (exn_str e))
         end) ;;
  existing <- select_by_key (source_value source) external_id ;;
  ret (with_import_info book_data
         ((fun e => (Model.is_imported e, Model.imported_book_id e)) <$> existing)).

(** [ExternalBookResponse.model_validate(book)] *)
Definition model_validate (book : Model.ExternalBook) : CachedSchema.ExternalBookResponse :=
  {| CachedSchema.id := Model.id book;
     CachedSchema.source := Model.source book;
     CachedSchema.external_id := Model.external_id book;
     CachedSchema.title := Model.title book;
     CachedSchema.authors := Model.authors book;
     CachedSchema.description := Model.description book;
     CachedSchema.cover_url := Model.cover_url book;
     CachedSchema.published_date := Model.published_date book;
     CachedSchema.published_year := Model.published_year book;
     CachedSchema.language := Model.language book;
     CachedSchema.categories := Model.categories book;
     CachedSchema.isbn_10 := Model.isbn_10 book;
     CachedSchema.isbn_13 := Model.isbn_13 book;
     CachedSchema.publisher := Model.publisher book;
     CachedSchema.page_count := Model.page_count book;
     CachedSchema.average_rating := Model.average_rating book;
     CachedSchema.ratings_count := Model.ratings_count book;
     CachedSchema.preview_link := Model.preview_link book;
     CachedSchema.info_link := Model.info_link book;
     CachedSchema.download_url := Model.download_url book;
     CachedSchema.is_imported := Model.is_imported book;
     CachedSchema.imported_book_id := Model.imported_book_id book;
     CachedSchema.imported_at := Model.imported_at book;
     CachedSchema.created_at := Model.created_at book;
     CachedSchema.updated_at := Model.updated_at book |}.

(** [db.execute(select(ExternalBook).where(ExternalBook.id ==
    external_book_id)).scalar_one_or_none()] *)
Definition select_by_id (external_book_id : Z) : M (option Model.ExternalBook) :=
  fun w => match List.filter (fun b => Z.eqb (Model.id b) external_book_id) (db w) with
           | [] => (Ok None, w)
           | [b] => (Ok (Some b), w)
           | _ => (Raise MultipleResultsFound, w)
           end.

(** [GET /external/cached/{external_book_id}] *)
Definition get_cached_book (external_book_id : Z) : M CachedSchema.ExternalBookResponse :=
  book <- select_by_id external_book_id ;;
  match book with
  | None => raise (HTTPException 404 "External book not found")
  | Some book => ret (model_validate book)
  end.

(** [await db.delete(book); await db.commit()]: the row of the primary
    key of [book] goes. *)
Definition delete_and_commit (book : Model.ExternalBook) : M unit :=
  fun w => (Ok tt,
            with_db (List.filter (fun r => negb (Z.eqb (Model.id r) (Model.id book))) (db w))
                    (next_id w) w).

(** [DELETE /external/cached/{external_book_id}]; the result is the
    [message] of the dict returned. *)
Definition delete_cached_book (current_user : Auth.User) (external_book_id : Z)
  : M string :=
  book <- select_by_id external_book_id ;;
  match book with
  | None => raise (HTTPException 404 "External book not found")
  | Some book =>
      if negb (Auth.is_superuser current_user)
         && negb (bool_decide (Model.imported_by_id book = Some (Auth.id current_user)))
      then raise (HTTPException 403 "Not authorized to delete this book")
      else
        _ <- delete_and_commit book ;;
        ret "External book deleted successfully"
  end.

(** The [where] clauses that [get_cached_books] adds for its filters. *)
Definition cached_filter (source : option ExternalSource) (imported_only : bool)
    (b : Model.ExternalBook) : bool :=
  match source with
  | Some s => String.eqb (Model.source b) (source_value s)
  | None => true
  end
  && (if imported_only then Model.is_imported b else true).

(** [GET /external/cached]; [skip] is validated to [0, ..) and [limit] to
    [1, 100] before the function runs.  [order_by_created_at_desc] is the
    order in which the database gives the rows for
    [order_by(ExternalBook.created_at.desc())]. *)
Definition get_cached_books
    (order_by_created_at_desc : list Model.ExternalBook -> list Model.ExternalBook)
    (source : option ExternalSource) (imported_only : bool) (skip limit : Z)
  : M CachedSchema.ExternalBookListResponse :=
  fun w =>
    let total := Z.of_nat (length (List.filter (cached_filter source imported_only) (db w))) in
    let books := take (Z.to_nat limit)
                   (drop (Z.to_nat skip)
                      (order_by_created_at_desc
                         (List.filter (cached_filter source imported_only) (db w)))) in
    let items := map model_validate books in
    (Ok {| CachedSchema.items := items;
           CachedSchema.total := total;
           CachedSchema.skip := skip;
           CachedSchema.limit := limit;
           CachedSchema.has_more := Z.ltb (skip + Z.of_nat (length items)) total |}, w).

End SearchAndCache.

(* ===================================================================== *)
(** ** Sources listing ([get_available_sources], [GET /external/sources]) *)
(* ===================================================================== *)

Module SourceSchema.

(** A dict of [get_available_sources]. *)
Record SourceDict : Type := mkSourceDict {
  d_id : string;
  d_name : string;
  d_description : string;
  d_features : list string;
  d_rate_limit : string;
  d_has_api_key : bool;
}.

(** [class ExternalSourceInfo(CamelCaseModel)] *)
Record ExternalSourceInfo : Type := mkExternalSourceInfo {
  id : string;
  name : string;
  description : string;
  features : list string;
  rate_limit : string;
  has_api_key : bool;
  is_available : bool;
}.

End SourceSchema.

Section Sources.
Variable env : Env.

Definition get_available_sources : list SourceSchema.SourceDict :=
  [ {| SourceSchema.d_id := source_value GOOGLE_BOOKS;
       SourceSchema.d_name := "Google Books";
       SourceSchema.d_description := "Search millions of books from Google's index";
       SourceSchema.d_features := ["search"; "details"; "preview"; "thumbnails"];
       SourceSchema.d_rate_limit := "1000 requests/day (without API key)";
       SourceSchema.d_has_api_key := nonempty (google_books_api_key env) |};
    {| SourceSchema.d_id := source_value OPEN_LIBRARY;
       SourceSchema.d_name := "Open Library";
       SourceSchema.d_description := "Free, editable library catalog from Internet Archive";
       SourceSchema.d_features := ["search"; "details"; "thumbnails"; "full_text"];
       SourceSchema.d_rate_limit := "No strict limit";
       SourceSchema.d_has_api_key := true |} ].

(** [GET /external/sources]; the result is [sources] of the
    [SourcesListResponse]. *)
Definition get_sources : list SourceSchema.ExternalSourceInfo :=
  map (fun s => {| SourceSchema.id := SourceSchema.d_id s;
                   SourceSchema.name := SourceSchema.d_name s;
                   SourceSchema.description := SourceSchema.d_description s;
                   SourceSchema.features := SourceSchema.d_features s;
                   SourceSchema.rate_limit := SourceSchema.d_rate_limit s;
                   SourceSchema.has_api_key := SourceSchema.d_has_api_key s;
                   SourceSchema.is_available := true |})
      get_available_sources.

End Sources.

(* ===================================================================== *)
(** ** Periodic refresh ([update_stale_metadata]) *)
(* ===================================================================== *)

Module Stale.

(** The dict that [update_stale_metadata] returns: with no stale book it
    has the key [updated], otherwise the key [queued]. *)
Record Summary : Type := mkSummary {
  total : Z;
  updated : option Z;
  queued : option Z;
  failed : Z;
  message : string;
}.

End Stale.

Section StaleMetadata.
Variable env : Env.
(** The length of [n] days, in the unit of the clock. *)
Variable timedelta_days : Z -> Z.
(** The instants of [datetime.min] and [datetime.max], on the clock. *)
Variable datetime_min datetime_max : Z.
(** The rows that the database gives for [.limit(n)] on a statement that
    has no [order_by]. *)
Variable limit_rows : Z -> list Model.ExternalBook -> list Model.ExternalBook.
(** Whether the call [update_book_metadata.delay(book_id)], the [k]-th of
    the run, returns; it raises when the task cannot be sent. *)
Variable delay : nat -> Z -> bool.
Local Open Scope M_scope.

(** [ExternalBook.is_imported == True, (ExternalBook.last_fetched_at <
    cutoff_date) | (ExternalBook.last_fetched_at == None)] *)
Definition is_stale (cutoff_date : Z) (b : Model.ExternalBook) : bool :=
  Model.is_imported b
  && match Model.last_fetched_at b with
     | Some t => Z.ltb t cutoff_date
     | None => true
     end.

(** Body of the loop over [book_ids]; the accumulator is [(updated,
    failed)] and, beside it, the ids that were sent to the queue. *)
Definition queue_body (acc : Z * Z * list Z) (it : nat * Z) : Z * Z * list Z :=
  let '(updated, failed, sent) := acc in
  let '(k, book_id) := it in
  if delay k book_id
  then (updated + 1, failed, (sent ++ [book_id])%list)
  else (updated, failed + 1, sent).

(** [timedelta(days=days)]: a [timedelta] holds at most 999999999 days,
    either way; more is an [OverflowError]. *)
Definition timedelta (days : Z) : res Z :=
  if Z.ltb 999999999 (Z.abs days) then Raise OverflowError
  else Ok (timedelta_days days).

(** [t - d] for a [datetime] and a [timedelta]: the result is a
    [datetime], from [datetime.min] to [datetime.max], or the subtraction
    raises [OverflowError]. *)
Definition datetime_sub (t d : Z) : res Z :=
  if Z.leb datetime_min (t - d) && Z.leb (t - d) datetime_max then Ok (t - d)
  else Raise OverflowError.

(** [@celery_app.task(bind=True, rate_limit="1/h")]; the result is the
    dict returned and the ids sent to the queue.  The cutoff is computed
    before the session is opened and outside any [try]. *)
Definition update_stale_metadata (max_age_days batch_size : Z)
  : M (Stale.Summary * list Z) :=
  t <- now env ;;
  d <- lift (timedelta max_age_days) ;;
  cutoff_date <- lift (datetime_sub t d) ;;
  fun w =>
    let stale_books := limit_rows batch_size (List.filter (is_stale cutoff_date) (db w)) in
    let book_ids := map Model.id stale_books in
    match book_ids with
    | [] =>
        (Ok ({| Stale.total := 0; Stale.updated := Some 0; Stale.queued := None;
                Stale.failed := 0; Stale.message := "No stale books found" |}, []), w)
    | _ =>
        let '(updated, failed, sent) :=
          fold_left queue_body (imap (fun k book_id => (k, book_id)) book_ids) (0, 0, []) in
        (Ok ({| Stale.total := Z.of_nat (length book_ids);
                Stale.updated := None;
                Stale.queued := Some updated;
                Stale.failed := failed;
                Stale.message := "Queued " +:+ pretty updated
                                 +:+ " books for metadata update" |}, sent), w)
    end.

End StaleMetadata.

(* ===================================================================== *)
(** * Properties *)
(* ===================================================================== *)

(** ** Inversion of computations that returned *)

Lemma res_bind_Ok {A B} (c : res A) (k : A -> res B) (b : B) :
  res_bind c k = Ok b -> exists a, c = Ok a /\ k a = Ok b.
Proof. destruct c as [a|e]; simpl; [eauto | discriminate]. Qed.

Lemma bind_Ok_inv {A B} (c : M A) (k : A -> M B) w b w' :
  bind c k w = (Ok b, w') -> exists a w1, c w = (Ok a, w1) /\ k a w1 = (Ok b, w').
Proof.
  unfold bind. destruct (c w) as [[a|e] w1]; [eauto | discriminate].
Qed.

Lemma lift_Ok_inv {A} (c : res A) w a w' :
  lift c w = (Ok a, w') -> c = Ok a /\ w' = w.
Proof. unfold lift. intros [= -> ->]. auto. Qed.

Lemma ret_inv {A} (a b : A) w w' : ret a w = (Ok b, w') -> a = b /\ w' = w.
Proof. unfold ret. intros [= -> ->]. auto. Qed.

(** Peel one step off a chain of binds that is known to have returned. *)
Ltac res_step H :=
  lazymatch type of H with
  | res_bind _ _ = Ok _ =>
      let a := fresh "v" in
      let E := fresh "E" in
      apply res_bind_Ok in H; destruct H as (a & E & H)
  end.

Ltac M_step H :=
  lazymatch type of H with
  | bind _ _ _ = (Ok _, _) =>
      let a := fresh "v" in
      let w := fresh "w" in
      let E := fresh "E" in
      apply bind_Ok_inv in H; destruct H as (a & w & E & H)
  end.

Lemma except_None_Some {A} (c : res (option A)) (a : A) :
  except_None c = Some a -> c = Ok (Some a).
Proof. destruct c as [[x|]|]; simpl; congruence. Qed.

Lemma strs_inv (l : list json) (ss : list string) :
  Validate.strs l = Ok ss -> l = map JStr ss.
Proof.
  revert ss. induction l as [|x l IH]; intros ss H; simpl in H.
  - injection H as <-. reflexivity.
  - destruct x; try discriminate.
    apply res_bind_Ok in H. destruct H as (r & Hr & [= <-]).
    simpl. f_equal. auto.
Qed.

Lemma list_str_inv (v : json) (ss : list string) :
  Validate.list_str v = Ok ss -> v = JArr (map JStr ss).
Proof.
  destruct v; simpl; try discriminate. intros H. f_equal. now apply strs_inv.
Qed.

Lemma slice_to_list_str_inv (n : nat) (v : json) (a : json) (ss : list string) :
  Py.slice_to n v = Ok a -> Validate.list_str a = Ok ss ->
  exists l, v = JArr l /\ map JStr ss = take n l.
Proof.
  intros Hs Hv. apply list_str_inv in Hv. subst a.
  destruct v; simpl in Hs; try discriminate; injection Hs as Hs; eauto.
Qed.

Lemma opt_str_inv (v : json) (o : option string) :
  Validate.opt_str v = Ok o ->
  (v = JNull /\ o = None) \/ (exists s, v = JStr s /\ o = Some s).
Proof.
  destruct v; simpl; try discriminate; intros [= <-]; eauto.
Qed.

Lemma raise_inv {A} (e : exn) w (a : A) w' : raise e w = (Ok a, w') -> False.
Proof. discriminate. Qed.

(** ** Sample collaborators, for the concrete runs below *)

Definition sample_str (v : json) : string :=
  match v with
  | JStr s => s
  | JInt z => pretty z
  | _ => "?"
  end.

Definition sample_int (v : json) : option Z :=
  match v with JInt z => Some z | _ => None end.

Definition sample_float (v : json) : option Q :=
  match v with
  | JFloat q => Some q
  | JInt z => Some (inject_Z z)
  | _ => None
  end.

(** An environment over the upstream [upstream]; the other collaborators
    are the simplest ones ([int(s)] is only asked about ["1997"]). *)
Definition sample_env (upstream : nat -> Request -> http_outcome) : Env :=
  {| google_books_api_key := None;
     http := upstream;
     clock := fun n => 1000 * Z.of_nat n;
     elapsed_ms := fun t0 t1 => t1 - t0;
     py_str := sample_str;
     py_int := fun s => if String.eqb s "1997" then Some 1997 else None;
     pydantic_int := sample_int;
     pydantic_float := sample_float |}.

Definition offline : nat -> Request -> http_outcome := fun _ _ => TimeoutException.

Definition fresh_world : World :=
  {| db := []; next_id := 1; trace := []; http_count := 0; clock_count := 0;
     loop := LoopUnset |}.

Definition seven_subjects : list json :=
  [JStr "Fantasy"; JStr "Magic"; JStr "Wizards"; JStr "Schools";
   JStr "England"; JStr "Orphans"; JStr "Friendship"].

Definition sample_doc : json :=
  JObj [("key", JStr "/works/OL82563W"); ("title", JStr "A Book");
        ("isbn", JArr [JStr "0747532699"; JStr "9780747532699"; JStr "0439708184"]);
        ("subject", JArr seven_subjects); ("cover_i", JInt 12)].

Definition sample_volume : json :=
  JObj [("id", JStr "zyTCAlFPjgYC");
        ("etag", JStr "f0zKg75Mx/I");
        ("volumeInfo",
         JObj [("title", JStr "The Google Story");
               ("authors", JArr [JStr "David A. Vise"; JStr "Mark Malseed"]);
               ("publisher", JStr "Random House");
               ("publishedDate", JStr "1997-06-26");
               ("pageCount", JInt 207);
               ("categories", JArr [JStr "Business"]);
               ("language", JStr "en");
               ("imageLinks",
                JObj [("thumbnail", JStr "http://books.example/thumb.jpg")])])].

Definition sample_work : json :=
  JObj [("title", JStr "A Book");
        ("subjects", JArr seven_subjects);
        ("authors", JArr [JObj [("author", JObj [("key", JStr "/authors/OL23919A")])]]);
        ("covers", JArr [JInt 12])].

(** An upstream that knows one volume and one work. *)
Definition catalog : nat -> Request -> http_outcome :=
  fun _ r =>
    if String.eqb (url r) (GOOGLE_BOOKS_BASE_URL +:+ "/volumes/zyTCAlFPjgYC")
    then Response 200 (Some sample_volume)
    else if String.eqb (url r) (OPEN_LIBRARY_BASE_URL +:+ "/works/OL82563W.json")
    then Response 200 (Some sample_work)
    else if String.eqb (url r) (OPEN_LIBRARY_BASE_URL +:+ "/authors/OL23919A.json")
    then Response 200 (Some (JObj [("name", JStr "An Author")]))
    else Response 404 None.


(* ===================================================================== *)
(** ** Categories (C10) *)
(* ===================================================================== *)

Lemma open_library_parse_categories env doc r :
  _parse_open_library_book env doc = Some r ->
  exists subjects,
    Py.get_default doc "subject" (JArr []) = Ok (JArr subjects) /\
    map JStr (categories r) = take 5 subjects.
Proof.
  intros H. unfold _parse_open_library_book in H.
  apply except_None_Some in H.
  do 2 res_step H.
  match type of H with (if ?b then _ else _) = _ => destruct b; [discriminate|] end.
  repeat res_step H.
  injection H as <-. simpl.
  match goal with
  | Hs : Py.slice_to 5 _ = Ok ?a, Hv : Validate.list_str ?a = Ok _ |- _ =>
      destruct (slice_to_list_str_inv _ _ _ _ Hs Hv) as (l & -> & Hl)
  end.
  eauto.
Qed.

Lemma google_parse_categories env item r :
  _parse_google_book env item = Some r ->
  exists volume_info cats,
    Py.get_default item "volumeInfo" (JObj []) = Ok volume_info /\
    Py.get_default volume_info "categories" (JArr []) = Ok (JArr cats) /\
    map JStr (categories r) = cats.
Proof.
  intros H. unfold _parse_google_book in H.
  apply except_None_Some in H.
  repeat res_step H.
  injection H as <-. simpl.
  match goal with
  | Hv : Validate.list_str ?a = Ok ?c |- context [map JStr ?c] =>
      apply list_str_inv in Hv; subst a
  end.
  eauto.
Qed.

(** The first request of [get_open_library_book_details], when the call
    returns, was answered with status 200 and a JSON body. *)
Lemma open_library_details_categories env work_key w r w' :
  get_open_library_book_details env work_key w = (Ok r, w') ->
  exists work_data subjects,
    http env (http_count w) (work_request work_key) = Response 200 (Some work_data) /\
    Py.get_default work_data "subjects" (JArr []) = Ok (JArr subjects) /\
    map JStr (categories r) = take 5 subjects.
Proof.
  intros H. unfold get_open_library_book_details in H.
  M_step H. M_step H.
  unfold emit in E. injection E as _ <-.
  unfold client_get in E0. simpl in E0. injection E0 as <- <-.
  unfold open_library_details_of_answer in H.
  apply bind_Ok_inv in H as (work_data & w1 & E1 & H).
  destruct (http env (http_count w) (work_request work_key)) as [|m|status body] eqn:Eh;
    try discriminate E1.
  destruct (Z.eqb status 404); [discriminate E1|].
  destruct (Z.eqb status 200) eqn:Es; [|discriminate E1].
  apply Z.eqb_eq in Es. subst status. simpl in E1.
  destruct body as [d|]; [|discriminate E1].
  apply ret_inv in E1 as [<- ->].
  repeat M_step H.
  apply ret_inv in H as [<- _]. simpl.
  repeat match goal with
         | Hl : lift _ _ = (Ok _, _) |- _ => apply lift_Ok_inv in Hl as [Hl ->]
         end.
  match goal with
  | Hs : Py.slice_to 5 _ = Ok ?a, Hv : Validate.list_str ?a = Ok _ |- _ =>
      destruct (slice_to_list_str_inv _ _ _ _ Hs Hv) as (l & -> & Hl)
  end.
  eauto.
Qed.

(** C10.  Open Library category truncation: a canonical result of the
    Open Library adapter, from a search document as from the details of a
    work, holds exactly the first five upstream subjects, in upstream
    order, hence at most five categories; a canonical result of the Google
    Books adapter holds the whole upstream [categories] list. *)
Theorem open_library_categories_first_five (env : Env) :
  (forall doc r,
      _parse_open_library_book env doc = Some r ->
      exists subjects,
        Py.get_default doc "subject" (JArr []) = Ok (JArr subjects) /\
        map JStr (categories r) = take 5 subjects /\
        (length (categories r) <= 5)%nat) /\
  (forall work_key w r w',
      get_open_library_book_details env work_key w = (Ok r, w') ->
      exists work_data subjects,
        http env (http_count w) (work_request work_key)
          = Response 200 (Some work_data) /\
        Py.get_default work_data "subjects" (JArr []) = Ok (JArr subjects) /\
        map JStr (categories r) = take 5 subjects /\
        (length (categories r) <= 5)%nat) /\
  (forall item r,
      _parse_google_book env item = Some r ->
      exists volume_info cats,
        Py.get_default item "volumeInfo" (JObj []) = Ok volume_info /\
        Py.get_default volume_info "categories" (JArr []) = Ok (JArr cats) /\
        map JStr (categories r) = cats).
Proof.
  assert (Hlen : forall (cs : list string) (l : list json),
             map JStr cs = take 5 l -> (length cs <= 5)%nat).
  { intros cs l Hm.
    rewrite <- (length_map JStr cs), Hm, length_take. lia. }
  split; [|split].
  - intros doc r H.
    destruct (open_library_parse_categories _ _ _ H) as (subjects & Hs & Hm).
    exists subjects. eauto.
  - intros work_key w r w' H.
    destruct (open_library_details_categories _ _ _ _ _ H)
      as (work_data & subjects & Hh & Hs & Hm).
    exists work_data, subjects. eauto.
  - intros item r H. exact (google_parse_categories env item r H).
Qed.

Lemma open_library_categories_first_five_witness :
  (exists r,
      _parse_open_library_book (sample_env catalog) sample_doc = Some r /\
      exists subjects,
        Py.get_default sample_doc "subject" (JArr []) = Ok (JArr subjects) /\
        map JStr (categories r) = take 5 subjects /\
        (length (categories r) <= 5)%nat) /\
  (exists r w',
      get_open_library_book_details (sample_env catalog) "OL82563W" fresh_world
        = (Ok r, w') /\
      categories r = ["Fantasy"; "Magic"; "Wizards"; "Schools"; "England"] /\
      exists work_data subjects,
        http (sample_env catalog) (http_count fresh_world) (work_request "OL82563W")
          = Response 200 (Some work_data) /\
        Py.get_default work_data "subjects" (JArr []) = Ok (JArr subjects) /\
        map JStr (categories r) = take 5 subjects /\
        (length (categories r) <= 5)%nat) /\
  (exists r,
      _parse_google_book (sample_env catalog) sample_volume = Some r /\
      exists volume_info cats,
        Py.get_default sample_volume "volumeInfo" (JObj []) = Ok volume_info /\
        Py.get_default volume_info "categories" (JArr []) = Ok (JArr cats) /\
        map JStr (categories r) = cats).
Proof.
  destruct (open_library_categories_first_five (sample_env catalog))
    as (Hdoc & Hwork & Hvolume).
  split; [|split].
  - eexists. split; [vm_compute; reflexivity|].
    apply Hdoc. vm_compute. reflexivity.
  - eexists. eexists. split; [vm_compute; reflexivity|]. split; [reflexivity|].
    eapply Hwork. vm_compute. reflexivity.
  - eexists. split; [vm_compute; reflexivity|].
    apply Hvolume. vm_compute. reflexivity.
Defined.

Example sample_doc_categories :
  categories <$> _parse_open_library_book (sample_env offline) sample_doc
  = Some ["Fantasy"; "Magic"; "Wizards"; "Schools"; "England"].
Proof. vm_compute. reflexivity. Qed.


(* ===================================================================== *)
(** ** Thumbnail selection (C5) *)
(* ===================================================================== *)

(** The names that [_parse_google_book] reads from [imageLinks], in the
    order in which it tries them. *)
Definition variant_priority : list string :=
  ["thumbnail"; "smallThumbnail"; "medium"; "large"].

(** [image_links.get(name)] *)
Definition variant (links : list (string * json)) (name : string) : json :=
  default JNull (Py.dict_lookup links name).

(** The first variant, in the order of [variant_priority], that upstream
    gave a true value. *)
Definition first_available (links : list (string * json)) : option json :=
  List.find Py.truthy (map (variant links) variant_priority).

Definition to_https (s : string) : string :=
  if Py.startswith "http://" s then Py.replace "http://" "https://" s else s.

(** The claim as the specification words it, on one item: when upstream
    offers a [large] image, the largest of the sizes that the adapter
    reads, the canonical result carries that image. *)
Definition largest_variant_is_chosen (env : Env) (item : json) : Prop :=
  forall r volume_info links large,
    _parse_google_book env item = Some r ->
    Py.get_default item "volumeInfo" (JObj []) = Ok volume_info ->
    Py.get_default volume_info "imageLinks" (JObj []) = Ok (JObj links) ->
    Py.dict_lookup links "large" = Some (JStr large) ->
    large <> "" ->
    thumbnail_url r = Some (to_https large).

Definition item_large_and_small : json :=
  JObj [("id", JStr "zyTCAlFPjgYC");
        ("volumeInfo",
         JObj [("title", JStr "The Google Story");
               ("imageLinks",
                JObj [("smallThumbnail", JStr "https://books.example/small.jpg");
                      ("large", JStr "https://books.example/large.jpg")])])].

Example item_large_and_small_thumbnail :
  thumbnail_url <$> _parse_google_book (sample_env offline) item_large_and_small
  = Some (Some "https://books.example/small.jpg").
Proof. vm_compute. reflexivity. Qed.

(** C5, as stated, fails: with [large] and [smallThumbnail] both present
    the adapter takes [smallThumbnail]. *)
Lemma largest_variant_not_chosen :
  ~ largest_variant_is_chosen (sample_env offline) item_large_and_small.
Proof.
  intros H.
  assert (exists r,
             _parse_google_book (sample_env offline) item_large_and_small = Some r /\
             thumbnail_url r = Some "https://books.example/small.jpg")
    as (r & Hr & Ht) by (eexists; split; vm_compute; reflexivity).
  specialize (H r _ _ "https://books.example/large.jpg" Hr eq_refl eq_refl eq_refl).
  rewrite Ht in H. vm_compute in H.
  assert (Hne : "https://books.example/large.jpg" <> "") by discriminate.
  specialize (H Hne). discriminate H.
Qed.

Lemma https_thumbnail_truthy v t :
  Py.truthy v = true -> https_thumbnail v = Ok t ->
  exists s, v = JStr s /\ t = JStr (to_https s).
Proof.
  unfold https_thumbnail, to_https. intros -> H.
  destruct v as [| | | |s| |]; try discriminate.
  exists s. destruct (Py.startswith "http://" s); injection H as <-; auto.
Qed.

Lemma https_thumbnail_falsy v t :
  Py.truthy v = false -> https_thumbnail v = Ok t -> t = v.
Proof. unfold https_thumbnail. intros ->. congruence. Qed.

(** A chain of [or] yields the first true operand, or the last operand. *)
Lemma or_chain (a b c d : json) :
  match List.find Py.truthy [a; b; c; d] with
  | Some v => Py.or_ (Py.or_ (Py.or_ a b) c) d = v /\ Py.truthy v = true
  | None => Py.or_ (Py.or_ (Py.or_ a b) c) d = d /\ Py.truthy d = false
  end.
Proof.
  unfold Py.or_. simpl.
  destruct (Py.truthy a) eqn:Ha; [rewrite !Ha; auto|].
  destruct (Py.truthy b) eqn:Hb; [rewrite !Hb; auto|].
  destruct (Py.truthy c) eqn:Hc; [rewrite !Hc; auto|].
  destruct (Py.truthy d) eqn:Hd; auto.
Qed.

Lemma google_thumbnail_choice_eq (links : list (string * json)) :
  google_thumbnail_choice (JObj links)
  = Ok (Py.or_ (Py.or_ (Py.or_ (variant links "thumbnail")
                               (variant links "smallThumbnail"))
                       (variant links "medium"))
               (variant links "large")).
Proof. reflexivity. Qed.

Lemma thumbnail_of_choice (links : list (string * json)) t t' f :
  google_thumbnail_choice (JObj links) = Ok t ->
  https_thumbnail t = Ok t' ->
  Validate.opt_str t' = Ok f ->
  match first_available links with
  | Some v => exists s, v = JStr s /\ f = Some (to_https s)
  | None => f = None \/ f = Some ""
  end.
Proof.
  rewrite google_thumbnail_choice_eq. intros [= <-] Ht Hf.
  pose proof (or_chain (variant links "thumbnail") (variant links "smallThumbnail")
                       (variant links "medium") (variant links "large")) as Hc.
  change (first_available links)
    with (List.find Py.truthy [variant links "thumbnail"; variant links "smallThumbnail";
                               variant links "medium"; variant links "large"]).
  destruct (List.find Py.truthy _) as [v|].
  - destruct Hc as [Hc Hv]. rewrite Hc in Ht.
    destruct (https_thumbnail_truthy v t' Hv Ht) as (s & -> & ->).
    simpl in Hf. injection Hf as <-. eauto.
  - destruct Hc as [Hc Hv]. rewrite Hc in Ht.
    apply https_thumbnail_falsy in Ht; [|assumption]. subst t'.
    destruct (opt_str_inv _ _ Hf) as [[_ ->]|(s & Hs & ->)]; [now left|].
    right. rewrite Hs in Hv. simpl in Hv.
    destruct (String.eqb_spec s ""); [now subst|discriminate].
Qed.

(** C5, amended.  The canonical result of the Google Books adapter carries
    the first image that upstream offers in the order [thumbnail],
    [smallThumbnail], [medium], [large], with a leading [http://] made
    [https://]; when upstream offers none of the four, the result has no
    thumbnail (or the empty string that upstream gave for [large]). *)
Theorem google_thumbnail_follows_priority (env : Env) (item : json)
    (r : ExternalBookResult) :
  _parse_google_book env item = Some r ->
  exists volume_info links,
    Py.get_default item "volumeInfo" (JObj []) = Ok volume_info /\
    Py.get_default volume_info "imageLinks" (JObj []) = Ok (JObj links) /\
    match first_available links with
    | Some v => exists s, v = JStr s /\ thumbnail_url r = Some (to_https s)
    | None => thumbnail_url r = None \/ thumbnail_url r = Some ""
    end.
Proof.
  intros H. unfold _parse_google_book in H.
  apply except_None_Some in H.
  do 7 res_step H.
  match goal with
  | Hc : google_thumbnail_choice ?il = Ok _ |- _ =>
      assert (exists links, il = JObj links) as [links ->]
        by (destruct il; try discriminate Hc; eauto)
  end.
  repeat res_step H.
  injection H as <-. simpl.
  match goal with
  | Hc : google_thumbnail_choice _ = Ok ?t, Hh : https_thumbnail ?t = Ok ?t',
    Hv : Validate.opt_str ?t' = Ok _ |- _ =>
      pose proof (thumbnail_of_choice _ _ _ _ Hc Hh Hv)
  end.
  eauto.
Qed.

Definition item_all_sizes : json :=
  JObj [("id", JStr "zyTCAlFPjgYC");
        ("volumeInfo",
         JObj [("title", JStr "The Google Story");
               ("imageLinks",
                JObj [("smallThumbnail", JStr "http://books.example/small.jpg");
                      ("thumbnail", JStr "http://books.example/thumb.jpg");
                      ("medium", JStr "http://books.example/medium.jpg");
                      ("large", JStr "http://books.example/large.jpg")])])].

Lemma google_thumbnail_follows_priority_witness :
  exists r,
    _parse_google_book (sample_env offline) item_all_sizes = Some r /\
    thumbnail_url r = Some "https://books.example/thumb.jpg" /\
    exists volume_info links,
      Py.get_default item_all_sizes "volumeInfo" (JObj []) = Ok volume_info /\
      Py.get_default volume_info "imageLinks" (JObj []) = Ok (JObj links) /\
      match first_available links with
      | Some v => exists s, v = JStr s /\ thumbnail_url r = Some (to_https s)
      | None => thumbnail_url r = None \/ thumbnail_url r = Some ""
      end.
Proof.
  eexists. split; [vm_compute; reflexivity|]. split; [reflexivity|].
  apply (google_thumbnail_follows_priority (sample_env offline) item_all_sizes).
  vm_compute. reflexivity.
Defined.

(* ===================================================================== *)
(** ** ISBN extraction (C6) *)
(* ===================================================================== *)

Definition item_two_isbn10 : json :=
  JObj [("id", JStr "wrOQLV6xB-wC");
        ("volumeInfo",
         JObj [("title", JStr "A Book");
               ("industryIdentifiers",
                JArr [JObj [("type", JStr "ISBN_10"); ("identifier", JStr "0747532699")];
                      JObj [("type", JStr "ISBN_13"); ("identifier", JStr "9780747532699")];
                      JObj [("type", JStr "ISBN_10"); ("identifier", JStr "0439708184")];
                      JObj [("type", JStr "ISBN_13"); ("identifier", JStr "9780439708180")]])])].

(** C6.  On the Google Books adapter the claim fails: the loop over
    [industryIdentifiers] assigns [isbn_10] and [isbn_13] at every
    identifier of the type, so the last one of each type is kept, not the
    first.  (The Open Library loop guards each assignment with
    [not isbn_10] / [not isbn_13] and keeps the first.) *)
Theorem google_isbn_keeps_last_match (env : Env) :
  exists r,
    _parse_google_book env item_two_isbn10 = Some r /\
    isbn_10 r = Some "0439708184" /\ isbn_10 r <> Some "0747532699" /\
    isbn_13 r = Some "9780439708180" /\ isbn_13 r <> Some "9780747532699".
Proof.
  eexists. split; [vm_compute; reflexivity|]. simpl.
  repeat split; congruence.
Qed.

Example open_library_isbn_keeps_first_match :
  (fun r => (isbn_10 r, isbn_13 r))
    <$> _parse_open_library_book (sample_env offline) sample_doc
  = Some (Some "0747532699", Some "9780747532699").
Proof. vm_compute. reflexivity. Qed.

(* ===================================================================== *)
(** ** What a run adds to the trace *)
(* ===================================================================== *)

(** [c] leaves the part [f] of the world as it found it. *)
Definition keeps {X A} (f : World -> X) (c : M A) : Prop :=
  forall w, f (snd (c w)) = f w.

Abbreviation keeps_trace := (keeps trace).

(** The rows of the table and the primary key's sequence. *)
Definition store (w : World) : list Model.ExternalBook * Z := (db w, next_id w).

Abbreviation keeps_store := (keeps store).

Lemma keeps_ret {X A} (f : World -> X) (a : A) : keeps f (ret a).
Proof. intros w. reflexivity. Qed.

Lemma keeps_raise {X A} (f : World -> X) (e : exn) : keeps f (@raise A e).
Proof. intros w. reflexivity. Qed.

Lemma keeps_lift {X A} (f : World -> X) (c : res A) : keeps f (lift c).
Proof. intros w. reflexivity. Qed.

Lemma keeps_bind {X A B} (f : World -> X) (c : M A) (k : A -> M B) :
  keeps f c -> (forall a, keeps f (k a)) -> keeps f (bind c k).
Proof.
  intros Hc Hk w. unfold bind. specialize (Hc w).
  destruct (c w) as [[a|e] w1]; simpl in *; [rewrite Hk|]; auto.
Qed.

Lemma keeps_try_except {X A} (f : World -> X) (c : M A) handles (h : exn -> M A) :
  keeps f c -> (forall e, keeps f (h e)) -> keeps f (try_except c handles h).
Proof.
  intros Hc Hh w. unfold try_except. specialize (Hc w).
  destruct (c w) as [[a|e] w1]; simpl in *; [assumption|].
  destruct (handles e); simpl; [rewrite Hh|]; auto.
Qed.

Lemma keeps_for_eachM {X S A} (f : World -> X) (body : S -> A -> M S) (l : list A) :
  (forall s a, keeps f (body s a)) -> forall s, keeps f (for_eachM body l s).
Proof.
  intros Hb. induction l as [|x l IH]; intros s; simpl.
  - apply keeps_ret.
  - apply keeps_bind; auto.
Qed.

Lemma keeps_trace_now (env : Env) : keeps_trace (now env).
Proof. intros w. reflexivity. Qed.

Lemma keeps_store_now (env : Env) : keeps_store (now env).
Proof. intros w. reflexivity. Qed.

Lemma keeps_store_emit (e : event) : keeps_store (emit e).
Proof. intros w. reflexivity. Qed.

Lemma keeps_store_client_get (env : Env) (r : Request) : keeps_store (client_get env r).
Proof. intros w. reflexivity. Qed.

Lemma keeps_store_then_emit {A} (c : M A) (e : event) :
  keeps_store c -> keeps_store (then_emit c e).
Proof.
  intros Hc w. unfold then_emit. specialize (Hc w).
  destruct (c w) as [r w1]. exact Hc.
Qed.

(** Discharges [keeps f c] for a [c] built from the steps above. *)
Ltac keeps :=
  repeat first
    [ apply keeps_ret | apply keeps_raise | apply keeps_lift
    | apply keeps_trace_now | apply keeps_store_now | apply keeps_store_emit
    | apply keeps_store_client_get
    | apply keeps_store_then_emit
    | apply keeps_bind; [|intros ?]
    | apply keeps_for_eachM; intros ? ?
    | apply keeps_try_except; [|intros ?]
    | match goal with
      | |- keeps _ (match ?x with _ => _ end) => destruct x
      end ].

Definition google_search_request (env : Env) (query : string)
    (max_results start_index : Z) (language print_type order_by : option string)
  : Request :=
  {| url := GOOGLE_BOOKS_BASE_URL +:+ "/volumes";
     params := google_search_params env query max_results start_index
                 language print_type order_by |}.

Definition open_library_search_request (query : string) (max_results page : Z)
  : Request :=
  {| url := OPEN_LIBRARY_BASE_URL +:+ "/search.json";
     params := open_library_search_params query max_results page |}.

(** A run of [search_google_books] sends one request, whatever comes back. *)
Lemma search_google_books_trace env q m si l p o w :
  trace (snd (search_google_books env q m si l p o w))
  = (trace w ++ [EvSearch GOOGLE_BOOKS;
                 EvHttp (google_search_request env q m si l p o);
                 EvSearchEnd GOOGLE_BOOKS])%list.
Proof.
  unfold search_google_books, then_emit.
  match goal with
  | |- context [bind ?c ?k w] =>
      assert (Hb : trace (snd (bind c k w))
                   = (trace w ++ [EvSearch GOOGLE_BOOKS;
                                  EvHttp (google_search_request env q m si l p o)])%list)
  end.
  { do 3 (unfold bind at 1; simpl).
    match goal with
    | |- trace (snd (?c ?w')) = _ =>
        assert (Hk : keeps_trace c) by keeps; rewrite Hk
    end.
    simpl. rewrite <- app_assoc. reflexivity. }
  destruct (bind _ _ w) as [r w1]. simpl in *.
  rewrite Hb, <- app_assoc. reflexivity.
Qed.

Lemma search_open_library_trace env q m page w :
  trace (snd (search_open_library env q m page w))
  = (trace w ++ [EvSearch OPEN_LIBRARY;
                 EvHttp (open_library_search_request q m page);
                 EvSearchEnd OPEN_LIBRARY])%list.
Proof.
  unfold search_open_library, then_emit.
  match goal with
  | |- context [bind ?c ?k w] =>
      assert (Hb : trace (snd (bind c k w))
                   = (trace w ++ [EvSearch OPEN_LIBRARY;
                                  EvHttp (open_library_search_request q m page)])%list)
  end.
  { do 3 (unfold bind at 1; simpl).
    match goal with
    | |- trace (snd (?c ?w')) = _ =>
        assert (Hk : keeps_trace c) by keeps; rewrite Hk
    end.
    simpl. rewrite <- app_assoc. reflexivity. }
  destruct (bind _ _ w) as [r w1]. simpl in *.
  rewrite Hb, <- app_assoc. reflexivity.
Qed.

(* ===================================================================== *)
(** ** Search limit (C7) *)
(* ===================================================================== *)

(** The claim as the specification words it, on one request: the limit
    that goes upstream under [name] lies in [1, 40]. *)
Definition limit_within_1_40 (name : string) (r : Request) : Prop :=
  exists v, Py.dict_lookup (params r) name = Some (JInt v) /\ 1 <= v <= 40.

(** The requests of a run. *)
Definition requests_of (t : list event) : list Request :=
  omap (fun e => match e with EvHttp r => Some r | _ => None end) t.

(** C7, as stated, fails on the Open Library adapter: [max_results = 100]
    goes upstream as [limit=100]. *)
Lemma open_library_limit_not_clamped :
  ~ (forall max_results r,
        In r (requests_of
                (trace (snd (search_open_library (sample_env offline) "dune"
                                                 max_results 1 fresh_world)))) ->
        limit_within_1_40 "limit" r).
Proof.
  intros H.
  destruct (H 100 (open_library_search_request "dune" 100 1)) as (v & Hv & Hr).
  - rewrite search_open_library_trace. simpl. auto.
  - simpl in Hv. injection Hv as <-. lia.
Qed.

(** C7, amended.  The one request of [search_google_books] carries
    [maxResults] clamped to [1, 40]; the one request of
    [search_open_library] carries [limit = min(max_results, 100)]: capped
    at 100, with no lower bound. *)
Theorem search_limit_sent_upstream (env : Env) (query : string) (max_results : Z)
    (w : World) :
  (forall start_index language print_type order_by,
      exists r v,
        requests_of (trace (snd (search_google_books env query max_results
                                   start_index language print_type order_by w)))
        = (requests_of (trace w) ++ [r])%list /\
        Py.dict_lookup (params r) "maxResults" = Some (JInt v) /\
        1 <= v <= 40 /\
        (max_results < 1 -> v = 1) /\
        (40 < max_results -> v = 40) /\
        (1 <= max_results <= 40 -> v = max_results)) /\
  (forall page,
      exists r v,
        requests_of (trace (snd (search_open_library env query max_results page w)))
        = (requests_of (trace w) ++ [r])%list /\
        Py.dict_lookup (params r) "limit" = Some (JInt v) /\
        v <= 100 /\
        (max_results <= 100 -> v = max_results) /\
        (100 < max_results -> v = 100)).
Proof.
  split.
  - intros si l p o.
    exists (google_search_request env query max_results si l p o),
           (Z.min (Z.max 1 max_results) MAX_RESULTS_LIMIT).
    split; [|split].
    + rewrite search_google_books_trace. unfold requests_of.
      rewrite omap_app. reflexivity.
    + reflexivity.
    + unfold MAX_RESULTS_LIMIT. lia.
  - intros page.
    exists (open_library_search_request query max_results page),
           (Z.min max_results 100).
    split; [|split].
    + rewrite search_open_library_trace. unfold requests_of.
      rewrite omap_app. reflexivity.
    + reflexivity.
    + lia.
Qed.

Lemma search_limit_sent_upstream_witness :
  (exists r v,
      requests_of (trace (snd (search_google_books (sample_env offline) "dune" 75
                                 0 None None None fresh_world)))
      = (requests_of (trace fresh_world) ++ [r])%list /\
      Py.dict_lookup (params r) "maxResults" = Some (JInt v) /\
      1 <= v <= 40 /\
      (75 < 1 -> v = 1) /\ (40 < 75 -> v = 40) /\ (1 <= 75 <= 40 -> v = 75)) /\
  (exists r v,
      requests_of (trace (snd (search_open_library (sample_env offline) "dune" 75
                                 1 fresh_world)))
      = (requests_of (trace fresh_world) ++ [r])%list /\
      Py.dict_lookup (params r) "limit" = Some (JInt v) /\
      v <= 100 /\ (75 <= 100 -> v = 75) /\ (100 < 75 -> v = 100)).
Proof.
  pose proof (search_limit_sent_upstream (sample_env offline) "dune" 75 fresh_world)
    as [Hg Ho].
  split; [apply Hg | apply Ho].
Defined.

Example open_library_limit_zero :
  Py.dict_lookup (open_library_search_params "dune" 0 1) "limit" = Some (JInt 0).
Proof. reflexivity. Qed.

(* ===================================================================== *)
(** ** Fan-out (C2, C9) *)
(* ===================================================================== *)

(** The search that [search_all_sources] starts for a source. *)
Definition search_source (env : Env) (query : string) (max_results : Z)
    (s : ExternalSource) : M ExternalSearchResponse :=
  match s with
  | GOOGLE_BOOKS => search_google_books env query max_results 0 None None None
  | OPEN_LIBRARY => search_open_library env query max_results 1
  end.

Definition task_of (env : Env) (query : string) (max_results : Z)
    (s : ExternalSource) : ExternalSource * M ExternalSearchResponse :=
  (s, search_source env query max_results s).

(** The entry of [s] in [results], given the outcome [o] of its search:
    the response itself, or the empty response for an adapter error. *)
Definition entry_of (query : string)
    (results : gmap ExternalSource ExternalSearchResponse)
    (s : ExternalSource) (o : res ExternalSearchResponse) : Prop :=
  match o with
  | Ok r => results !! s = Some r
  | Raise e =>
      is_ExternalAPIError e = true /\
      results !! s = Some (empty_response s query)
  end.

(** The first loop creates one coroutine per source and runs none. *)
Lemma make_tasks env q m srcs acc w :
  for_eachM (make_task env q m) srcs acc w
  = (Ok (acc ++ map (task_of env q m) srcs)%list,
     with_trace (trace w ++ map EvCoroutine srcs)%list w).
Proof.
  revert acc w. induction srcs as [|s srcs IH]; intros acc w; simpl.
  - rewrite !app_nil_r. destruct w; reflexivity.
  - unfold bind at 1.
    destruct s; simpl; rewrite IH; simpl; rewrite <- !app_assoc; reflexivity.
Qed.

Lemma await_tasks_entries env q m (srcs : list ExternalSource) results0 w results w' :
  for_eachM (await_task q) (map (task_of env q m) srcs) results0 w = (Ok results, w') ->
  (forall s, s ∈ srcs ->
     exists w1 w2 o, search_source env q m s w1 = (o, w2) /\ entry_of q results s o) /\
  (forall s, s ∉ srcs -> results !! s = results0 !! s).
Proof.
  revert results0 w. induction srcs as [|s0 srcs IH]; intros results0 w H; simpl in H.
  - apply ret_inv in H as [<- _]. split; [intros s Hs; inversion Hs | auto].
  - apply bind_Ok_inv in H as (results1 & w1 & Ha & H).
    apply IH in H as [Hin Hout].
    assert (H0 : exists o w2, search_source env q m s0 w = (o, w2) /\
                               entry_of q results1 s0 o /\
                               forall s, s <> s0 -> results1 !! s = results0 !! s).
    { unfold await_task, try_except, bind in Ha. simpl in Ha.
      destruct (search_source env q m s0 w) as [[r|e] w2] eqn:Es.
      - apply ret_inv in Ha as [<- _]. exists (Ok r), w2. simpl.
        split; [reflexivity|]. split; [apply lookup_insert_eq|].
        intros s Hs. now apply lookup_insert_ne.
      - destruct (is_ExternalAPIError e) eqn:He; [|discriminate Ha].
        apply ret_inv in Ha as [<- _]. exists (Raise e), w2. simpl.
        split; [reflexivity|]. split; [split; [assumption | apply lookup_insert_eq]|].
        intros s Hs. now apply lookup_insert_ne. }
    destruct H0 as (o & w2 & Hs0 & He0 & Hne).
    split.
    + intros s Hs. apply elem_of_cons in Hs.
      destruct (decide (s ∈ srcs)) as [Hi|Hni]; [now apply Hin|].
      destruct Hs as [->|Hs]; [|contradiction].
      exists w, w2, o. split; [assumption|].
      unfold entry_of in *. rewrite (Hout s0 Hni). exact He0.
    + intros s Hs. apply not_elem_of_cons in Hs as [Hs1 Hs2].
      rewrite (Hout s Hs2). now apply Hne.
Qed.


Lemma search_all_sources_unfold env q m sources w :
  search_all_sources env q m sources w
  = for_eachM (await_task q)
      (map (task_of env q m) (default [GOOGLE_BOOKS; OPEN_LIBRARY] sources)) ∅
      (with_trace (trace w ++ map EvCoroutine
                                (default [GOOGLE_BOOKS; OPEN_LIBRARY] sources))%list w).
Proof.
  unfold search_all_sources.
  now rewrite (bind_Ok _ _ _ _ _ (make_tasks env q m _ [] w)).
Qed.









(** An upstream where Google Books answers and Open Library is rate
    limited. *)
Definition google_only : nat -> Request -> http_outcome :=
  fun _ r =>
    if String.prefix GOOGLE_BOOKS_BASE_URL (url r)
    then Response 200 (Some (JObj [("totalItems", JInt 1);
                                   ("items", JArr [item_all_sizes])]))
    else Response 429 None.


Lemma await_task_world q results s (c : M ExternalSearchResponse) w :
  snd (await_task q results (s, c) w) = snd (c w).
Proof.
  unfold await_task, try_except, bind. simpl.
  destruct (c w) as [[r|e] w2]; simpl; [reflexivity|].
  destruct (is_ExternalAPIError e); reflexivity.
Qed.

(** C9.  The fan-out is not concurrent.  The first loop creates the two
    coroutine objects; nothing of a search runs until the second loop
    awaits it, and that loop awaits one coroutine to its end before it
    turns to the next.  So the request to Open Library goes out only after
    the search of Google Books has returned or raised; a slow Google Books
    delays Open Library by its whole latency.  ([rest] is empty when the
    first search raised something else than [ExternalAPIError].) *)
Theorem searches_run_one_after_the_other (env : Env) (query : string)
    (max_results_per_source : Z) (w : World) :
  exists rest,
    trace (snd (search_all_sources env query max_results_per_source None w))
    = (trace w ++
       [EvCoroutine GOOGLE_BOOKS; EvCoroutine OPEN_LIBRARY;
        EvSearch GOOGLE_BOOKS;
        EvHttp (google_search_request env query max_results_per_source
                  0 None None None);
        EvSearchEnd GOOGLE_BOOKS] ++ rest)%list /\
    (rest = [] \/
     rest = [EvSearch OPEN_LIBRARY;
             EvHttp (open_library_search_request query max_results_per_source 1);
             EvSearchEnd OPEN_LIBRARY]).
Proof.
  rewrite search_all_sources_unfold. simpl default. simpl map.
  set (w1 := with_trace _ w).
  cbn [for_eachM]. unfold bind at 1.
  pose proof (await_task_world query ∅ GOOGLE_BOOKS
                (search_source env query max_results_per_source GOOGLE_BOOKS) w1) as Hw.
  unfold task_of at 1.
  destruct (await_task query ∅ _ w1) as [[r1|e1] w2]; simpl in Hw; subst w2.
  - unfold bind at 1.
    pose proof (await_task_world query r1 OPEN_LIBRARY
                  (search_source env query max_results_per_source OPEN_LIBRARY)
                  (snd (search_source env query max_results_per_source
                          GOOGLE_BOOKS w1))) as Hw.
    unfold task_of at 1.
    destruct (await_task query r1 _ _) as [[r2|e2] w3]; simpl in Hw; subst w3; simpl;
      (eexists; split; [|right; reflexivity]);
      rewrite search_open_library_trace, search_google_books_trace;
      subst w1; simpl; rewrite <- !app_assoc; reflexivity.
  - simpl. exists []. split; [|now left].
    rewrite search_google_books_trace. subst w1; simpl.
    rewrite <- !app_assoc. reflexivity.
Qed.

(* ===================================================================== *)
(** ** The adapters leave the store alone *)
(* ===================================================================== *)

Lemma keeps_store_get_google env id : keeps_store (get_google_book_details env id).
Proof. unfold get_google_book_details, google_details_of_answer. keeps. Qed.

Lemma keeps_store_get_open_library env id :
  keeps_store (get_open_library_book_details env id).
Proof.
  unfold get_open_library_book_details, open_library_details_of_answer, author_body.
  keeps.
Qed.

Lemma keeps_store_fetch env source id : keeps_store (fetch_book_data env source id).
Proof.
  unfold fetch_book_data.
  destruct (String.eqb source "google_books"); [apply keeps_store_get_google|].
  destruct (String.eqb source "open_library"); [apply keeps_store_get_open_library|].
  apply keeps_raise.
Qed.

Lemma find_replace_row (i : Z) (b b' : Model.ExternalBook)
    (rows : list Model.ExternalBook) :
  List.find (fun r => Z.eqb (Model.id r) i) rows = Some b ->
  Model.id b' = i ->
  List.find (fun r => Z.eqb (Model.id r) i) (replace_row b' rows) = Some b'.
Proof.
  intros H Hi. induction rows as [|r rows IH]; simpl in *; [discriminate|].
  rewrite Hi.
  destruct (Z.eqb_spec (Model.id r) i) as [E|E].
  - now rewrite Hi, Z.eqb_refl.
  - destruct (Z.eqb_spec (Model.id r) i); [contradiction|]. auto.
Qed.

Lemma find_has_id i rows b :
  List.find (fun r => Z.eqb (Model.id r) i) rows = Some b -> Model.id b = i.
Proof.
  intros H. apply find_some in H as [_ H]. now apply Z.eqb_eq in H.
Qed.

Lemma replace_row_other (b' : Model.ExternalBook) rows r :
  Model.id r <> Model.id b' -> (In r rows <-> In r (replace_row b' rows)).
Proof.
  intros Hr. unfold replace_row. rewrite in_map_iff. split.
  - intros Hin. exists r. split; [|assumption].
    destruct (Z.eqb_spec (Model.id r) (Model.id b')); [contradiction|reflexivity].
  - intros (x & Hx & Hin).
    destruct (Z.eqb_spec (Model.id x) (Model.id b')); subst; [contradiction|assumption].
Qed.

(* ===================================================================== *)
(** ** Refresh (C8) *)
(* ===================================================================== *)

(** The upstream-sourced columns of [b] hold what the adapter returned. *)
Definition metadata_from (env : Env) (b : Model.ExternalBook)
    (d : ExternalBookResult) : Prop :=
  Model.title b = title d /\
  Model.authors b = Some (authors d) /\
  Model.description b = description d /\
  Model.cover_url b = thumbnail_url d /\
  Model.published_date b = published_date d /\
  Model.published_year b = parse_published_year env (published_date d) /\
  Model.language b = language d /\
  Model.categories b = Some (categories d) /\
  Model.isbn_10 b = isbn_10 d /\
  Model.isbn_13 b = isbn_13 d /\
  Model.publisher b = publisher d /\
  Model.page_count b = page_count d /\
  Model.average_rating b = average_rating d /\
  Model.ratings_count b = ratings_count d /\
  Model.preview_link b = preview_link d /\
  Model.info_link b = info_link d /\
  Model.metadata_json b = Some (raw_metadata d).

(** The import state of [b], its key and the columns that no adapter
    feeds are those of [b']. *)
Definition import_state_kept (b b' : Model.ExternalBook) : Prop :=
  Model.imported_at b' = Model.imported_at b /\
  Model.imported_by_id b' = Model.imported_by_id b /\
  Model.is_imported b' = Model.is_imported b /\
  Model.imported_book_id b' = Model.imported_book_id b /\
  Model.created_at b' = Model.created_at b /\
  Model.id b' = Model.id b /\
  Model.source b' = Model.source b /\
  Model.external_id b' = Model.external_id b /\
  Model.download_url b' = Model.download_url b.

(** C8.  Refresh frame effect: after a successful
    [_update_metadata_async], the row of [external_book_id] holds the
    adapter's result in its upstream-sourced columns and the current
    reading of the clock in [last_fetched_at]; [imported_at],
    [imported_by_id], [is_imported], [imported_book_id] and [created_at]
    (and the key and [download_url]) are what they were; the other rows are
    untouched.  (The commit also stamps [updated_at], by the column's
    [onupdate].) *)
Theorem refresh_overwrites_metadata_only (env : Env) (source external_id : string)
    (external_book_id : Z) (w : World) (d : Task.UpdateDict) (w' : World) :
  _update_metadata_async env source external_id external_book_id w = (Ok d, w') ->
  Task.u_success d = true ->
  exists book book' book_data w1,
    fetch_book_data env source external_id w = (Ok book_data, w1) /\
    get_by_id external_book_id w = (Ok (Some book), w) /\
    get_by_id external_book_id w' = (Ok (Some book'), w') /\
    metadata_from env book' book_data /\
    Model.last_fetched_at book' = Some (clock env (clock_count w1)) /\
    import_state_kept book book' /\
    (forall r, Model.id r <> external_book_id -> (In r (db w) <-> In r (db w'))).
Proof.
  intros H Hs. unfold _update_metadata_async in H.
  apply bind_Ok_inv in H as (book_data & w1 & Efetch & H).
  apply bind_Ok_inv in H as (found & w1' & Eget & H).
  pose proof (keeps_store_fetch env source external_id w) as Hk.
  rewrite Efetch in Hk. simpl in Hk. injection Hk as Hdb Hnext.
  unfold get_by_id in Eget. injection Eget as Hfound <-.
  rewrite Hdb in Hfound.
  destruct found as [book|].
  2:{ apply ret_inv in H as [<- _]. discriminate Hs. }
  apply bind_Ok_inv in H as (t & w2 & Enow & H).
  apply bind_Ok_inv in H as (u & w3 & Ecommit & H).
  apply ret_inv in H as [_ ->].
  unfold now in Enow. injection Enow as <- <-.
  unfold commit_update in Ecommit.
  apply bind_Ok_inv in Ecommit as (t' & w4 & Enow & Ecommit).
  unfold now in Enow. injection Enow as <- <-.
  injection Ecommit as _ <-.
  pose proof (find_has_id _ _ _ Hfound) as Hid.
  match goal with
  | |- context [replace_row ?b' _] => set (book' := b')
  end.
  exists book, book', book_data, w1.
  split; [exact Efetch|].
  split; [unfold get_by_id; now rewrite Hfound|].
  split.
  { unfold get_by_id. simpl. rewrite Hdb.
    now rewrite (find_replace_row external_book_id book book' (db w) Hfound Hid). }
  split; [repeat split|]. split; [reflexivity|]. split; [repeat split|].
  intros r Hr. simpl. rewrite Hdb. apply replace_row_other.
  subst book'. simpl. now rewrite Hid.
Qed.

(** A row that user 7 imported at time 5. *)
Definition imported_row : Model.ExternalBook :=
  {| Model.id := 1;
     Model.source := "google_books";
     Model.external_id := "zyTCAlFPjgYC";
     Model.title := "An old title";
     Model.authors := None;
     Model.description := None;
     Model.cover_url := None;
     Model.published_date := None;
     Model.published_year := None;
     Model.language := None;
     Model.categories := None;
     Model.isbn_10 := None;
     Model.isbn_13 := None;
     Model.publisher := None;
     Model.page_count := None;
     Model.average_rating := None;
     Model.ratings_count := None;
     Model.metadata_json := None;
     Model.preview_link := None;
     Model.info_link := None;
     Model.download_url := None;
     Model.is_imported := true;
     Model.imported_book_id := Some 40;
     Model.imported_by_id := Some 7;
     Model.imported_at := Some 5;
     Model.created_at := 3;
     Model.updated_at := None;
     Model.last_fetched_at := Some 5 |}.

Definition library : World :=
  {| db := [imported_row]; next_id := 2; trace := []; http_count := 0;
     clock_count := 10; loop := LoopUnset |}.

Lemma refresh_overwrites_metadata_only_witness :
  exists d w',
    _update_metadata_async (sample_env catalog) "google_books" "zyTCAlFPjgYC" 1 library
      = (Ok d, w') /\
    Task.u_success d = true /\
    exists book book' book_data w1,
      fetch_book_data (sample_env catalog) "google_books" "zyTCAlFPjgYC" library
        = (Ok book_data, w1) /\
      get_by_id 1 library = (Ok (Some book), library) /\
      get_by_id 1 w' = (Ok (Some book'), w') /\
      metadata_from (sample_env catalog) book' book_data /\
      Model.last_fetched_at book' = Some (clock (sample_env catalog) (clock_count w1)) /\
      import_state_kept book book' /\
      (forall r, Model.id r <> 1 -> (In r (db library) <-> In r (db w'))).
Proof.
  eexists. eexists. split; [vm_compute; reflexivity|]. split; [reflexivity|].
  eapply (refresh_overwrites_metadata_only (sample_env catalog)
            "google_books" "zyTCAlFPjgYC" 1 library).
  - vm_compute. reflexivity.
  - reflexivity.
Defined.

Example refresh_sample_row :
  (fun b => (Model.title b, Model.published_year b, Model.imported_at b,
             Model.imported_by_id b, Model.last_fetched_at b))
    <$> List.head (db (snd (_update_metadata_async (sample_env catalog)
                              "google_books" "zyTCAlFPjgYC" 1 library)))
  = Some ("The Google Story", Some 1997, Some 5, Some 7, Some 10000).
Proof. vm_compute. reflexivity. Qed.

(* ===================================================================== *)
(** ** Retry policy of the background tasks (C4) *)
(* ===================================================================== *)

Definition rate_limited (e : exn) : bool :=
  match e with
  | ExternalAPIError _ _ status_code => bool_decide (status_code = Some 429)
  | _ => false
  end.

(** [c] raises nothing but exceptions that satisfy [P]. *)
Definition raises_only {A} (P : exn -> Prop) (c : M A) : Prop :=
  forall w e w', c w = (Raise e, w') -> P e.

(** A pure step raises no adapter error. *)
Definition plain {A} (c : res A) : Prop :=
  forall e, c = Raise e -> is_ExternalAPIError e = false.

Lemma plain_get_default d k v : plain (Py.get_default d k v).
Proof. intros e. destruct d; simpl; intros [= <-]; reflexivity. Qed.
Lemma plain_get d k : plain (Py.get d k).
Proof. apply plain_get_default. Qed.
Lemma plain_iter v : plain (Py.iter v).
Proof. intros e. destruct v; simpl; intros [= <-]; reflexivity. Qed.
Lemma plain_index0 v : plain (Py.index0 v).
Proof.
  intros e. destruct v as [| | | |[|]|[|]|]; simpl; intros [= <-]; reflexivity.
Qed.
Lemma plain_slice_to n v : plain (Py.slice_to n v).
Proof. intros e. destruct v; simpl; intros [= <-]; reflexivity. Qed.
Lemma plain_str v : plain (Validate.str v).
Proof. intros e. destruct v; simpl; intros [= <-]; reflexivity. Qed.
Lemma plain_opt_str v : plain (Validate.opt_str v).
Proof. intros e. destruct v; simpl; intros [= <-]; reflexivity. Qed.
Lemma plain_strs l : plain (Validate.strs l).
Proof.
  induction l as [|x l IH]; intros e; simpl; [discriminate|].
  destruct x; try (intros [= <-]; reflexivity).
  destruct (Validate.strs l) as [r|e'] eqn:El; simpl; [discriminate|].
  intros [= <-]. now apply IH.
Qed.
Lemma plain_list_str v : plain (Validate.list_str v).
Proof.
  intros e. destruct v; simpl; try (intros [= <-]; reflexivity). apply plain_strs.
Qed.
Lemma plain_dict v : plain (Validate.dict v).
Proof. intros e. destruct v; simpl; intros [= <-]; reflexivity. Qed.

Section RaisesOnly.
Variable P : exn -> Prop.
Hypothesis P_plain : forall e, is_ExternalAPIError e = false -> P e.

Lemma raises_only_ret {A} (a : A) : raises_only P (ret a).
Proof. intros w e w'. discriminate. Qed.

Lemma raises_only_raise {A} (e : exn) : P e -> raises_only P (@raise A e).
Proof. intros He w e' w' [= <- _]. exact He. Qed.

Lemma raises_only_lift {A} (c : res A) : plain c -> raises_only P (lift c).
Proof. intros Hc w e w' [= -> _]. apply P_plain, Hc. reflexivity. Qed.

Lemma raises_only_bind {A B} (c : M A) (k : A -> M B) :
  raises_only P c -> (forall a, raises_only P (k a)) -> raises_only P (bind c k).
Proof.
  intros Hc Hk w e w'. unfold bind.
  destruct (c w) as [[a|e0] w1] eqn:E.
  - apply Hk.
  - intros [= <- _]. eapply Hc, E.
Qed.

Lemma raises_only_for_eachM {S A} (body : S -> A -> M S) (l : list A) :
  (forall s a, raises_only P (body s a)) -> forall s, raises_only P (for_eachM body l s).
Proof.
  intros Hb. induction l as [|x l IH]; intros s; simpl.
  - apply raises_only_ret.
  - apply raises_only_bind; auto.
Qed.

Lemma raises_only_emit ev : raises_only P (emit ev).
Proof. intros w e w'. discriminate. Qed.

Lemma raises_only_now env : raises_only P (now env).
Proof. intros w e w'. discriminate. Qed.

Lemma raises_only_client_get env r : raises_only P (client_get env r).
Proof. intros w e w'. discriminate. Qed.

Lemma raises_only_run_async {A} (c : M A) :
  raises_only P c -> raises_only P (run_async c).
Proof.
  intros Hc w e w'. unfold run_async.
  destruct (c (with_loop LoopOpen w)) as [r w1] eqn:E.
  intros [= -> _]. eapply Hc, E.
Qed.
End RaisesOnly.

Ltac raises_only :=
  repeat first
    [ apply raises_only_ret | apply raises_only_emit | apply raises_only_now
    | apply raises_only_client_get
    | apply raises_only_lift; [assumption|];
      first [ apply plain_get_default | apply plain_get | apply plain_iter
            | apply plain_index0 | apply plain_slice_to | apply plain_str
            | apply plain_opt_str | apply plain_strs | apply plain_list_str
            | apply plain_dict ]
    | apply raises_only_bind; [|intros ?]
    | apply raises_only_for_eachM; intros ? ?
    | apply raises_only_raise; [reflexivity]
    | match goal with
      | |- raises_only _ (match ?x with _ => _ end) => destruct x
      | |- raises_only _ (if ?x then _ else _) => destruct x
      end ].

Definition not_rate_limited (e : exn) : Prop := rate_limited e = false.

Lemma not_rate_limited_plain e : is_ExternalAPIError e = false -> not_rate_limited e.
Proof. destruct e; simpl; try discriminate; reflexivity. Qed.


Lemma google_answer_not_limited env id o :
  (forall body, o <> Response 429 body) ->
  raises_only not_rate_limited (google_details_of_answer env id o).
Proof.
  intros Ho. pose proof not_rate_limited_plain as Hp.
  unfold google_details_of_answer.
  destruct o as [|m|status body]; [raises_only..|].
  apply raises_only_bind; [|intros ?; raises_only].
  destruct (Z.eqb status 404); [raises_only|].
  destruct (negb (Z.eqb status 200)); [|raises_only].
  apply raises_only_raise. unfold not_rate_limited. simpl.
  apply bool_decide_eq_false. intros [= ->]. now apply (Ho body).
Qed.

Lemma raises_only_author_body env authors ref :
  raises_only not_rate_limited (author_body env authors ref).
Proof.
  pose proof not_rate_limited_plain as Hp. unfold author_body. raises_only.
Qed.

Lemma open_library_answer_not_limited env id o :
  (forall body, o <> Response 429 body) ->
  raises_only not_rate_limited (open_library_details_of_answer env id o).
Proof.
  intros Ho. pose proof not_rate_limited_plain as Hp.
  unfold open_library_details_of_answer.
  apply raises_only_bind.
  - destruct o as [|m|status body]; [raises_only..|].
    destruct (Z.eqb status 404); [raises_only|].
    destruct (negb (Z.eqb status 200)); [|raises_only].
    apply raises_only_raise. unfold not_rate_limited. simpl.
    apply bool_decide_eq_false. intros [= ->]. now apply (Ho body).
  - intros work_data.
    repeat first
      [ apply raises_only_author_body
      | apply raises_only_for_eachM; intros ? ? 
      | progress raises_only ].
Qed.

Definition details_request (env : Env) (s : ExternalSource) (external_id : string) : Request :=
  match s with
  | GOOGLE_BOOKS => google_details_request env external_id
  | OPEN_LIBRARY => work_request external_id
  end.

Definition details_of_answer (env : Env) (s : ExternalSource) (external_id : string)
    (o : http_outcome) : M ExternalBookResult :=
  match s with
  | GOOGLE_BOOKS => google_details_of_answer env external_id o
  | OPEN_LIBRARY => open_library_details_of_answer env external_id o
  end.

Definition first_answer (env : Env) (s : ExternalSource) (external_id : string)
    (w : World) : http_outcome :=
  http env (http_count w) (details_request env s external_id).

Definition after_request (env : Env) (s : ExternalSource) (external_id : string)
    (w : World) : World :=
  snd (client_get env (details_request env s external_id)
         (snd (emit (EvGetDetails s external_id) w))).

Lemma fetch_book_data_eq env s id w :
  fetch_book_data env (source_value s) id w
  = details_of_answer env s id (first_answer env s id w) (after_request env s id w).
Proof. destruct s; reflexivity. Qed.

Definition is_rate_limit_answer (o : http_outcome) : bool :=
  match o with
  | Response status _ => Z.eqb status 429
  | _ => false
  end.

Lemma is_rate_limit_answer_true o :
  is_rate_limit_answer o = true <-> exists body, o = Response 429 body.
Proof.
  split.
  - destruct o as [| |status body]; simpl; try discriminate.
    intros H%Z.eqb_eq. subst. eauto.
  - intros [body ->]. reflexivity.
Qed.

Lemma details_of_answer_not_limited env s id o :
  is_rate_limit_answer o = false ->
  raises_only not_rate_limited (details_of_answer env s id o).
Proof.
  intros Ho.
  assert (forall body, o <> Response 429 body).
  { intros body ->. discriminate Ho. }
  destruct s; [now apply google_answer_not_limited
              | now apply open_library_answer_not_limited].
Qed.

Lemma details_of_answer_limited env s id body w :
  details_of_answer env s id (Response 429 body) w
  = (Raise (ExternalAPIError s "API returned status 429" (Some 429)), w).
Proof. destruct s; reflexivity. Qed.

Lemma details_of_answer_transient env s id o w :
  o = TimeoutException \/ (exists m, o = RequestError m) \/
  (exists body, o = Response 404 body) ->
  exists m sc, details_of_answer env s id o w = (Raise (ExternalAPIError s m sc), w) /\
               sc <> Some 429.
Proof.
  intros [->|[[m ->]|[body ->]]]; destruct s; simpl;
    unfold google_details_of_answer, open_library_details_of_answer, bind, raise; simpl;
    eexists; eexists; (split; [reflexivity|discriminate]).
Qed.

Definition transient_or_missing (o : http_outcome) : Prop :=
  o = TimeoutException \/ (exists m, o = RequestError m) \/
  (exists body, o = Response 404 body).

Lemma fetch_then_outcome {A} env s id (rest : ExternalBookResult -> M A) w :
  (forall b, raises_only not_rate_limited (rest b)) ->
  (forall body, first_answer env s id w = Response 429 body ->
     exists e, rate_limited e = true /\ is_ExternalAPIError e = true /\
       bind (fetch_book_data env (source_value s) id) rest w
       = (Raise e, after_request env s id w)) /\
  (transient_or_missing (first_answer env s id w) ->
     exists e, rate_limited e = false /\ is_ExternalAPIError e = true /\
       bind (fetch_book_data env (source_value s) id) rest w
       = (Raise e, after_request env s id w)) /\
  (is_rate_limit_answer (first_answer env s id w) = false ->
     forall e w', bind (fetch_book_data env (source_value s) id) rest w = (Raise e, w') ->
                  rate_limited e = false).
Proof.
  intros Hrest. split; [|split].
  - intros body Ho. eexists. split; [|split]; cycle 2.
    + apply bind_Raise. rewrite fetch_book_data_eq, Ho.
      apply details_of_answer_limited.
    + reflexivity.
    + reflexivity.
  - intros Ho.
    destruct (details_of_answer_transient env s id _ (after_request env s id w) Ho)
      as (m & sc & Hd & Hsc).
    exists (ExternalAPIError s m sc). split; [|split].
    + simpl. now apply bool_decide_eq_false.
    + reflexivity.
    + apply bind_Raise. now rewrite fetch_book_data_eq.
  - intros Ho e w' H. unfold bind in H.
    destruct (fetch_book_data env (source_value s) id w) as [[b|e0] w1] eqn:Ef.
    + eapply Hrest, H.
    + injection H as <- <-. rewrite fetch_book_data_eq in Ef.
      eapply details_of_answer_not_limited; eauto.
Qed.

Lemma task_handler_limited {A} retries (fail : exn -> A) e w :
  rate_limited e = true ->
  task_handler retries fail e w
  = (Raise (if Z.ltb retries 3 then Retry (60 * (retries + 1)) else e), w).
Proof.
  destruct e; try discriminate. simpl. intros ->.
  unfold task_retry.
  destruct (Z.ltb_spec 3 (retries + 1)), (Z.ltb_spec retries 3); try lia; reflexivity.
Qed.

Lemma task_handler_other {A} retries (fail : exn -> A) e w :
  rate_limited e = false -> task_handler retries fail e w = (Ok (fail e), w).
Proof. destruct e; try reflexivity. simpl. intros ->. reflexivity. Qed.

(** What a task makes of the answer to the adapter's first request. *)
Definition retry_policy {A} (answer : http_outcome) (retries : Z)
    (failed : A -> Prop) (outcome : res A) : Prop :=
  (forall body, answer = Response 429 body ->
     exists e, is_ExternalAPIError e = true /\
       outcome = Raise (if Z.ltb retries 3 then Retry (60 * (retries + 1)) else e)) /\
  (transient_or_missing answer -> exists d, outcome = Ok d /\ failed d) /\
  (forall countdown, outcome = Raise (Retry countdown) ->
     (exists body, answer = Response 429 body) /\
     retries < 3 /\ countdown = 60 * (retries + 1)).

Lemma retry_policy_of_handler {A} env s id (rest : ExternalBookResult -> M A)
    retries (fail : exn -> A) (failed : A -> Prop) w :
  (forall b, raises_only not_rate_limited (rest b)) ->
  (forall e, failed (fail e)) ->
  retry_policy (first_answer env s id w) retries failed
    (fst (try_except (run_async (bind (fetch_book_data env (source_value s) id) rest))
            (fun _ => true) (task_handler retries fail) w)).
Proof.
  intros Hrest Hfail.
  destruct (fetch_then_outcome env s id rest (with_loop LoopOpen w) Hrest)
    as (H429 & Htr & Hother).
  change (first_answer env s id (with_loop LoopOpen w))
    with (first_answer env s id w) in *.
  unfold try_except, run_async.
  split; [|split].
  - intros body Ho. destruct (H429 body Ho) as (e & Hl & Ha & ->).
    rewrite task_handler_limited by assumption. simpl. eauto.
  - intros Ho. destruct (Htr Ho) as (e & Hl & Ha & ->).
    rewrite task_handler_other by assumption. simpl. eauto.
  - intros c Hc.
    destruct (bind _ rest (with_loop LoopOpen w)) as [[d|e] w1] eqn:Er;
      [discriminate Hc|].
    destruct (rate_limited e) eqn:Hl.
    + rewrite task_handler_limited in Hc by assumption. simpl in Hc.
      destruct (Z.ltb_spec retries 3); [|injection Hc as ->; discriminate Hl].
      injection Hc as <-. split; [|split; [assumption|reflexivity]].
      apply is_rate_limit_answer_true.
      destruct (is_rate_limit_answer (first_answer env s id w)) eqn:Ho; [reflexivity|].
      rewrite (Hother eq_refl e w1 eq_refl) in Hl. discriminate Hl.
    + rewrite task_handler_other in Hc by assumption. discriminate Hc.
Qed.

Lemma raises_only_select_by_key (P : exn -> Prop) source external_id :
  P MultipleResultsFound -> raises_only P (select_by_key source external_id).
Proof.
  intros HP w e w'. unfold select_by_key.
  destruct (List.filter _ (db w)) as [|b [|b' l]]; intros [= <- _]; assumption.
Qed.

Lemma raises_only_commit_update (P : exn -> Prop) env b :
  raises_only P (commit_update env b).
Proof. intros w e w'. discriminate. Qed.

Lemma raises_only_write_import (P : exn -> Prop) env existing source external_id
    book_data t d l user_id :
  raises_only P (write_import env existing source external_id book_data t d l user_id).
Proof. intros w e w'. unfold write_import. destruct existing; discriminate. Qed.

Lemma import_rest_not_limited env source external_id user_id overrides b :
  raises_only not_rate_limited
    (bind (select_by_key source external_id)
       (fun existing =>
          bind (write_import env existing source external_id b
                  (override overrides "title") (override overrides "description")
                  (override overrides "language") user_id)
            (fun external_book_id =>
               ret {| Task.success := true;
                      Task.external_id := external_id;
                      Task.source := source;
                      Task.external_book_id := Some external_book_id;
                      Task.message := Some "Book imported successfully";
                      Task.error := None |}))).
Proof.
  apply raises_only_bind; [now apply raises_only_select_by_key|].
  intros existing. apply raises_only_bind; [apply raises_only_write_import|].
  intros ?. apply raises_only_ret.
Qed.

Lemma update_rest_not_limited env external_book_id b :
  raises_only not_rate_limited
    (bind (get_by_id external_book_id)
       (fun book =>
          match book with
          | None =>
              ret {| Task.u_success := false;
                     Task.u_external_book_id := external_book_id;
                     Task.u_message := None;
                     Task.u_error := Some "Book not found" |}
          | Some book =>
              bind (now env)
                (fun last_fetched_at =>
                   bind (commit_update env
                           (stamp_fetched
                              (assign_metadata env book b (title b)
                                 (description b) (language b))
                              last_fetched_at))
                     (fun _ =>
                        ret {| Task.u_success := true;
                               Task.u_external_book_id := external_book_id;
                               Task.u_message := Some "Metadata updated successfully";
                               Task.u_error := None |}))
          end)).
Proof.
  intros w e w'. unfold get_by_id, bind. simpl.
  destruct (List.find _ (db w)); discriminate.
Qed.

(** The claim as the specification words it, on one run: the task asks
    for a retry. *)
Definition reschedules_a_retry {A} (outcome : res A) : Prop :=
  exists countdown, outcome = Raise (Retry countdown).

(** C4, as stated, fails: when the adapter's request times out, the first
    attempt of [import_single_book] returns a failed outcome at once. *)
Lemma timeout_is_not_retried :
  ~ reschedules_a_retry
      (fst (import_single_book (sample_env offline) 0 "google_books" "zyTCAlFPjgYC"
              None None fresh_world)).
Proof. intros [countdown H]. vm_compute in H. discriminate H. Qed.

Example timeout_outcome :
  fst (import_single_book (sample_env offline) 0 "google_books" "zyTCAlFPjgYC"
         None None fresh_world)
  = Ok {| Task.success := false;
          Task.external_id := "zyTCAlFPjgYC";
          Task.source := "google_books";
          Task.external_book_id := None;
          Task.message := None;
          Task.error := Some "google_books: Request timed out" |}.
Proof. vm_compute. reflexivity. Qed.

(** C4, amended.  A background import or refresh asks for a retry only
    when the adapter's request is answered with status 429, with the
    delay [60 * (retries + 1)] and for at most three retries (after them
    the adapter's error is the task's failure).  A timeout or a
    connection error, like a 404, is returned at once as a failed
    outcome, with no retry. *)
Theorem retry_only_when_rate_limited (env : Env) (retries : Z)
    (s : ExternalSource) (external_id : string) :
  (forall user_id overrides w,
      retry_policy (first_answer env s external_id w) retries
        (fun d => Task.success d = false /\ is_Some (Task.error d))
        (fst (import_single_book env retries (source_value s) external_id
                user_id overrides w))) /\
  (forall external_book_id book w,
      get_by_id external_book_id w = (Ok (Some book), w) ->
      Model.source book = source_value s ->
      Model.external_id book = external_id ->
      retry_policy (first_answer env s external_id w) retries
        (fun d => Task.u_success d = false /\ is_Some (Task.u_error d))
        (fst (update_book_metadata env retries external_book_id w))).
Proof.
  split.
  - intros user_id overrides w.
    apply (retry_policy_of_handler env s external_id _ retries
             (failure_dict (source_value s) external_id)).
    + intros b. apply import_rest_not_limited.
    + intros e. simpl. eauto.
  - intros external_book_id book w Hget Hs He.
    assert (Hrun :
      update_book_metadata env retries external_book_id w
      = try_except
          (run_async (_update_metadata_async env (source_value s) external_id
                        external_book_id))
          (fun _ => true)
          (task_handler retries (fun e => update_failure external_book_id (exn_str e)))
          w).
    { unfold update_book_metadata, try_except.
      rewrite (bind_Ok _ _ _ _ _ Hget), Hs, He. reflexivity. }
    rewrite Hrun.
    apply (retry_policy_of_handler env s external_id _ retries
             (fun e => update_failure external_book_id (exn_str e))).
    + intros b. apply update_rest_not_limited.
    + intros e. simpl. eauto.
Qed.

(** An upstream that rate-limits every request. *)
Definition rate_limiting : nat -> Request -> http_outcome :=
  fun _ _ => Response 429 None.

Lemma retry_only_when_rate_limited_witness :
  retry_policy (Response 429 None) 1
    (fun d => Task.success d = false /\ is_Some (Task.error d))
    (fst (import_single_book (sample_env rate_limiting) 1 "google_books"
            "zyTCAlFPjgYC" None None fresh_world)) /\
  retry_policy (Response 429 None) 1
    (fun d => Task.u_success d = false /\ is_Some (Task.u_error d))
    (fst (update_book_metadata (sample_env rate_limiting) 1 1 library)).
Proof.
  destruct (retry_only_when_rate_limited (sample_env rate_limiting) 1
              GOOGLE_BOOKS "zyTCAlFPjgYC") as [Himport Hupdate].
  split.
  - exact (Himport None None fresh_world).
  - exact (Hupdate 1 imported_row library eq_refl eq_refl eq_refl).
Defined.

Example rate_limited_attempts :
  map (fun retries =>
         fst (import_single_book (sample_env rate_limiting) retries "google_books"
                "zyTCAlFPjgYC" None None fresh_world))
      [0; 1; 2; 3]
  = [Raise (Retry 60); Raise (Retry 120); Raise (Retry 180);
     Raise (ExternalAPIError GOOGLE_BOOKS "API returned status 429" (Some 429))].
Proof. vm_compute. reflexivity. Qed.

(* ===================================================================== *)
(** ** What a run appends to the trace *)
(* ===================================================================== *)

(** [c] appends to the trace, and only events that satisfy [Q]. *)
Definition emits_only {A} (Q : event -> Prop) (c : M A) : Prop :=
  forall w, exists t, trace (snd (c w)) = (trace w ++ t)%list /\ Forall Q t.

Lemma emits_nothing {A} (Q : event -> Prop) (c : M A) :
  keeps_trace c -> emits_only Q c.
Proof. intros Hc w. exists []. rewrite app_nil_r. split; [apply Hc | constructor]. Qed.

Lemma emits_only_emit (Q : event -> Prop) (e : event) : Q e -> emits_only Q (emit e).
Proof. intros He w. exists [e]. split; [reflexivity | repeat constructor; exact He]. Qed.

Lemma emits_only_client_get (Q : event -> Prop) env r :
  Q (EvHttp r) -> emits_only Q (client_get env r).
Proof. intros He w. exists [EvHttp r]. split; [reflexivity | repeat constructor; exact He]. Qed.

Lemma emits_only_bind {A B} (Q : event -> Prop) (c : M A) (k : A -> M B) :
  emits_only Q c -> (forall a, emits_only Q (k a)) -> emits_only Q (bind c k).
Proof.
  intros Hc Hk w. unfold bind. destruct (Hc w) as (t & Ht & HQ).
  destruct (c w) as [[a|e] w1]; simpl in *.
  - destruct (Hk a w1) as (t' & Ht' & HQ'). exists (t ++ t')%list.
    rewrite Ht', Ht, app_assoc. split; [reflexivity | now apply Forall_app].
  - eauto.
Qed.

Lemma emits_only_try_except {A} (Q : event -> Prop) (c : M A) handles (h : exn -> M A) :
  emits_only Q c -> (forall e, emits_only Q (h e)) -> emits_only Q (try_except c handles h).
Proof.
  intros Hc Hh w. unfold try_except. destruct (Hc w) as (t & Ht & HQ).
  destruct (c w) as [[a|e] w1]; simpl in *; [eauto|].
  destruct (handles e); simpl; [|eauto].
  destruct (Hh e w1) as (t' & Ht' & HQ'). exists (t ++ t')%list.
  rewrite Ht', Ht, app_assoc. split; [reflexivity | now apply Forall_app].
Qed.

Lemma emits_only_for_eachM {S A} (Q : event -> Prop) (body : S -> A -> M S) (l : list A) :
  (forall s a, emits_only Q (body s a)) -> forall s, emits_only Q (for_eachM body l s).
Proof.
  intros Hb. induction l as [|x l IH]; intros s; simpl.
  - apply emits_nothing, keeps_ret.
  - apply emits_only_bind; auto.
Qed.

Lemma emits_only_run_async {A} (Q : event -> Prop) (c : M A) :
  emits_only Q c -> emits_only Q (run_async c).
Proof.
  intros Hc w. unfold run_async. destruct (Hc (with_loop LoopOpen w)) as (t & Ht & HQ).
  destruct (c (with_loop LoopOpen w)) as [r w1]. simpl in *. eauto.
Qed.

Lemma keeps_trace_select_by_key s id : keeps_trace (select_by_key s id).
Proof.
  intros w. unfold select_by_key.
  destruct (List.filter _ (db w)) as [|b [|b' l]]; reflexivity.
Qed.

Lemma keeps_trace_get_by_id i : keeps_trace (get_by_id i).
Proof. intros w. reflexivity. Qed.

Lemma keeps_trace_commit_update env b : keeps_trace (commit_update env b).
Proof. intros w. reflexivity. Qed.

Lemma keeps_trace_write_import env existing source external_id book_data t d l user_id :
  keeps_trace (write_import env existing source external_id book_data t d l user_id).
Proof. intros w. unfold write_import. destruct existing; reflexivity. Qed.

Ltac emits :=
  repeat first
    [ apply emits_only_emit; simpl; trivial
    | apply emits_only_client_get; simpl; trivial
    | apply emits_nothing;
      first [ apply keeps_ret | apply keeps_raise | apply keeps_lift
            | apply keeps_trace_now | apply keeps_trace_select_by_key
            | apply keeps_trace_get_by_id | apply keeps_trace_commit_update
            | apply keeps_trace_write_import ]
    | apply emits_only_bind; [|intros ?]
    | apply emits_only_for_eachM; intros ? ?
    | apply emits_only_try_except; [|intros ?]
    | apply emits_only_run_async
    | match goal with
      | |- emits_only _ (match ?x with _ => _ end) => destruct x
      | |- emits_only _ (if ?x then _ else _) => destruct x
      end ].

(** The events of an adapter call. *)
Definition adapter_event (e : event) : Prop :=
  match e with
  | EvGetDetails _ _ | EvHttp _ => True
  | _ => False
  end.

Lemma fetch_emits env source id : emits_only adapter_event (fetch_book_data env source id).
Proof.
  unfold fetch_book_data, get_google_book_details, get_open_library_book_details,
    google_details_of_answer, open_library_details_of_answer, author_body.
  emits.
Qed.

Lemma import_async_emits env source id user_id overrides :
  emits_only adapter_event (_import_book_async env source id user_id overrides).
Proof.
  unfold _import_book_async.
  apply emits_only_bind; [apply fetch_emits|]. intros b. emits.
Qed.

Lemma fetch_trace env s id w :
  exists t,
    trace (snd (fetch_book_data env (source_value s) id w))
    = (trace w ++ EvGetDetails s id :: EvHttp (details_request env s id) :: t)%list.
Proof.
  rewrite fetch_book_data_eq.
  assert (He : emits_only (fun _ => True) (details_of_answer env s id
                                            (first_answer env s id w))).
  { destruct s; simpl;
      unfold google_details_of_answer, open_library_details_of_answer, author_body;
      emits. }
  destruct (He (after_request env s id w)) as (t & Ht & _).
  exists t. rewrite Ht. unfold after_request. simpl.
  now rewrite <- !app_assoc.
Qed.

(* ===================================================================== *)
(** ** Idempotent import (C1) *)
(* ===================================================================== *)

(** C1.  On the background path the claim fails.  [_import_book_async]
    begins with the adapter call and looks the key up in the store only
    afterwards, to choose between update and insert: whatever the store
    holds, also a record of the key with [is_imported = True], a run
    starts with a [getDetails] call and its request, and a run that
    returns reports "Book imported successfully".  (The endpoint
    [import_external_book] does return early for an imported record.) *)
Theorem background_import_always_calls_adapter (env : Env) (s : ExternalSource)
    (external_id : string) (user_id : option Z)
    (overrides : option (list (string * string))) (w : World) :
  (exists t,
      trace (snd (_import_book_async env (source_value s) external_id
                    user_id overrides w))
      = (trace w ++ EvGetDetails s external_id
                 :: EvHttp (details_request env s external_id) :: t)%list) /\
  (forall d w',
      _import_book_async env (source_value s) external_id user_id overrides w
        = (Ok d, w') ->
      Task.message d = Some "Book imported successfully").
Proof.
  split.
  - unfold _import_book_async. unfold bind at 1.
    destruct (fetch_trace env s external_id w) as (t & Ht).
    destruct (fetch_book_data env (source_value s) external_id w)
      as [[b|e] w1]; simpl in Ht; [|eauto].
    match goal with
    | |- context [snd (?c w1)] =>
        assert (He : emits_only (fun _ => True) c) by emits
    end.
    destruct (He w1) as (t' & Ht' & _).
    exists (t ++ t')%list. rewrite Ht', Ht, <- app_assoc. reflexivity.
  - intros d w' H. unfold _import_book_async in H.
    repeat M_step H. apply ret_inv in H as [<- _]. reflexivity.
Qed.

(** The run on a store that holds the key as imported (by user 7, at
    time 5): the adapter is called, and the row is stamped again, for
    user 9. *)
Example background_import_of_imported_row :
  match _import_book_async (sample_env catalog) "google_books" "zyTCAlFPjgYC"
          (Some 9) None library with
  | (r, w') =>
      (r, trace w',
       (fun b => (Model.imported_by_id b, Model.imported_at b)) <$> List.head (db w'))
  end
  = (Ok {| Task.success := true;
           Task.external_id := "zyTCAlFPjgYC";
           Task.source := "google_books";
           Task.external_book_id := Some 1;
           Task.message := Some "Book imported successfully";
           Task.error := None |},
     [EvGetDetails GOOGLE_BOOKS "zyTCAlFPjgYC";
      EvHttp (google_details_request (sample_env catalog) "zyTCAlFPjgYC")],
     Some (Some 9, Some 10000)).
Proof. vm_compute. reflexivity. Qed.

(* ===================================================================== *)
(** ** Bulk import (C3) *)
(* ===================================================================== *)

Lemma run_async_closes_loop {A} (c : M A) w : loop (snd (run_async c w)) = LoopClosed.
Proof. unfold run_async. destruct (c (with_loop LoopOpen w)). reflexivity. Qed.

(** The first pass through the loop of [bulk_import_books], when another
    item follows: the import runs, and the pause after it raises. *)
Lemma bulk_task_body_first env n user_id acc item w :
  1 < n ->
  exists w' t,
    bulk_task_body env n user_id acc (0, item) w
    = (Raise (RuntimeError "Event loop is closed"), w') /\
    trace w' = (trace w ++ EvProgress 1 n (snd (fst acc)) (snd acc) :: t)%list /\
    Forall adapter_event t.
Proof.
  intros Hn. destruct acc as [[results successful] failed].
  unfold bulk_task_body.
  unfold bind at 1. simpl.
  unfold bind at 1.
  match goal with
  | |- context [try_except ?c ?h ?k ?w0] =>
      assert (Ht : exists a w1 t,
                 try_except c h k w0 = (Ok a, w1) /\ loop w1 = LoopClosed /\
                 trace w1 = (trace w0 ++ t)%list /\ Forall adapter_event t)
  end.
  { unfold try_except. unfold bind at 1.
    match goal with
    | |- context [run_async ?c ?w0] =>
        pose proof (run_async_closes_loop c w0) as Hl;
        destruct (emits_only_run_async adapter_event c
                    (import_async_emits env _ _ _ _) w0) as (t & Ht & HQ);
        destruct (run_async c w0) as [[d|e] w1]
    end; simpl in Hl, Ht.
    - destruct (Task.success d); simpl; eauto 10.
    - simpl. eauto 10. }
  destruct Ht as (a & w1 & t & -> & Hl & Ht & HQ).
  unfold bind at 1.
  destruct (Z.ltb_spec 0 (n - 1)); [|lia].
  unfold sleep_on_current_loop. rewrite Hl.
  exists w1, t. split; [reflexivity|]. split; [|assumption].
  rewrite Ht. simpl. now rewrite <- app_assoc.
Qed.

(** C3.  On the background path the claim fails for every batch of two
    items or more.  [run_async] leaves its event loop closed and current;
    the pause between items runs [asyncio.sleep] on the current loop,
    outside the [try], and [run_until_complete] on a closed loop raises
    [RuntimeError].  So [bulk_import_books] takes up the first item only
    (one progress report, then the events of that import) and raises:
    no report, and no outcome for the other items.  (The endpoint
    [bulk_import_external_books] has no pause and does process every
    item.) *)
Theorem bulk_import_books_stops_after_first_item (env : Env) (a b : Task.Item)
    (rest : list Task.Item) (user_id : option Z) (w : World) :
  exists w' t,
    bulk_import_books env (a :: b :: rest) user_id w
    = (Raise (RuntimeError "Event loop is closed"), w') /\
    trace w'
    = (trace w ++ EvProgress 1 (Z.of_nat (length (a :: b :: rest))) 0 0 :: t)%list /\
    Forall adapter_event t.
Proof.
  unfold bulk_import_books.
  set (n := Z.of_nat (length (a :: b :: rest))).
  assert (Hn : 1 < n) by (subst n; simpl length; lia).
  unfold enumerate. cbn [imap for_eachM].
  destruct (bulk_task_body_first env n user_id ([], 0, 0) a w Hn)
    as (w' & t & Hb & Ht & HQ).
  exists w', t. split; [|split; assumption].
  unfold bind at 1. unfold bind at 1.
  change (Z.of_nat 0) with 0. rewrite Hb. reflexivity.
Qed.

Definition batch_a_b_c : list Task.Item :=
  [ {| Task.i_source := "google_books"; Task.i_external_id := "zyTCAlFPjgYC";
       Task.i_overrides := None |};
    {| Task.i_source := "google_books"; Task.i_external_id := "missing";
       Task.i_overrides := None |};
    {| Task.i_source := "open_library"; Task.i_external_id := "OL82563W";
       Task.i_overrides := None |} ].

Example bulk_task_on_a_b_c :
  match bulk_import_books (sample_env catalog) batch_a_b_c (Some 9) fresh_world with
  | (r, w') => (r, trace w', length (db w'))
  end
  = (Raise (RuntimeError "Event loop is closed"),
     [EvProgress 1 3 0 0;
      EvGetDetails GOOGLE_BOOKS "zyTCAlFPjgYC";
      EvHttp (google_details_request (sample_env catalog) "zyTCAlFPjgYC")],
     1%nat).
Proof. vm_compute. reflexivity. Qed.

(* ===================================================================== *)
(** ** Interactive import: idempotence *)
(* ===================================================================== *)

Lemma select_by_key_inv source external_id w o w' :
  select_by_key source external_id w = (Ok o, w') ->
  w' = w /\
  match o with
  | Some e => List.filter (key_matches source external_id) (db w) = [e]
  | None => List.filter (key_matches source external_id) (db w) = []
  end.
Proof.
  unfold select_by_key.
  destruct (List.filter _ (db w)) as [|b [|b' l]]; intros [= <- <-]; auto.
Qed.

Lemma select_by_key_of_filter source external_id w e :
  List.filter (key_matches source external_id) (db w) = [e] ->
  select_by_key source external_id w = (Ok (Some e), w).
Proof. unfold select_by_key. intros ->. reflexivity. Qed.

Lemma filter_none {A} (f : A -> bool) (l : list A) :
  (forall x, In x l -> f x = false) -> List.filter f l = [].
Proof.
  induction l as [|x l IH]; simpl; intros H; [reflexivity|].
  rewrite (H x (or_introl eq_refl)). apply IH. intros y Hy. apply H. now right.
Qed.

Lemma filter_id_nodup (rows : list Model.ExternalBook) (e : Model.ExternalBook) :
  List.NoDup (map Model.id rows) -> In e rows ->
  List.filter (fun r => Z.eqb (Model.id r) (Model.id e)) rows = [e].
Proof.
  induction rows as [|r rows IH]; simpl; intros Hnd Hin; [contradiction|].
  inversion Hnd as [|? ? Hni Hnd']; subst.
  destruct Hin as [->|Hin].
  - rewrite Z.eqb_refl. f_equal.
    apply filter_none. intros x Hx.
    destruct (Z.eqb_spec (Model.id x) (Model.id e)) as [E|E]; [|reflexivity].
    exfalso. apply Hni. rewrite <- E. now apply in_map.
  - destruct (Z.eqb_spec (Model.id r) (Model.id e)) as [E|E].
    + exfalso. apply Hni. rewrite E. now apply in_map.
    + auto.
Qed.

Lemma filter_key_replace_row source external_id (rows : list Model.ExternalBook)
    (e b' : Model.ExternalBook) :
  List.NoDup (map Model.id rows) ->
  List.filter (key_matches source external_id) rows = [e] ->
  key_matches source external_id b' = true ->
  Model.id b' = Model.id e ->
  List.filter (key_matches source external_id) (replace_row b' rows) = [b'].
Proof.
  intros Hnd Hf Hk Hid.
  assert (He : In e rows /\ key_matches source external_id e = true).
  { apply filter_In. rewrite Hf. now left. }
  destruct He as [He _].
  assert (Hall : forall r, In r rows -> key_matches source external_id r = true -> r = e).
  { intros r Hr Hkr.
    assert (Hin : In r (List.filter (key_matches source external_id) rows))
      by (apply filter_In; auto).
    rewrite Hf in Hin. destruct Hin as [<-|[]]. reflexivity. }
  pose proof (filter_id_nodup rows e Hnd He) as Hone.
  clear Hf He Hnd. revert Hone Hall.
  unfold replace_row. rewrite Hid.
  induction rows as [|r rows IH]; simpl; [discriminate|].
  intros Hone Hall.
  destruct (Z.eqb_spec (Model.id r) (Model.id e)) as [E|E].
  - rewrite Hk. injection Hone as -> Hrest. f_equal.
    clear IH. induction rows as [|x rows IHr]; simpl in *; [reflexivity|].
    destruct (Z.eqb_spec (Model.id x) (Model.id e)); [discriminate Hrest|].
    destruct (key_matches source external_id x) eqn:Hx.
    + exfalso. apply n. now rewrite (Hall x (or_intror (or_introl eq_refl)) Hx).
    + apply IHr; [assumption|]. intros y [Hy|Hy] Hky; apply Hall; auto.
  - destruct (key_matches source external_id r) eqn:Hr.
    + exfalso. apply E. now rewrite (Hall r (or_introl eq_refl) Hr).
    + apply IH; [assumption|]. intros y Hy. apply Hall. now right.
Qed.

Lemma key_matches_refl source external_id b :
  Model.source b = source -> Model.external_id b = external_id ->
  key_matches source external_id b = true.
Proof. intros <- <-. unfold key_matches. now rewrite !String.eqb_refl. Qed.

Lemma key_matches_inv source external_id b :
  key_matches source external_id b = true ->
  Model.source b = source /\ Model.external_id b = external_id.
Proof.
  unfold key_matches. intros H. apply andb_true_iff in H as [H1 H2].
  now apply String.eqb_eq in H1, H2.
Qed.

(** The write of an import leaves exactly one row of the key, imported. *)
Lemma write_import_result env existing source external_id book_data t d l user_id w :
  List.NoDup (map Model.id (db w)) ->
  List.filter (key_matches source external_id) (db w)
    = match existing with Some e => [e] | None => [] end ->
  exists b w',
    write_import env existing source external_id book_data t d l user_id w
      = (Ok (Model.id b), w') /\
    List.filter (key_matches source external_id) (db w') = [b] /\
    Model.is_imported b = true /\
    trace w' = trace w.
Proof.
  intros Hnd Hf. unfold write_import. destruct existing as [e|].
  - assert (He : In e (db w) /\ key_matches source external_id e = true).
    { apply filter_In. rewrite Hf. now left. }
    destruct He as [_ He]. apply key_matches_inv in He as [Hs Hi].
    unfold bind, now, commit_update, bind, now, ret. simpl.
    match goal with
    | |- context [replace_row ?b' _] => exists b'
    end.
    eexists. split; [reflexivity|]. simpl.
    split; [|split; reflexivity].
    apply (filter_key_replace_row source external_id (db w) e); auto.
    now apply key_matches_refl.
  - unfold bind, now, add_and_commit, bind, now. simpl.
    match goal with
    | |- context [(db w ++ [?b'])%list] => exists b'
    end.
    eexists. split; [reflexivity|]. simpl.
    split; [|split; reflexivity].
    rewrite List.filter_app, Hf. simpl.
    unfold key_matches at 1. simpl. now rewrite !String.eqb_refl.
Qed.

Lemma keeps_store_get_details env s id : keeps_store (get_details env s id).
Proof.
  destruct s; [apply keeps_store_get_google | apply keeps_store_get_open_library].
Qed.

Definition is_http (e : event) : Prop :=
  match e with EvHttp _ => True | _ => False end.

Lemma get_details_trace env s id w :
  exists t,
    trace (snd (get_details env s id w)) = (trace w ++ EvGetDetails s id :: t)%list /\
    Forall is_http t.
Proof.
  assert (He : forall o, emits_only is_http (details_of_answer env s id o)).
  { intros o. destruct s; simpl;
      unfold google_details_of_answer, open_library_details_of_answer, author_body;
      emits. }
  destruct (He (first_answer env s id w) (after_request env s id w)) as (t & Ht & HQ).
  exists (EvHttp (details_request env s id) :: t). split.
  - transitivity (trace (snd (details_of_answer env s id (first_answer env s id w)
                                (after_request env s id w)))).
    + destruct s; reflexivity.
    + rewrite Ht. unfold after_request. simpl. now rewrite <- !app_assoc.
  - constructor; [exact I | assumption].
Qed.

(** X1.  Idempotent import on the interactive path.  After an import of a key
    that succeeded, on a store whose primary keys are distinct, an import
    of the same key, by whichever user, returns "Book already imported"
    with the same record id and leaves the world as it is: no adapter
    call, no write.  The first import made one adapter call, or none (the
    key was imported already). *)
Theorem import_external_book_twice (env : Env) (user user' : Z)
    (request : Schema.ExternalBookImportRequest) (w : World)
    (r : Schema.ImportResult) (w' : World) :
  List.NoDup (map Model.id (db w)) ->
  import_external_book env user request w = (Ok r, w') ->
  Schema.success r = true ->
  (exists t,
      trace w' = (trace w ++ t)%list /\
      (t = [] \/
       exists t', t = EvGetDetails (Schema.source request) (Schema.external_id request) :: t'
                  /\ Forall is_http t')) /\
  import_external_book env user' request w'
  = (Ok {| Schema.r_external_id := Schema.external_id request;
           Schema.r_source := Schema.source request;
           Schema.success := true;
           Schema.message := "Book already imported";
           Schema.external_book_id := Schema.external_book_id r;
           Schema.error := None |}, w').
Proof.
  intros Hnd H Hs. unfold import_external_book in H.
  apply bind_Ok_inv in H as (existing & w1 & Hsel & H).
  apply select_by_key_inv in Hsel as [-> Hf].
  assert (Hshort : forall e, List.filter (key_matches (source_value (Schema.source request))
                              (Schema.external_id request)) (db w') = [e] ->
             Model.is_imported e = true ->
             Schema.external_book_id r = Some (Model.id e) ->
             import_external_book env user' request w'
             = (Ok {| Schema.r_external_id := Schema.external_id request;
                      Schema.r_source := Schema.source request;
                      Schema.success := true;
                      Schema.message := "Book already imported";
                      Schema.external_book_id := Schema.external_book_id r;
                      Schema.error := None |}, w')).
  { intros e He Hi Hr. unfold import_external_book.
    rewrite (bind_Ok _ _ _ _ _ (select_by_key_of_filter _ _ _ _ He)), Hi, Hr.
    reflexivity. }
  assert (Hlong : fetch_and_store env user request existing w = (Ok r, w') ->
                  List.filter (key_matches (source_value (Schema.source request))
                                 (Schema.external_id request)) (db w)
                  = match existing with Some e => [e] | None => [] end ->
                  (exists t' : list event,
                     trace w' = (trace w ++ EvGetDetails (Schema.source request)
                                  (Schema.external_id request) :: t')%list /\
                     Forall is_http t') /\
                  exists e, List.filter (key_matches (source_value (Schema.source request))
                              (Schema.external_id request)) (db w') = [e] /\
                            Model.is_imported e = true /\
                            Schema.external_book_id r = Some (Model.id e)).
  { clear H Hshort. intros H Hf'. unfold fetch_and_store in H.
    apply bind_Ok_inv in H as (fetched & w2 & Hfetch & H).
    assert (Hw2 : store w2 = store w /\
                  exists t', trace w2 = (trace w ++ EvGetDetails (Schema.source request)
                                           (Schema.external_id request) :: t')%list /\
                             Forall is_http t').
    { unfold try_except, bind in Hfetch.
      pose proof (keeps_store_get_details env (Schema.source request)
                    (Schema.external_id request) w) as Hk.
      pose proof (get_details_trace env (Schema.source request)
                    (Schema.external_id request) w) as Ht.
      destruct (get_details env (Schema.source request) (Schema.external_id request) w)
        as [[b|e] w3]; simpl in *.
      - injection Hfetch as _ <-. auto.
      - destruct (is_ExternalAPIError e); [|discriminate Hfetch].
        injection Hfetch as _ <-. auto. }
    destruct Hw2 as [Hst (t' & Ht' & HQ)]. injection Hst as Hdb Hnext.
    destruct fetched as [book_data|e].
    2:{ apply ret_inv in H as [<- _]. discriminate Hs. }
    apply bind_Ok_inv in H as (new_id & w3 & Hwrite & H).
    apply ret_inv in H as [<- ->].
    destruct (write_import_result env existing (source_value (Schema.source request))
                (Schema.external_id request) book_data (Schema.title request)
                (Schema.description request) (Schema.language request)
                (Some user) w2) as (b & w4 & Hw & Hfb & Hib & Htr).
    { now rewrite Hdb. }
    { now rewrite Hdb. }
    rewrite Hw in Hwrite. injection Hwrite as <- <-.
    split.
    - exists t'. rewrite Htr. auto.
    - exists b. auto. }
  destruct existing as [e|].
  - destruct (Model.is_imported e) eqn:Hi.
    + apply ret_inv in H as [<- ->]. split.
      * exists []. rewrite app_nil_r. auto.
      * now apply (Hshort e).
    + destruct (Hlong H Hf) as [(t' & Ht' & HQ) (b & Hb & Hib & Hr)]. split.
      * eexists. split; [exact Ht'|]. right. eauto.
      * now apply (Hshort b).
  - destruct (Hlong H Hf) as [(t' & Ht' & HQ) (b & Hb & Hib & Hr)]. split.
    * eexists. split; [exact Ht'|]. right. eauto.
    * now apply (Hshort b).
Qed.

Definition sample_request : Schema.ExternalBookImportRequest :=
  {| Schema.source := GOOGLE_BOOKS;
     Schema.external_id := "zyTCAlFPjgYC";
     Schema.title := None;
     Schema.author := None;
     Schema.description := None;
     Schema.category := None;
     Schema.language := None |}.

Lemma import_external_book_twice_witness :
  exists r w',
    import_external_book (sample_env catalog) 7 sample_request fresh_world = (Ok r, w') /\
    Schema.external_book_id r = Some 1 /\
    (exists t,
        trace w' = (trace fresh_world ++ t)%list /\
        (t = [] \/
         exists t', t = EvGetDetails GOOGLE_BOOKS "zyTCAlFPjgYC" :: t'
                    /\ Forall is_http t')) /\
    import_external_book (sample_env catalog) 8 sample_request w'
    = (Ok {| Schema.r_external_id := "zyTCAlFPjgYC";
             Schema.r_source := GOOGLE_BOOKS;
             Schema.success := true;
             Schema.message := "Book already imported";
             Schema.external_book_id := Schema.external_book_id r;
             Schema.error := None |}, w').
Proof.
  eexists. eexists. split; [vm_compute; reflexivity|]. split; [reflexivity|].
  apply (import_external_book_twice (sample_env catalog) 7 8 sample_request fresh_world).
  - constructor.
  - vm_compute. reflexivity.
  - reflexivity.
Defined.

(* ===================================================================== *)
(** ** Interactive bulk import *)
(* ===================================================================== *)

Lemma import_external_book_ids env user request w r w' :
  import_external_book env user request w = (Ok r, w') ->
  Schema.r_external_id r = Schema.external_id request /\
  Schema.r_source r = Schema.source request.
Proof.
  intros H. unfold import_external_book in H.
  apply bind_Ok_inv in H as (existing & w1 & _ & H).
  assert (Hlong : fetch_and_store env user request existing w1 = (Ok r, w') ->
                  Schema.r_external_id r = Schema.external_id request /\
                  Schema.r_source r = Schema.source request).
  { clear H. intros H. unfold fetch_and_store in H.
    apply bind_Ok_inv in H as ([b|e] & w2 & _ & H).
    - apply bind_Ok_inv in H as (i & w3 & _ & H).
      apply ret_inv in H as [<- _]. auto.
    - apply ret_inv in H as [<- _]. auto. }
  destruct existing as [e|]; [|auto].
  destruct (Model.is_imported e); [|auto].
  apply ret_inv in H as [<- _]. auto.
Qed.

Definition import_failed (item : Schema.ExternalBookImportRequest) (e : exn)
  : Schema.ImportResult :=
  {| Schema.r_external_id := Schema.external_id item;
     Schema.r_source := Schema.source item;
     Schema.success := false;
     Schema.message := "Import failed";
     Schema.external_book_id := None;
     Schema.error := Some (exn_str e) |}.

(** The outcome [r] stands for [item]: it carries the item's key, and it
    is what the import of the item returned, or the failed outcome made of
    the exception that the import raised. *)
Definition outcome_of (env : Env) (user : Z)
    (item : Schema.ExternalBookImportRequest) (r : Schema.ImportResult) : Prop :=
  Schema.r_external_id r = Schema.external_id item /\
  Schema.r_source r = Schema.source item /\
  exists w1,
    match import_external_book env user item w1 with
    | (Ok r', _) => r = r'
    | (Raise e, _) => r = import_failed item e
    end.

Definition count_where (p : Schema.ImportResult -> bool)
    (rs : list Schema.ImportResult) : Z :=
  Z.of_nat (length (List.filter p rs)).

Definition succeeded (r : Schema.ImportResult) : bool := Schema.success r.
Definition did_fail (r : Schema.ImportResult) : bool := negb (Schema.success r).

Lemma bulk_endpoint_body_step env user results successful failed item w :
  exists r w',
    bulk_endpoint_body env user (results, successful, failed) item w
    = (Ok ((results ++ [r])%list,
           successful + count_where succeeded [r],
           failed + count_where did_fail [r]), w') /\
    outcome_of env user item r.
Proof.
  unfold bulk_endpoint_body, try_except, bind.
  pose proof (import_external_book_ids env user item w) as Hids.
  assert (Hrun : exists w1,
             import_external_book env user item w1 = import_external_book env user item w)
    by eauto.
  destruct (import_external_book env user item w) as [[r|e] w1] eqn:Er.
  - destruct (Hids r w1 eq_refl) as [Hi Hs].
    exists r, w1. unfold count_where, succeeded, did_fail. simpl.
    destruct Hrun as [w0 Hrun].
    destruct (Schema.success r) eqn:Hsucc; simpl; rewrite ?Z.add_0_r;
      (split; [reflexivity|]);
      (split; [assumption|split; [assumption|]]); exists w0; now rewrite Hrun.
  - exists (import_failed item e), w1. unfold count_where. simpl.
    rewrite Z.add_0_r. split; [reflexivity|].
    split; [reflexivity|split; [reflexivity|]].
    destruct Hrun as [w0 Hrun]. exists w0. now rewrite Hrun.
Qed.

Lemma count_where_app p rs rs' :
  count_where p (rs ++ rs') = count_where p rs + count_where p rs'.
Proof. unfold count_where. rewrite List.filter_app, length_app. lia. Qed.

Lemma bulk_endpoint_loop env user items results successful failed w :
  exists rs w',
    for_eachM (bulk_endpoint_body env user) items (results, successful, failed) w
    = (Ok ((results ++ rs)%list,
           successful + count_where succeeded rs,
           failed + count_where did_fail rs), w') /\
    Forall2 (outcome_of env user) items rs.
Proof.
  revert results successful failed w.
  induction items as [|item items IH]; intros results successful failed w; simpl.
  - exists [], w. rewrite app_nil_r. unfold count_where. simpl.
    rewrite !Z.add_0_r. split; [reflexivity | constructor].
  - destruct (bulk_endpoint_body_step env user results successful failed item w)
      as (r & w1 & Hstep & Hr).
    destruct (IH (results ++ [r])%list (successful + count_where succeeded [r])
                 (failed + count_where did_fail [r]) w1) as (rs & w' & Hloop & Hrs).
    exists (r :: rs), w'. split; [|now constructor].
    rewrite (bind_Ok _ _ _ _ _ Hstep), Hloop.
    rewrite <- app_assoc.
    change (r :: rs) with ([r] ++ rs)%list. rewrite !count_where_app.
    rewrite !Z.add_assoc. reflexivity.
Qed.

(** X2.  Partial-batch failure on the interactive path:
    [bulk_import_external_books] always returns; its report holds one
    outcome per item, in the order of the items; an item whose import
    raised has a failed outcome; [total] is the number of items and
    [successful] / [failed] count the outcomes with [success] true /
    false. *)
Theorem bulk_endpoint_reports_every_item (env : Env) (user : Z)
    (items : list Schema.ExternalBookImportRequest) (w : World) :
  exists resp w',
    bulk_import_external_books env user items w = (Ok resp, w') /\
    Forall2 (outcome_of env user) items (Schema.results resp) /\
    Schema.total resp = Z.of_nat (length items) /\
    Schema.successful resp = count_where succeeded (Schema.results resp) /\
    Schema.failed resp = count_where did_fail (Schema.results resp) /\
    Schema.successful resp + Schema.failed resp = Schema.total resp.
Proof.
  destruct (bulk_endpoint_loop env user items [] 0 0 w) as (rs & w' & Hloop & Hrs).
  unfold bulk_import_external_books.
  rewrite (bind_Ok _ _ _ _ _ Hloop). simpl.
  eexists. eexists. split; [reflexivity|]. simpl.
  split; [assumption|]. split; [reflexivity|]. split; [reflexivity|].
  split; [reflexivity|].
  pose proof Hrs as Hlen. apply Forall2_length in Hlen. rewrite Hlen.
  unfold count_where, succeeded, did_fail.
  clear. induction rs as [|r rs IH]; simpl; [reflexivity|].
  destruct (Schema.success r); simpl; lia.
Qed.

Definition requests_a_b_c : list Schema.ExternalBookImportRequest :=
  [ sample_request;
    {| Schema.source := GOOGLE_BOOKS; Schema.external_id := "missing";
       Schema.title := None; Schema.author := None; Schema.description := None;
       Schema.category := None; Schema.language := None |};
    {| Schema.source := OPEN_LIBRARY; Schema.external_id := "OL82563W";
       Schema.title := None; Schema.author := None; Schema.description := None;
       Schema.category := None; Schema.language := None |} ].

Example bulk_endpoint_on_a_b_c :
  (fun resp => (Schema.total resp, Schema.successful resp, Schema.failed resp,
                map Schema.success (Schema.results resp),
                map Schema.r_external_id (Schema.results resp)))
    <$> (match fst (bulk_import_external_books (sample_env catalog) 7
                      requests_a_b_c fresh_world) with
         | Ok resp => Some resp
         | Raise _ => None
         end)
  = Some (3, 2, 1, [true; false; true], ["zyTCAlFPjgYC"; "missing"; "OL82563W"]).
Proof. vm_compute. reflexivity. Qed.

(* ===================================================================== *)
(** ** ISBN extraction: which match wins *)
(* ===================================================================== *)

(** [len(v) == n] *)
Definition has_len (n : Z) (v : json) : bool :=
  match Py.len v with
  | Ok m => Z.eqb m n
  | Raise _ => false
  end.

Lemma has_len_truthy n v : 0 < n -> has_len n v = true -> Py.truthy v = true.
Proof.
  unfold has_len. intros Hn.
  destruct v as [| | | |s|l|kv]; simpl; try discriminate;
    intros H%Z.eqb_eq.
  - destruct s; [simpl in H; lia | reflexivity].
  - destruct l; [simpl in H; lia | reflexivity].
  - destruct kv; [simpl in H; lia | reflexivity].
Qed.

(** The value that the Open Library loop leaves in a slot that started
    as [a]: [a] when it is true, else the first element of length [n]. *)
Definition first_of_len (n : Z) (a : json) (l : list json) : json :=
  if Py.truthy a then a
  else match List.find (has_len n) l with
       | Some v => v
       | None => a
       end.

Lemma open_library_isbn_body_inv a b v a' b' :
  open_library_isbn_body (a, b) v = Ok (a', b') ->
  a' = (if has_len 10 v && negb (Py.truthy a) then v else a) /\
  b' = (if has_len 13 v && negb (Py.truthy b) then v else b).
Proof.
  unfold open_library_isbn_body, has_len. simpl.
  destruct (Py.len v) as [n|e]; simpl; [|discriminate].
  destruct (Z.eqb_spec n 10) as [->|H10]; simpl.
  - destruct (Py.truthy a); simpl; intros [= <- <-]; auto.
  - destruct (Z.eqb n 13 && negb (Py.truthy b)); intros [= <- <-]; auto.
Qed.

Lemma open_library_isbn_loop l : forall a b a' b',
  for_each open_library_isbn_body l (a, b) = Ok (a', b') ->
  a' = first_of_len 10 a l /\ b' = first_of_len 13 b l.
Proof.
  induction l as [|v l IH]; intros a b a' b' H; simpl in H.
  - injection H as <- <-. unfold first_of_len. simpl.
    destruct (Py.truthy a), (Py.truthy b); auto.
  - apply res_bind_Ok in H as ([a1 b1] & Hbody & H).
    apply open_library_isbn_body_inv in Hbody as [-> ->].
    apply IH in H as [-> ->]. unfold first_of_len. simpl.
    split.
    + destruct (Py.truthy a) eqn:Ha; simpl.
      * rewrite andb_false_r, Ha. reflexivity.
      * rewrite andb_true_r. destruct (has_len 10 v) eqn:Hv.
        -- now rewrite (has_len_truthy 10 v).
        -- now rewrite Ha.
    + destruct (Py.truthy b) eqn:Hb; simpl.
      * rewrite andb_false_r, Hb. reflexivity.
      * rewrite andb_true_r. destruct (has_len 13 v) eqn:Hv.
        -- now rewrite (has_len_truthy 13 v).
        -- now rewrite Hb.
Qed.

(** A validated [str | None] field [f] holds the object [v]. *)
Definition field_holds (v : json) (f : option string) : Prop :=
  (v = JNull /\ f = None) \/ (exists s, v = JStr s /\ f = Some s).

(** The first element of [l] of length [n], [None] when there is none. *)
Definition first_of_length (n : Z) (l : list json) : json :=
  default JNull (List.find (has_len n) l).

(** X3.  ISBN extraction of the Open Library adapter: the first entry of
    [isbn] of length 10 is [isbn_10], the first of length 13 is
    [isbn_13]; later ones are ignored. *)
Theorem open_library_isbn_first_match (env : Env) (doc : json) (r : ExternalBookResult) :
  _parse_open_library_book env doc = Some r ->
  exists isbn isbn_list,
    Py.get_default doc "isbn" (JArr []) = Ok isbn /\
    Py.iter isbn = Ok isbn_list /\
    field_holds (first_of_length 10 isbn_list) (isbn_10 r) /\
    field_holds (first_of_length 13 isbn_list) (isbn_13 r).
Proof.
  intros H. unfold _parse_open_library_book in H.
  apply except_None_Some in H.
  do 2 res_step H.
  match type of H with (if ?b then _ else _) = _ => destruct b; [discriminate|] end.
  res_step H.
  apply res_bind_Ok in H as (isbn & Hisbn & H).
  apply res_bind_Ok in H as (isbn_list & Hiter & H).
  apply res_bind_Ok in H as ([a b] & Hloop & H).
  apply open_library_isbn_loop in Hloop as [-> ->].
  repeat res_step H. injection H as <-. simpl.
  exists isbn, isbn_list. split; [assumption|]. split; [assumption|].
  split; apply opt_str_inv; assumption.
Qed.

(** [identifier.get("type", "") == t] *)
Definition typed (t : string) (v : json) : bool :=
  match Py.get_default v "type" (JStr "") with
  | Ok ty => Py.eq_str ty t
  | Raise _ => false
  end.

(** [identifier.get("identifier")] *)
Definition identifier_of (v : json) : json :=
  match Py.get v "identifier" with
  | Ok x => x
  | Raise _ => JNull
  end.

(** The identifier of the last element of [l] of type [t], starting from
    [a]. *)
Definition last_of_type (t : string) (a : json) (l : list json) : json :=
  match List.find (typed t) (rev l) with
  | Some v => identifier_of v
  | None => a
  end.

Lemma for_each_app {S A} (body : S -> A -> res S) (l l' : list A) (s : S) :
  for_each body (l ++ l') s = res_bind (for_each body l s) (for_each body l').
Proof.
  revert s. induction l as [|x l IH]; intros s; simpl; [reflexivity|].
  destruct (body s x); simpl; auto.
Qed.

Lemma google_isbn_body_inv a b v a' b' :
  google_isbn_body (a, b) v = Ok (a', b') ->
  a' = (if typed "ISBN_10" v then identifier_of v else a) /\
  b' = (if typed "ISBN_13" v then identifier_of v else b).
Proof.
  unfold google_isbn_body, typed, identifier_of. simpl.
  destruct (Py.get_default v "type" (JStr "")) as [ty|e]; simpl; [|discriminate].
  destruct (Py.eq_str ty "ISBN_10") eqn:H10.
  - assert (H13 : Py.eq_str ty "ISBN_13" = false).
    { destruct ty; try reflexivity. simpl in *.
      apply String.eqb_eq in H10. subst. reflexivity. }
    rewrite H13. destruct (Py.get v "identifier"); simpl; intros [= <- <-]; auto.
  - destruct (Py.eq_str ty "ISBN_13").
    + destruct (Py.get v "identifier"); simpl; intros [= <- <-]; auto.
    + intros [= <- <-]; auto.
Qed.

Lemma google_isbn_loop l : forall a b a' b',
  for_each google_isbn_body l (a, b) = Ok (a', b') ->
  a' = last_of_type "ISBN_10" a l /\ b' = last_of_type "ISBN_13" b l.
Proof.
  induction l as [|v l IH] using rev_ind; intros a b a' b' H.
  - injection H as <- <-. auto.
  - rewrite for_each_app in H.
    apply res_bind_Ok in H as ([a1 b1] & Hl & H). simpl in H.
    apply res_bind_Ok in H as ([a2 b2] & Hbody & [= <- <-]).
    apply IH in Hl as [-> ->].
    apply google_isbn_body_inv in Hbody as [-> ->].
    unfold last_of_type. rewrite rev_app_distr. simpl.
    split.
    + destruct (typed "ISBN_10" v); reflexivity.
    + destruct (typed "ISBN_13" v); reflexivity.
Qed.

(** X4.  ISBN extraction of the Google Books adapter: the identifier of the
    last entry of [industryIdentifiers] of type [ISBN_10] is [isbn_10],
    and likewise for [ISBN_13]; earlier ones are overwritten. *)
Theorem google_isbn_last_match (env : Env) (item : json) (r : ExternalBookResult) :
  _parse_google_book env item = Some r ->
  exists volume_info ids id_list,
    Py.get_default item "volumeInfo" (JObj []) = Ok volume_info /\
    Py.get_default volume_info "industryIdentifiers" (JArr []) = Ok ids /\
    Py.iter ids = Ok id_list /\
    field_holds (last_of_type "ISBN_10" JNull id_list) (isbn_10 r) /\
    field_holds (last_of_type "ISBN_13" JNull id_list) (isbn_13 r).
Proof.
  intros H. unfold _parse_google_book in H.
  apply except_None_Some in H.
  apply res_bind_Ok in H as (volume_info & Hvi & H).
  apply res_bind_Ok in H as (ids & Hids & H).
  apply res_bind_Ok in H as (id_list & Hiter & H).
  apply res_bind_Ok in H as ([a b] & Hloop & H).
  apply google_isbn_loop in Hloop as [-> ->].
  repeat res_step H. injection H as <-. simpl.
  exists volume_info, ids, id_list.
  repeat (split; [assumption|]).
  split; apply opt_str_inv; assumption.
Qed.

Lemma open_library_isbn_first_match_witness :
  exists r,
    _parse_open_library_book (sample_env offline) sample_doc = Some r /\
    isbn_10 r = Some "0747532699" /\
    exists isbn isbn_list,
      Py.get_default sample_doc "isbn" (JArr []) = Ok isbn /\
      Py.iter isbn = Ok isbn_list /\
      field_holds (first_of_length 10 isbn_list) (isbn_10 r) /\
      field_holds (first_of_length 13 isbn_list) (isbn_13 r).
Proof.
  eexists. split; [vm_compute; reflexivity|]. split; [reflexivity|].
  apply (open_library_isbn_first_match (sample_env offline) sample_doc).
  vm_compute. reflexivity.
Defined.

Lemma google_isbn_last_match_witness :
  exists r,
    _parse_google_book (sample_env offline) item_two_isbn10 = Some r /\
    isbn_10 r = Some "0439708184" /\
    exists volume_info ids id_list,
      Py.get_default item_two_isbn10 "volumeInfo" (JObj []) = Ok volume_info /\
      Py.get_default volume_info "industryIdentifiers" (JArr []) = Ok ids /\
      Py.iter ids = Ok id_list /\
      field_holds (last_of_type "ISBN_10" JNull id_list) (isbn_10 r) /\
      field_holds (last_of_type "ISBN_13" JNull id_list) (isbn_13 r).
Proof.
  eexists. split; [vm_compute; reflexivity|]. split; [reflexivity|].
  apply (google_isbn_last_match (sample_env offline) item_two_isbn10).
  vm_compute. reflexivity.
Defined.

(* ===================================================================== *)
(** ** The table's constraints are kept *)
(* ===================================================================== *)

(** The key of a row. *)
Definition key_of (b : Model.ExternalBook) : string * string :=
  (Model.source b, Model.external_id b).

(** The table respects its constraints: the primary keys are distinct and
    below the sequence, and the unique index on [(source, external_id)]
    holds. *)
Definition store_ok (w : World) : Prop :=
  List.NoDup (map Model.id (db w)) /\
  (forall b, In b (db w) -> Model.id b < next_id w) /\
  List.NoDup (map key_of (db w)).

Lemma replace_row_ids (b : Model.ExternalBook) rows :
  map Model.id (replace_row b rows) = map Model.id rows.
Proof.
  unfold replace_row. rewrite map_map. apply map_ext. intros r.
  destruct (Z.eqb_spec (Model.id r) (Model.id b)); congruence.
Qed.

Lemma NoDup_ids_inj rows (r e : Model.ExternalBook) :
  List.NoDup (map Model.id rows) -> In r rows -> In e rows ->
  Model.id r = Model.id e -> r = e.
Proof.
  induction rows as [|x rows IH]; simpl; intros Hnd Hr He Hid; [contradiction|].
  inversion Hnd as [|? ? Hni Hnd']; subst.
  destruct Hr as [->|Hr], He as [->|He]; auto.
  - exfalso. apply Hni. rewrite Hid. now apply in_map.
  - exfalso. apply Hni. rewrite <- Hid. now apply in_map.
Qed.

Lemma replace_row_keys (b e : Model.ExternalBook) rows :
  List.NoDup (map Model.id rows) -> In e rows ->
  Model.id b = Model.id e -> key_of b = key_of e ->
  map key_of (replace_row b rows) = map key_of rows.
Proof.
  intros Hnd He Hid Hk. unfold replace_row. rewrite map_map.
  apply map_ext_in. intros r Hr.
  destruct (Z.eqb_spec (Model.id r) (Model.id b)) as [E|E]; [|reflexivity].
  rewrite Hk. f_equal. symmetry. apply (NoDup_ids_inj rows); auto. congruence.
Qed.

Lemma replace_row_in (b : Model.ExternalBook) rows r :
  In r (replace_row b rows) -> r = b \/ In r rows.
Proof.
  unfold replace_row. rewrite in_map_iff. intros (x & Hx & Hin).
  destruct (Z.eqb (Model.id x) (Model.id b)); subst; auto.
Qed.

(** An update in place of a row of the table, which keeps its id and its
    key, keeps the constraints. *)
Lemma store_ok_replace_row (b e : Model.ExternalBook) w :
  store_ok w -> In e (db w) -> Model.id b = Model.id e -> key_of b = key_of e ->
  store_ok (with_db (replace_row b (db w)) (next_id w) w).
Proof.
  intros (Hids & Hlt & Hkeys) He Hid Hk. unfold store_ok. simpl.
  rewrite replace_row_ids, (replace_row_keys b e) by assumption.
  split; [assumption|]. split; [|assumption].
  intros r Hr. apply replace_row_in in Hr as [->|Hr]; [|auto].
  rewrite Hid. auto.
Qed.

(** An insert of a row with the next id and a key that the table does not
    hold keeps the constraints. *)
Lemma store_ok_insert (b : Model.ExternalBook) w :
  store_ok w -> Model.id b = next_id w ->
  (forall r, In r (db w) -> key_of r <> key_of b) ->
  store_ok (with_db (db w ++ [b]) (next_id w + 1) w).
Proof.
  intros (Hids & Hlt & Hkeys) Hid Hfresh. unfold store_ok. simpl.
  rewrite !map_app. simpl. split; [|split].
  - apply List.NoDup_app; [assumption | repeat constructor; auto |].
    intros i Hi [<-|[]]. apply in_map_iff in Hi as (r & Hr & Hin).
    specialize (Hlt r Hin). lia.
  - intros r Hr. apply in_app_or in Hr as [Hr|[<-|[]]]; [specialize (Hlt r Hr)|]; lia.
  - apply List.NoDup_app; [assumption | repeat constructor; auto |].
    intros k Hk [<-|[]]. apply in_map_iff in Hk as (r & Hr & Hin).
    now apply (Hfresh r Hin).
Qed.

Lemma store_ok_ext w w' : store w' = store w -> store_ok w -> store_ok w'.
Proof. unfold store, store_ok. intros [= -> ->]. auto. Qed.

(** [c] keeps the constraints of the table. *)
Definition keeps_ok {A} (c : M A) : Prop :=
  forall w, store_ok w -> store_ok (snd (c w)).

Lemma keeps_ok_of_keeps_store {A} (c : M A) : keeps_store c -> keeps_ok c.
Proof. intros Hc w Hw. eapply store_ok_ext; [apply Hc | assumption]. Qed.

Lemma keeps_ok_bind {A B} (c : M A) (k : A -> M B) :
  keeps_ok c -> (forall a, keeps_ok (k a)) -> keeps_ok (bind c k).
Proof.
  intros Hc Hk w Hw. unfold bind. specialize (Hc w Hw).
  destruct (c w) as [[a|e] w1]; simpl in *; [now apply Hk | assumption].
Qed.

Lemma keeps_ok_try_except {A} (c : M A) handles (h : exn -> M A) :
  keeps_ok c -> (forall e, keeps_ok (h e)) -> keeps_ok (try_except c handles h).
Proof.
  intros Hc Hh w Hw. unfold try_except. specialize (Hc w Hw).
  destruct (c w) as [[a|e] w1]; simpl in *; [assumption|].
  destruct (handles e); simpl; [now apply Hh | assumption].
Qed.

Lemma keeps_ok_for_eachM {S A} (body : S -> A -> M S) (l : list A) :
  (forall s a, keeps_ok (body s a)) -> forall s, keeps_ok (for_eachM body l s).
Proof.
  intros Hb. induction l as [|x l IH]; intros s; simpl.
  - apply keeps_ok_of_keeps_store, keeps_ret.
  - apply keeps_ok_bind; auto.
Qed.

Lemma keeps_ok_run_async {A} (c : M A) : keeps_ok c -> keeps_ok (run_async c).
Proof.
  intros Hc w Hw. unfold run_async.
  assert (Ho : store_ok (with_loop LoopOpen w)) by exact Hw.
  specialize (Hc _ Ho). destruct (c (with_loop LoopOpen w)) as [r w1]. exact Hc.
Qed.

Lemma keeps_store_select_by_key source external_id :
  keeps_store (select_by_key source external_id).
Proof.
  intros w. unfold select_by_key.
  destruct (List.filter _ (db w)) as [|b [|b' l]]; reflexivity.
Qed.

Lemma key_of_neq source external_id r b :
  key_matches source external_id r = false ->
  key_matches source external_id b = true ->
  key_of r <> key_of b.
Proof.
  intros Hr Hb Hk. apply key_matches_inv in Hb as [<- <-].
  unfold key_of in Hk. injection Hk as Hs Hi.
  unfold key_matches in Hr. rewrite Hs, Hi, !String.eqb_refl in Hr. discriminate.
Qed.

Lemma filter_nil_inv {A} (f : A -> bool) (l : list A) x :
  List.filter f l = [] -> In x l -> f x = false.
Proof.
  intros Hf Hx. destruct (f x) eqn:E; [|reflexivity].
  assert (Hin : In x (List.filter f l)) by (apply filter_In; auto).
  rewrite Hf in Hin. contradiction.
Qed.

(** The write of an import keeps the constraints, when [existing] is what
    the lookup of the key found. *)
Lemma write_import_keeps_ok env existing source external_id book_data t d l user_id w :
  store_ok w ->
  match existing with
  | Some e => In e (db w)
  | None => List.filter (key_matches source external_id) (db w) = []
  end ->
  store_ok (snd (write_import env existing source external_id book_data t d l
                   user_id w)).
Proof.
  intros Hw He. unfold write_import. destruct existing as [e|].
  - unfold bind, now, commit_update, bind, now, ret. simpl.
    match goal with
    | |- store_ok (with_db (replace_row ?b' _) _ ?w2) =>
        apply (store_ok_ext (with_db (replace_row b' (db w)) (next_id w) w));
          [reflexivity|];
        apply (store_ok_replace_row b' e); auto
    end.
  - unfold bind, now, add_and_commit, bind, now. simpl.
    match goal with
    | |- store_ok (with_db (_ ++ [?b'])%list _ ?w2) =>
        apply (store_ok_ext (with_db (db w ++ [b'])%list (next_id w + 1) w));
          [reflexivity|];
        apply (store_ok_insert b'); auto
    end.
    intros r Hr. apply (key_of_neq source external_id).
    + now apply (filter_nil_inv _ (db w)).
    + unfold key_matches. simpl. now rewrite !String.eqb_refl.
Qed.

Lemma select_by_key_found source external_id w e w' :
  select_by_key source external_id w = (Ok (Some e), w') -> In e (db w).
Proof.
  intros H. apply select_by_key_inv in H as [_ Hf].
  assert (Hin : In e (List.filter (key_matches source external_id) (db w)))
    by (rewrite Hf; now left).
  now apply filter_In in Hin.
Qed.

Lemma select_then_write_keeps_ok {A} env source external_id book_data t d l user_id
    (k : Z -> M A) :
  (forall i, keeps_ok (k i)) ->
  keeps_ok (bind (select_by_key source external_id)
              (fun existing =>
                 bind (write_import env existing source external_id book_data
                         t d l user_id) k)).
Proof.
  intros Hk w Hw. unfold bind at 1.
  destruct (select_by_key source external_id w) as [[existing|e] w1] eqn:Hsel.
  - pose proof (select_by_key_inv _ _ _ _ _ Hsel) as [-> Hf].
    unfold bind.
    assert (Hwr : store_ok (snd (write_import env existing source external_id
                                   book_data t d l user_id w))).
    { apply write_import_keeps_ok; [assumption|].
      destruct existing as [e|]; [|assumption].
      now apply (select_by_key_found _ _ _ _ _ Hsel). }
    destruct (write_import env existing source external_id book_data t d l user_id w)
      as [[i|e] w2]; simpl in *; [now apply Hk | assumption].
  - pose proof (keeps_store_select_by_key source external_id w) as Hs.
    rewrite Hsel in Hs. simpl in *. now apply (store_ok_ext w).
Qed.

Definition found_by (source external_id : string) (existing : option Model.ExternalBook)
    (w : World) : Prop :=
  match existing with
  | Some e => In e (db w)
  | None => List.filter (key_matches source external_id) (db w) = []
  end.

Lemma found_by_ext source external_id existing w w' :
  store w' = store w -> found_by source external_id existing w ->
  found_by source external_id existing w'.
Proof. unfold store, found_by. intros [= -> _]. auto. Qed.

Lemma select_by_key_found_by source external_id w existing w' :
  select_by_key source external_id w = (Ok existing, w') ->
  w' = w /\ found_by source external_id existing w.
Proof.
  intros H. pose proof (select_by_key_inv _ _ _ _ _ H) as [-> Hf].
  split; [reflexivity|]. destruct existing as [e|]; [|exact Hf].
  now apply (select_by_key_found _ _ _ _ _ H).
Qed.

Lemma fetch_and_store_keeps_ok env user request existing w :
  store_ok w ->
  found_by (source_value (Schema.source request)) (Schema.external_id request)
    existing w ->
  store_ok (snd (fetch_and_store env user request existing w)).
Proof.
  intros Hw Hf. unfold fetch_and_store. unfold bind at 1.
  match goal with
  | |- context [try_except ?c ?h ?k w] =>
      assert (Hk : keeps_store (try_except c h k))
  end.
  { apply keeps_try_except; [|intros e; apply keeps_ret].
    apply keeps_bind; [apply keeps_store_get_details | intros b; apply keeps_ret]. }
  specialize (Hk w).
  destruct (try_except _ _ _ w) as [[fetched|e] w2]; simpl in Hk |- *.
  2:{ now apply (store_ok_ext w). }
  destruct fetched as [book_data|e]; [|now apply (store_ok_ext w)].
  unfold bind.
  assert (Hwr : store_ok (snd (write_import env existing
                                 (source_value (Schema.source request))
                                 (Schema.external_id request) book_data
                                 (Schema.title request) (Schema.description request)
                                 (Schema.language request) (Some user) w2))).
  { apply write_import_keeps_ok; [now apply (store_ok_ext w)|].
    now apply (found_by_ext _ _ _ w). }
  destruct (write_import _ _ _ _ _ _ _ _ _ w2) as [[i|e] w3]; exact Hwr.
Qed.

Lemma import_external_book_keeps_ok env user request :
  keeps_ok (import_external_book env user request).
Proof.
  intros w Hw. unfold import_external_book. unfold bind.
  destruct (select_by_key _ _ w) as [[existing|e] w1] eqn:Hsel.
  - apply select_by_key_found_by in Hsel as [-> Hf].
    destruct existing as [e|].
    + destruct (Model.is_imported e); [exact Hw|].
      now apply fetch_and_store_keeps_ok.
    + now apply fetch_and_store_keeps_ok.
  - pose proof (keeps_store_select_by_key
                  (source_value (Schema.source request)) (Schema.external_id request) w)
      as Hs.
    rewrite Hsel in Hs. now apply (store_ok_ext w).
Qed.

Lemma bulk_import_external_books_keeps_ok env user items :
  keeps_ok (bulk_import_external_books env user items).
Proof.
  unfold bulk_import_external_books.
  apply keeps_ok_bind.
  - apply keeps_ok_for_eachM. intros [[results successful] failed] item.
    unfold bulk_endpoint_body. apply keeps_ok_try_except.
    + apply keeps_ok_bind; [apply import_external_book_keeps_ok|].
      intros r. destruct (Schema.success r);
        apply keeps_ok_of_keeps_store, keeps_ret.
    + intros e. apply keeps_ok_of_keeps_store, keeps_ret.
  - intros [[results successful] failed]. apply keeps_ok_of_keeps_store, keeps_ret.
Qed.

Lemma import_book_async_keeps_ok env source external_id user_id overrides :
  keeps_ok (_import_book_async env source external_id user_id overrides).
Proof.
  unfold _import_book_async. apply keeps_ok_bind.
  - apply keeps_ok_of_keeps_store, keeps_store_fetch.
  - intros book_data. apply select_then_write_keeps_ok.
    intros i. apply keeps_ok_of_keeps_store, keeps_ret.
Qed.

Lemma update_metadata_async_keeps_ok env source external_id external_book_id :
  keeps_ok (_update_metadata_async env source external_id external_book_id).
Proof.
  unfold _update_metadata_async. apply keeps_ok_bind.
  - apply keeps_ok_of_keeps_store, keeps_store_fetch.
  - intros book_data w Hw. unfold bind at 1. unfold get_by_id at 1.
    destruct (List.find _ (db w)) as [book|] eqn:Hfind; [|exact Hw].
    unfold bind, now, commit_update, bind, now, ret. simpl.
    apply find_some in Hfind as [Hin _].
    match goal with
    | |- store_ok (with_db (replace_row ?b' _) _ ?w2) =>
        apply (store_ok_ext (with_db (replace_row b' (db w)) (next_id w) w));
          [reflexivity|];
        apply (store_ok_replace_row b' book); auto
    end.
Qed.

Lemma task_handler_keeps_ok {A} retries (failure : exn -> A) e :
  keeps_ok (task_handler retries failure e).
Proof.
  apply keeps_ok_of_keeps_store. unfold task_handler, task_retry.
  destruct e; try apply keeps_ret.
  destruct (bool_decide _); [|apply keeps_ret].
  destruct (Z.ltb _ _); apply keeps_raise.
Qed.

Lemma sleep_keeps_store : keeps_store sleep_on_current_loop.
Proof. intros w. unfold sleep_on_current_loop. destruct (loop w); reflexivity. Qed.


Lemma key_matches_key_of source external_id b :
  key_matches source external_id b = true <-> key_of b = (source, external_id).
Proof.
  unfold key_matches, key_of. rewrite andb_true_iff, !String.eqb_eq.
  split; [intros [-> ->]; reflexivity | intros [= -> ->]; auto].
Qed.

Lemma filter_key_unique source external_id rows :
  List.NoDup (map key_of rows) ->
  List.filter (key_matches source external_id) rows = [] \/
  exists e, List.filter (key_matches source external_id) rows = [e].
Proof.
  induction rows as [|r rows IH]; intros Hnd; simpl; [auto|].
  inversion Hnd as [|k ks Hnotin Hnd']; subst.
  destruct (key_matches source external_id r) eqn:Hr; [|auto].
  right. exists r. f_equal. apply filter_none. intros x Hx.
  destruct (key_matches source external_id x) eqn:Hkx; [|reflexivity].
  exfalso. apply Hnotin. apply key_matches_key_of in Hr, Hkx.
  rewrite Hr, <- Hkx. now apply in_map.
Qed.

Lemma select_by_key_returns source external_id w :
  store_ok w -> exists o, select_by_key source external_id w = (Ok o, w).
Proof.
  intros (_ & _ & Hk). unfold select_by_key.
  destruct (filter_key_unique source external_id (db w) Hk) as [-> | [e ->]]; eauto.
Qed.

Lemma store_ok_library : store_ok library.
Proof.
  split; [|split].
  - repeat constructor. simpl. tauto.
  - intros b [<- | []]. reflexivity.
  - repeat constructor. simpl. tauto.
Qed.

(** X5.  The table [external_books] has a primary key and the unique index
    [ix_external_books_source_external_id] on (source, external_id).  On a
    store that satisfies both (and whose sequence is ahead of every id),
    the lookup by key of the import never meets several rows, and an
    interactive import, single or bulk, leaves a store that satisfies them
    again, whatever the upstream answers: a row is written over in place
    or added under a fresh id and a key that no row has. *)
Theorem interactive_import_keeps_unique_index (env : Env) (user : Z) (w : World) :
  store_ok w ->
  (forall source external_id,
      exists o, select_by_key source external_id w = (Ok o, w)) /\
  (forall request, store_ok (snd (import_external_book env user request w))) /\
  (forall items, store_ok (snd (bulk_import_external_books env user items w))).
Proof.
  intros Hw. split; [|split].
  - intros source external_id. now apply select_by_key_returns.
  - intros request. now apply import_external_book_keeps_ok.
  - intros items. now apply bulk_import_external_books_keeps_ok.
Qed.

Lemma interactive_import_keeps_unique_index_witness :
  store_ok library /\
  store_ok (snd (bulk_import_external_books (sample_env catalog) 7
                   requests_a_b_c library)).
Proof.
  split; [exact store_ok_library|].
  apply (interactive_import_keeps_unique_index (sample_env catalog) 7 library
           store_ok_library).
Defined.

Example bulk_endpoint_on_library_keys :
  map key_of (db (snd (bulk_import_external_books (sample_env catalog) 7
                         requests_a_b_c library)))
  = [("google_books", "zyTCAlFPjgYC"); ("open_library", "OL82563W")].
Proof. vm_compute. reflexivity. Qed.

(** X6.  The background tasks keep the same constraints: an import
    ([import_single_book], [bulk_import_books]) and a refresh
    ([update_book_metadata]) leave a store with distinct ids and distinct
    (source, external_id) keys, in every outcome: returned, failed, retry
    asked for, or stopped by an exception. *)
Theorem background_tasks_keep_unique_index (env : Env) (retries : Z) (w : World) :
  store_ok w ->
  (forall source external_id user_id overrides,
      store_ok (snd (import_single_book env retries source external_id
                       user_id overrides w))) /\
  (forall items user_id, store_ok (snd (bulk_import_books env items user_id w))) /\
  (forall external_book_id,
      store_ok (snd (update_book_metadata env retries external_book_id w))).
Proof.
  intros Hw. split; [|split].
  - intros source external_id user_id overrides. revert w Hw.
    apply keeps_ok_try_except; [|intros e; apply task_handler_keeps_ok].
    apply keeps_ok_run_async, import_book_async_keeps_ok.
  - intros items user_id. revert w Hw. unfold bulk_import_books.
    apply keeps_ok_bind.
    + apply keeps_ok_for_eachM. intros [[results successful] failed] [i item].
      unfold bulk_task_body.
      apply keeps_ok_bind; [apply keeps_ok_of_keeps_store, keeps_store_emit|].
      intros _. apply keeps_ok_bind.
      * apply keeps_ok_try_except.
        -- apply keeps_ok_bind.
           ++ apply keeps_ok_run_async, import_book_async_keeps_ok.
           ++ intros r. destruct (Task.success r);
                apply keeps_ok_of_keeps_store, keeps_ret.
        -- intros e. apply keeps_ok_of_keeps_store, keeps_ret.
      * intros acc.
        apply keeps_ok_bind; [|intros _; apply keeps_ok_of_keeps_store, keeps_ret].
        destruct (Z.ltb _ _); apply keeps_ok_of_keeps_store;
          [apply sleep_keeps_store | apply keeps_ret].
    + intros [[results successful] failed]. apply keeps_ok_of_keeps_store, keeps_ret.
  - intros external_book_id. revert w Hw. unfold update_book_metadata.
    apply keeps_ok_try_except; [|intros e; apply task_handler_keeps_ok].
    apply keeps_ok_bind; [apply keeps_ok_of_keeps_store; intros w; reflexivity|].
    intros [book|]; [|apply keeps_ok_of_keeps_store, keeps_ret].
    apply keeps_ok_run_async, update_metadata_async_keeps_ok.
Qed.

Lemma background_tasks_keep_unique_index_witness :
  store_ok library /\
  store_ok (snd (import_single_book (sample_env catalog) 0 "open_library" "OL82563W"
                   (Some 9) None library)) /\
  store_ok (snd (update_book_metadata (sample_env catalog) 0 1 library)).
Proof.
  split; [exact store_ok_library|].
  destruct (background_tasks_keep_unique_index (sample_env catalog) 0 library
              store_ok_library) as (Himport & _ & Hupdate).
  split; [apply Himport | apply Hupdate].
Defined.

(* ===================================================================== *)
(** ** What an import and a refresh leave in the table *)
(* ===================================================================== *)

(** What [write_import] does to the table: the ids that were there stay
    in their places, and at most the returned one is new. *)
Lemma write_import_ids env existing source external_id book_data t d l user_id w :
  found_by source external_id existing w ->
  exists i w',
    write_import env existing source external_id book_data t d l user_id w = (Ok i, w') /\
    In i (map Model.id (db w')) /\
    map Model.id (db w')
    = (map Model.id (db w) ++ match existing with Some _ => [] | None => [i] end)%list.
Proof.
  intros Hf. unfold write_import. destruct existing as [e|]; simpl in Hf.
  - unfold bind, now, commit_update, bind, now, ret. simpl.
    eexists. eexists. split; [reflexivity|]. simpl.
    rewrite replace_row_ids, app_nil_r. split; [|reflexivity].
    now apply in_map.
  - unfold bind, now, add_and_commit, bind, now. simpl.
    eexists. eexists. split; [reflexivity|]. simpl.
    rewrite map_app. simpl. split; [|reflexivity].
    apply in_or_app. right. now left.
Qed.

Definition imported_as (request : Schema.ExternalBookImportRequest) (i : Z)
  : Schema.ImportResult :=
  {| Schema.r_external_id := Schema.external_id request;
     Schema.r_source := Schema.source request;
     Schema.success := true;
     Schema.message := "Book imported successfully";
     Schema.external_book_id := Some i;
     Schema.error := None |}.

Definition fetch_failed (request : Schema.ExternalBookImportRequest) (e : exn)
  : Schema.ImportResult :=
  {| Schema.r_external_id := Schema.external_id request;
     Schema.r_source := Schema.source request;
     Schema.success := false;
     Schema.message := "Failed to fetch book details";
     Schema.external_book_id := None;
     Schema.error := Some (exn_str e) |}.

Definition already_imported (request : Schema.ExternalBookImportRequest) (i : Z)
  : Schema.ImportResult :=
  {| Schema.r_external_id := Schema.external_id request;
     Schema.r_source := Schema.source request;
     Schema.success := true;
     Schema.message := "Book already imported";
     Schema.external_book_id := Some i;
     Schema.error := None |}.

(** The outcomes of an interactive import, and what each leaves in the
    store. *)
Definition import_outcome (env : Env) (request : Schema.ExternalBookImportRequest)
    (w : World) (r : res Schema.ImportResult) (w' : World) : Prop :=
  match r with
  | Ok r =>
      (exists i new,
          r = imported_as request i /\
          In i (map Model.id (db w')) /\
          map Model.id (db w') = (map Model.id (db w) ++ new)%list /\
          (new = [] \/ new = [i])) \/
      (store w' = store w /\
       ((exists i, r = already_imported request i /\ In i (map Model.id (db w))) \/
        (exists e, r = fetch_failed request e /\ is_ExternalAPIError e = true /\
                   fst (get_details env (Schema.source request)
                          (Schema.external_id request) w) = Raise e)))
  | Raise e => store w' = store w /\ is_ExternalAPIError e = false
  end.

Lemma fetch_and_store_outcome env user request existing w :
  found_by (source_value (Schema.source request)) (Schema.external_id request)
    existing w ->
  match existing with Some e => Model.is_imported e = false | None => True end ->
  match fetch_and_store env user request existing w with
  | (r, w') => import_outcome env request w r w'
  end.
Proof.
  intros Hf _. unfold fetch_and_store. unfold bind at 1.
  pose proof (keeps_store_get_details env (Schema.source request)
                (Schema.external_id request) w) as Hk.
  unfold try_except, bind at 1.
  destruct (get_details env _ _ w) as [[b|e] w1] eqn:Eg; simpl in Hk.
  - simpl. unfold bind.
    assert (Hf1 : found_by (source_value (Schema.source request))
                    (Schema.external_id request) existing w1)
      by now apply (found_by_ext _ _ _ w).
    destruct (write_import_ids env existing _ _ b (Schema.title request)
                (Schema.description request) (Schema.language request)
                (Some user) w1 Hf1) as (i & w2 & -> & Hin & Hids).
    simpl. left. exists i. eexists. split; [reflexivity|]. split; [exact Hin|].
    injection Hk as Hdb _. rewrite <- Hdb. split; [exact Hids|].
    destruct existing; auto.
  - destruct (is_ExternalAPIError e) eqn:He; simpl.
    + right. split; [exact Hk|]. right. exists e. rewrite Eg. auto.
    + split; [exact Hk | exact He].
Qed.

Lemma import_external_book_outcome env user request w :
  match import_external_book env user request w with
  | (r, w') => import_outcome env request w r w'
  end.
Proof.
  unfold import_external_book. unfold bind.
  destruct (select_by_key _ _ w) as [[existing|e] w1] eqn:Hsel.
  - apply select_by_key_found_by in Hsel as [-> Hf].
    destruct existing as [e|].
    + destruct (Model.is_imported e) eqn:Hi.
      * simpl. right. split; [reflexivity|]. left. exists (Model.id e).
        split; [reflexivity|]. now apply in_map.
      * now apply fetch_and_store_outcome.
    + now apply fetch_and_store_outcome.
  - simpl. unfold select_by_key in Hsel.
    destruct (List.filter _ (db w)) as [|b [|b' l]]; try discriminate Hsel.
    injection Hsel as <- <-. auto.
Qed.

(** The rows that a run added: the ids that were there stay in their
    places, [new] are the ids behind them. *)
Definition adds_rows (w w' : World) (new : list Z) : Prop :=
  map Model.id (db w') = (map Model.id (db w) ++ new)%list.

Lemma bulk_endpoint_body_rows env user results successful failed item w :
  exists results' successful' failed' w' new,
    bulk_endpoint_body env user (results, successful, failed) item w
    = (Ok (results', successful', failed'), w') /\
    adds_rows w w' new /\
    successful <= successful' /\
    Z.of_nat (length new) <= successful' - successful /\
    (successful' = successful -> store w' = store w).
Proof.
  unfold bulk_endpoint_body, try_except. unfold bind at 1.
  pose proof (import_external_book_outcome env user item w) as Ho.
  destruct (import_external_book env user item w) as [[r|e] w1]; simpl in Ho.
  - destruct Ho as [(i & new & -> & _ & Hids & Hnew) | (Hst & Hr)].
    + simpl. do 4 eexists. exists new. split; [reflexivity|].
      split; [exact Hids|]. split; [lia|]. split; [|lia].
      destruct Hnew as [-> | ->]; simpl; lia.
    + assert (Hids : adds_rows w w1 []).
      { unfold adds_rows. injection Hst as -> _. now rewrite app_nil_r. }
      destruct Hr as [(i & -> & _) | (e & -> & _)]; simpl;
        do 4 eexists; exists []; (split; [reflexivity|]);
        (split; [exact Hids|]); simpl; repeat split; auto; lia.
  - destruct Ho as [Hst _]. simpl. do 4 eexists. exists [].
    split; [reflexivity|]. split.
    + unfold adds_rows. injection Hst as -> _. now rewrite app_nil_r.
    + simpl. repeat split; auto; lia.
Qed.

Lemma bulk_endpoint_loop_rows env user items : forall results successful failed w,
  exists results' successful' failed' w' new,
    for_eachM (bulk_endpoint_body env user) items (results, successful, failed) w
    = (Ok (results', successful', failed'), w') /\
    adds_rows w w' new /\
    successful <= successful' /\
    Z.of_nat (length new) <= successful' - successful /\
    (successful' = successful -> store w' = store w).
Proof.
  induction items as [|item items IH]; intros results successful failed w; simpl.
  - do 4 eexists. exists []. split; [reflexivity|]. unfold adds_rows.
    rewrite app_nil_r. simpl. repeat split; auto; lia.
  - destruct (bulk_endpoint_body_rows env user results successful failed item w)
      as (r1 & s1 & f1 & w1 & new1 & E1 & Hids1 & Hle1 & Hn1 & Hst1).
    destruct (IH r1 s1 f1 w1) as (r2 & s2 & f2 & w2 & new2 & E2 & Hids2 & Hle2 & Hn2 & Hst2).
    exists r2, s2, f2, w2, (new1 ++ new2)%list.
    split; [rewrite (bind_Ok _ _ _ _ _ E1); exact E2|].
    split; [unfold adds_rows in *; now rewrite Hids2, Hids1, app_assoc|].
    split; [lia|]. split; [rewrite length_app; lia|].
    intros Heq. rewrite Hst2, Hst1 by lia. reflexivity.
Qed.

(** X7.  An interactive import writes all or nothing.  [import_external_book]
    ends in one of four ways: it returns "Book imported successfully" with
    the id of a row of the table, the ids that were there being kept in
    place and at most that one added; it returns "Book already imported"
    with the id of a row that was there; it returns "Failed to fetch book
    details" with the text of the [ExternalAPIError] that the adapter
    raised; or it raises an exception that is not an [ExternalAPIError].
    In the last three the table is as it was. *)
Theorem import_external_book_all_or_nothing (env : Env) (user : Z)
    (request : Schema.ExternalBookImportRequest) (w : World) :
  import_outcome env request w
    (fst (import_external_book env user request w))
    (snd (import_external_book env user request w)).
Proof.
  pose proof (import_external_book_outcome env user request w) as H.
  destruct (import_external_book env user request w) as [r w']. exact H.
Qed.

Example failed_import_writes_nothing :
  match import_external_book (sample_env offline) 7
          {| Schema.source := OPEN_LIBRARY; Schema.external_id := "OL82563W";
             Schema.title := None; Schema.author := None; Schema.description := None;
             Schema.category := None; Schema.language := None |} library with
  | (Ok r, w') => Some (Schema.message r, Schema.error r, map Model.id (db w'), next_id w')
  | (Raise _, _) => None
  end
  = Some ("Failed to fetch book details", Some "open_library: Request timed out",
          [1], 2).
Proof. vm_compute. reflexivity. Qed.

(** X8.  The bulk endpoint adds at most one row for each item that it
    counts as successful, keeps the ids that were there in place, and
    leaves the table as it was when no item succeeded. *)
Theorem bulk_endpoint_adds_at_most_successful (env : Env) (user : Z)
    (items : list Schema.ExternalBookImportRequest) (w : World) :
  exists resp w' new,
    bulk_import_external_books env user items w = (Ok resp, w') /\
    adds_rows w w' new /\
    0 <= Schema.successful resp /\
    Z.of_nat (length new) <= Schema.successful resp /\
    (Schema.successful resp = 0 -> store w' = store w).
Proof.
  unfold bulk_import_external_books.
  destruct (bulk_endpoint_loop_rows env user items [] 0 0 w)
    as (r & s & f & w' & new & E & Hids & Hle & Hn & Hst).
  eexists. exists w', new. split; [rewrite (bind_Ok _ _ _ _ _ E); reflexivity|].
  simpl. repeat split; auto; lia.
Qed.

Definition success_dict (source external_id : string) (i : Z) : Task.ImportDict :=
  {| Task.success := true;
     Task.external_id := external_id;
     Task.source := source;
     Task.external_book_id := Some i;
     Task.message := Some "Book imported successfully";
     Task.error := None |}.

(** What a run of [_import_book_async] leaves: a row under the returned
    id, or, when it raises, the table as it was. *)
Definition background_import_outcome (source external_id : string) (w : World)
    (r : res Task.ImportDict) (w' : World) : Prop :=
  match r with
  | Ok d =>
      exists i new,
        d = success_dict source external_id i /\
        In i (map Model.id (db w')) /\
        adds_rows w w' new /\
        (new = [] \/ new = [i])
  | Raise e => store w' = store w
  end.

Lemma import_book_async_outcome env source external_id user_id overrides w :
  match _import_book_async env source external_id user_id overrides w with
  | (r, w') => background_import_outcome source external_id w r w'
  end.
Proof.
  unfold _import_book_async. unfold bind at 1.
  pose proof (keeps_store_fetch env source external_id w) as Hk.
  destruct (fetch_book_data env source external_id w) as [[b|e] w1]; simpl in Hk;
    [|exact Hk].
  unfold bind at 1.
  destruct (select_by_key source external_id w1) as [[existing|e] w2] eqn:Hsel.
  - apply select_by_key_found_by in Hsel as [-> Hf].
    destruct (write_import_ids env existing source external_id b
                (override overrides "title") (override overrides "description")
                (override overrides "language") user_id w1 Hf)
      as (i & w3 & Hw & Hin & Hids).
    rewrite (bind_Ok _ _ _ _ _ Hw). simpl.
    exists i. eexists. split; [reflexivity|]. split; [exact Hin|].
    injection Hk as Hdb _. unfold adds_rows. rewrite <- Hdb. split; [exact Hids|].
    destruct existing; auto.
  - simpl. pose proof (keeps_store_select_by_key source external_id w1) as Hs.
    rewrite Hsel in Hs. simpl in Hs. congruence.
Qed.

Lemma run_async_store {A} (c : M A) w :
  store (snd (run_async c w)) = store (snd (c (with_loop LoopOpen w))) /\
  fst (run_async c w) = fst (c (with_loop LoopOpen w)).
Proof.
  unfold run_async. destruct (c (with_loop LoopOpen w)) as [r w1]. auto.
Qed.

Lemma run_import_outcome env source external_id user_id overrides w :
  match run_async (_import_book_async env source external_id user_id overrides) w with
  | (r, w') => background_import_outcome source external_id w r w'
  end.
Proof.
  pose proof (import_book_async_outcome env source external_id user_id overrides
                (with_loop LoopOpen w)) as H.
  unfold run_async.
  destruct (_import_book_async env source external_id user_id overrides
              (with_loop LoopOpen w)) as [[d|e] w1]; simpl in *; exact H.
Qed.

Lemma task_handler_outcome {A} retries (failure : exn -> A) e w :
  match task_handler retries failure e w with
  | (Ok d, w') => d = failure e /\ w' = w
  | (Raise e', w') =>
      w' = w /\ rate_limited e = true /\
      e' = (if Z.ltb retries 3 then Retry (60 * (retries + 1)) else e)
  end.
Proof.
  destruct (rate_limited e) eqn:Hl.
  - rewrite task_handler_limited by assumption. auto.
  - rewrite task_handler_other by assumption. auto.
Qed.

(** X9.  A background import writes all or nothing.  [import_single_book]
    returns the success dict with the id of a row of the table (the ids
    that were there kept in place, at most that one added), or it returns
    the failure dict of an exception, or it raises: a [Retry] with the
    delay [60 * (retries + 1)] before the third retry, and the adapter's
    rate-limit error from then on.  When it does not return the success
    dict, the table is as it was. *)
Theorem import_single_book_all_or_nothing (env : Env) (retries : Z)
    (source external_id : string) (user_id : option Z)
    (overrides : option (list (string * string))) (w : World) :
  match import_single_book env retries source external_id user_id overrides w with
  | (Ok d, w') =>
      (exists i new,
          d = success_dict source external_id i /\
          In i (map Model.id (db w')) /\
          adds_rows w w' new /\
          (new = [] \/ new = [i])) \/
      (store w' = store w /\ exists e, d = failure_dict source external_id e)
  | (Raise e', w') =>
      store w' = store w /\
      exists e, rate_limited e = true /\
                e' = (if Z.ltb retries 3 then Retry (60 * (retries + 1)) else e)
  end.
Proof.
  unfold import_single_book, try_except.
  pose proof (run_import_outcome env source external_id user_id overrides w) as Ho.
  destruct (run_async _ w) as [[d|e] w1]; simpl in Ho.
  - left. exact Ho.
  - pose proof (task_handler_outcome retries (failure_dict source external_id) e w1) as Hh.
    destruct (task_handler retries _ e w1) as [[d|e'] w2].
    + destruct Hh as [-> ->]. right. eauto.
    + destruct Hh as (-> & Hl & ->). eauto.
Qed.

Example unsupported_source_writes_nothing :
  match import_single_book (sample_env catalog) 0 "gutenberg" "84" (Some 9) None library with
  | (r, w') => (r, trace w', map Model.id (db w'))
  end
  = (Ok (failure_dict "gutenberg" "84" (ValueError "Unsupported source: gutenberg")),
     [], [1]).
Proof. vm_compute. reflexivity. Qed.

Definition update_success (external_book_id : Z) : Task.UpdateDict :=
  {| Task.u_success := true;
     Task.u_external_book_id := external_book_id;
     Task.u_message := Some "Metadata updated successfully";
     Task.u_error := None |}.

(** Row by row: the import state is kept, and a row with another id is
    the same. *)
Definition refreshed_in_place (external_book_id : Z) (rows rows' : list Model.ExternalBook)
  : Prop :=
  Forall2 (fun b b' => import_state_kept b b' /\
                       (Model.id b <> external_book_id -> b' = b)) rows rows'.

Lemma import_state_kept_refl b : import_state_kept b b.
Proof. repeat split. Qed.

Lemma refreshed_in_place_refl i rows : refreshed_in_place i rows rows.
Proof.
  induction rows; constructor; auto. split; [apply import_state_kept_refl | auto].
Qed.

Lemma replace_row_in_place (book b' : Model.ExternalBook) rows :
  List.NoDup (map Model.id rows) -> In book rows ->
  import_state_kept book b' ->
  refreshed_in_place (Model.id book) rows (replace_row b' rows).
Proof.
  intros Hnd Hin Hkept.
  assert (Hid : Model.id b' = Model.id book) by apply Hkept.
  assert (Hall : forall r, In r rows ->
            import_state_kept r (if Z.eqb (Model.id r) (Model.id b') then b' else r) /\
            (Model.id r <> Model.id book ->
             (if Z.eqb (Model.id r) (Model.id b') then b' else r) = r)).
  { intros r Hr. destruct (Z.eqb_spec (Model.id r) (Model.id b')) as [E|E].
    - rewrite Hid in E. rewrite (NoDup_ids_inj rows r book Hnd Hr Hin E).
      split; [exact Hkept | intros Hne; now contradiction Hne].
    - split; [apply import_state_kept_refl | reflexivity]. }
  clear Hnd Hin. unfold refreshed_in_place, replace_row.
  induction rows as [|r rows IH]; simpl; constructor.
  - apply Hall. now left.
  - apply IH. intros x Hx. apply Hall. now right.
Qed.

Definition refresh_outcome (external_book_id : Z) (w : World)
    (r : res Task.UpdateDict) (w' : World) : Prop :=
  next_id w' = next_id w /\
  refreshed_in_place external_book_id (db w) (db w') /\
  (r <> Ok (update_success external_book_id) -> store w' = store w).

Lemma update_metadata_async_outcome env source external_id external_book_id w :
  List.NoDup (map Model.id (db w)) ->
  match _update_metadata_async env source external_id external_book_id w with
  | (r, w') => refresh_outcome external_book_id w r w'
  end.
Proof.
  intros Hnd. unfold _update_metadata_async. unfold bind at 1.
  pose proof (keeps_store_fetch env source external_id w) as Hk.
  destruct (fetch_book_data env source external_id w) as [[b|e] w1]; simpl in Hk.
  2:{ injection Hk as Hdb Hn. unfold refresh_outcome, store. rewrite Hdb, Hn.
      split; [reflexivity|]. split; [apply refreshed_in_place_refl | reflexivity]. }
  injection Hk as Hdb Hn.
  unfold bind at 1, get_by_id at 1.
  destruct (List.find _ (db w1)) as [book|] eqn:Hfind.
  2:{ unfold ret, refresh_outcome, store. rewrite Hdb, Hn.
      split; [reflexivity|]. split; [apply refreshed_in_place_refl | reflexivity]. }
  unfold bind, now, commit_update, bind, now, ret. simpl.
  pose proof (find_has_id _ _ _ Hfind) as Hid.
  apply find_some in Hfind as [Hin _]. rewrite Hdb in Hin.
  unfold refresh_outcome. simpl. rewrite Hdb, Hn.
  split; [reflexivity|]. split.
  - rewrite <- Hid. apply replace_row_in_place; auto. repeat split.
  - intros Hne. now contradiction Hne.
Qed.

(** X10.  A refresh touches one row and only its metadata.  On a table
    with distinct ids, [update_book_metadata] ends, in every outcome, with
    the same rows in the same places and the same sequence: each row keeps
    its import state, key and id, and a row whose id is not
    [external_book_id] is unchanged.  Unless it returns "Metadata updated
    successfully" the table is as it was; and when no row has the id it
    returns "Book not found" at once, with no adapter call. *)
Theorem update_book_metadata_touches_one_row (env : Env) (retries : Z)
    (external_book_id : Z) (w : World) :
  List.NoDup (map Model.id (db w)) ->
  (match update_book_metadata env retries external_book_id w with
   | (r, w') => refresh_outcome external_book_id w r w'
   end) /\
  ((forall b, In b (db w) -> Model.id b <> external_book_id) ->
   update_book_metadata env retries external_book_id w
   = (Ok (update_failure external_book_id "Book not found"), w)).
Proof.
  intros Hnd. split.
  - unfold update_book_metadata, try_except. unfold bind at 1, get_by_id at 1.
    destruct (List.find _ (db w)) as [book|] eqn:Hfind.
    2:{ simpl. split; [reflexivity|]. split; [apply refreshed_in_place_refl | reflexivity]. }
    pose proof (update_metadata_async_outcome env (Model.source book)
                  (Model.external_id book) external_book_id (with_loop LoopOpen w) Hnd)
      as Ho.
    unfold run_async.
    destruct (_update_metadata_async env _ _ external_book_id (with_loop LoopOpen w))
      as [[d|e] w1].
    + exact Ho.
    + destruct Ho as (Hn & Hrows & Hst).
      pose proof (task_handler_outcome retries
                    (fun e => update_failure external_book_id (exn_str e)) e
                    (with_loop LoopClosed w1)) as Hh.
      destruct (task_handler retries _ e (with_loop LoopClosed w1)) as [[d|e'] w2].
      * destruct Hh as [-> ->]. split; [exact Hn|]. split; [exact Hrows|].
        intros _. apply Hst. discriminate.
      * destruct Hh as (-> & _ & _). split; [exact Hn|]. split; [exact Hrows|].
        intros _. apply Hst. discriminate.
  - intros Hnone. unfold update_book_metadata, try_except, bind, get_by_id.
    destruct (List.find _ (db w)) as [book|] eqn:Hfind; [|reflexivity].
    exfalso. pose proof (find_has_id _ _ _ Hfind) as Hid.
    apply find_some in Hfind as [Hin _]. exact (Hnone book Hin Hid).
Qed.

Lemma update_book_metadata_touches_one_row_witness :
  refresh_outcome 1 library
    (fst (update_book_metadata (sample_env catalog) 0 1 library))
    (snd (update_book_metadata (sample_env catalog) 0 1 library)) /\
  update_book_metadata (sample_env catalog) 0 5 library
  = (Ok (update_failure 5 "Book not found"), library).
Proof.
  assert (Hnd : List.NoDup (map Model.id (db library))) by apply store_ok_library.
  destruct (update_book_metadata_touches_one_row (sample_env catalog) 0 1 library Hnd)
    as [H1 _].
  destruct (update_book_metadata_touches_one_row (sample_env catalog) 0 5 library Hnd)
    as [_ H5].
  split.
  - destruct (update_book_metadata (sample_env catalog) 0 1 library) as [r w'].
    exact H1.
  - apply H5. intros b [<- | []]. discriminate.
Defined.

(** The entry that [bulk_import_books] appends for an item: the dict that
    the import returned, or the failure dict of the exception. *)
Definition bulk_entry (item : Task.Item) (r : res Task.ImportDict) : Task.ImportDict :=
  match r with
  | Ok d => d
  | Raise e => failure_dict (Task.i_source item) (Task.i_external_id item) e
  end.

Lemma try_except_Ok {A} (c : M A) handles h w a w' :
  c w = (Ok a, w') -> try_except c handles h w = (Ok a, w').
Proof. unfold try_except. intros ->. reflexivity. Qed.

Lemma try_except_Raise {A} (c : M A) handles h w e w' :
  c w = (Raise e, w') -> handles e = true -> try_except c handles h w = h e w'.
Proof. unfold try_except. intros -> ->. reflexivity. Qed.

(** The pass of the loop of [bulk_import_books] for an item that no item
    follows. *)
Lemma bulk_task_body_last env n user_id results successful failed item w :
  let run := run_async (_import_book_async env (Task.i_source item)
                          (Task.i_external_id item) user_id (Task.i_overrides item))
               (snd (emit (EvProgress n n successful failed) w)) in
  let entry := bulk_entry item (fst run) in
  bulk_task_body env n user_id (results, successful, failed) (n - 1, item) w
  = (Ok ((results ++ [entry])%list,
         successful + (if Task.success entry then 1 else 0),
         failed + (if Task.success entry then 0 else 1)), snd run).
Proof.
  cbv zeta. unfold bulk_task_body.
  replace (n - 1 + 1) with n by lia. rewrite Z.ltb_irrefl.
  rewrite (bind_Ok _ _ w tt (snd (emit (EvProgress n n successful failed) w)) eq_refl).
  destruct (run_async _ (snd (emit (EvProgress n n successful failed) w)))
    as [[d|e] w1] eqn:Hrun; simpl fst; simpl snd; simpl bulk_entry.
  - erewrite bind_Ok; [reflexivity|].
    apply try_except_Ok. rewrite (bind_Ok _ _ _ _ _ Hrun).
    destruct (Task.success d); unfold ret; repeat f_equal; lia.
  - erewrite bind_Ok; [reflexivity|].
    erewrite try_except_Raise; [|apply (bind_Raise _ _ _ _ _ Hrun)|reflexivity].
    unfold ret. simpl. repeat f_equal; lia.
Qed.

(** X11.  The background bulk import does report on a batch of one item
    (and on an empty batch): with no item to follow there is no pause, so
    nothing runs on the closed loop.  The report has [total = 1], the one
    entry that the import of the item gave (its dict, or the failure dict
    of its exception) and counts [1, 0] or [0, 1] by the entry's
    [success]; the run is the progress report followed by the import. *)
Theorem bulk_import_books_single_item (env : Env) (item : Task.Item)
    (user_id : option Z) (w : World) :
  bulk_import_books env [] user_id w
  = (Ok {| Task.total := 0; Task.successful := 0; Task.failed := 0;
           Task.results := [] |}, w) /\
  let run := run_async (_import_book_async env (Task.i_source item)
                          (Task.i_external_id item) user_id (Task.i_overrides item))
               (snd (emit (EvProgress 1 1 0 0) w)) in
  let entry := bulk_entry item (fst run) in
  bulk_import_books env [item] user_id w
  = (Ok {| Task.total := 1;
           Task.successful := if Task.success entry then 1 else 0;
           Task.failed := if Task.success entry then 0 else 1;
           Task.results := [entry] |}, snd run).
Proof.
  split; [reflexivity|]. cbv zeta.
  unfold bulk_import_books, enumerate. cbn [imap for_eachM length].
  change (Z.of_nat 1) with 1. change (Z.of_nat 0) with (1 - 1).
  pose proof (bulk_task_body_last env 1 user_id [] 0 0 item w) as Hb.
  cbv zeta in Hb.
  rewrite (bind_Ok _ _ _ _ _ (bind_Ok _ _ _ _ _ Hb)). reflexivity.
Qed.

(* ===================================================================== *)
(** ** What a search raises and returns *)
(* ===================================================================== *)

Lemma then_emit_fst {A} (c : M A) (e : event) w : fst (then_emit c e w) = fst (c w).
Proof. unfold then_emit. destruct (c w). reflexivity. Qed.

Lemma plain_required_int env v : plain (required_int env v).
Proof.
  intros e. unfold required_int.
  destruct v; try destruct (pydantic_int env _); intros [= <-]; reflexivity.
Qed.

(** What a search makes of the answer [o] to its request: every answer
    but a 200 is an adapter error of the source [s], with no status for a
    transport failure and the upstream's status otherwise; a 200 is never
    one. *)
Definition search_failure_policy (s : ExternalSource) (o : http_outcome)
    (r : res ExternalSearchResponse) : Prop :=
  (o = TimeoutException -> r = Raise (ExternalAPIError s "Request timed out" None)) /\
  (forall m, o = RequestError m ->
     r = Raise (ExternalAPIError s ("Request failed: " +:+ m) None)) /\
  (forall status body, o = Response status body -> status <> 200 ->
     exists m, r = Raise (ExternalAPIError s m (Some status))) /\
  (forall body, o = Response 200 body ->
     forall e, r = Raise e -> is_ExternalAPIError e = false).

Definition no_adapter_error (e : exn) : Prop := is_ExternalAPIError e = false.

Lemma search_google_books_policy env q m si l p ob w :
  search_failure_policy GOOGLE_BOOKS
    (http env (http_count w) (google_search_request env q m si l p ob))
    (fst (search_google_books env q m si l p ob w)).
Proof.
  unfold search_google_books. rewrite then_emit_fst.
  unfold bind at 1. cbn [emit]. unfold bind at 1. cbn [now]. unfold bind at 1.
  cbn [client_get http_count].
  change {| url := GOOGLE_BOOKS_BASE_URL +:+ "/volumes";
            params := google_search_params env q m si l p ob |}
    with (google_search_request env q m si l p ob).
  destruct (http env (http_count w) (google_search_request env q m si l p ob))
    as [|msg|status body]; unfold search_failure_policy.
  - split; [reflexivity|]. split; [intros; discriminate|].
    split; intros; discriminate.
  - split; [discriminate|]. split; [intros m' [= <-]; reflexivity|].
    split; intros; discriminate.
  - split; [discriminate|]. split; [intros; discriminate|]. split.
    + intros status' body' [= <- <-] Hne.
      unfold bind at 1.
      destruct (Z.eqb_spec status 429) as [->|H429]; [simpl; eauto|].
      destruct (Z.eqb_spec status 200) as [->|H200]; [contradiction|]. simpl. eauto.
    + intros body' [= -> <-] e. simpl Z.eqb. cbn [negb].
      match goal with
      | |- fst (?c ?w0) = Raise e -> _ =>
          assert (Hr : raises_only no_adapter_error c)
      end.
      { assert (Hp : forall e, is_ExternalAPIError e = false -> no_adapter_error e)
          by auto.
        destruct body; raises_only;
          (apply raises_only_lift; [assumption | apply plain_required_int]). }
      match goal with
      | |- fst (?c ?w0) = Raise e -> _ =>
          destruct (c w0) as [[r|e0] w1] eqn:E; simpl; [discriminate|];
            intros [= ->]; exact (Hr _ _ _ E)
      end.
Qed.

Lemma search_open_library_policy env q m page w :
  search_failure_policy OPEN_LIBRARY
    (http env (http_count w) (open_library_search_request q m page))
    (fst (search_open_library env q m page w)).
Proof.
  unfold search_open_library. rewrite then_emit_fst.
  unfold bind at 1. cbn [emit]. unfold bind at 1. cbn [now]. unfold bind at 1.
  cbn [client_get http_count].
  change {| url := OPEN_LIBRARY_BASE_URL +:+ "/search.json";
            params := open_library_search_params q m page |}
    with (open_library_search_request q m page).
  destruct (http env (http_count w) (open_library_search_request q m page))
    as [|msg|status body]; unfold search_failure_policy.
  - split; [reflexivity|]. split; [intros; discriminate|].
    split; intros; discriminate.
  - split; [discriminate|]. split; [intros m' [= <-]; reflexivity|].
    split; intros; discriminate.
  - split; [discriminate|]. split; [intros; discriminate|]. split.
    + intros status' body' [= <- <-] Hne.
      unfold bind at 1.
      destruct (Z.eqb_spec status 200) as [->|H200]; [contradiction|]. simpl. eauto.
    + intros body' [= -> <-] e. simpl Z.eqb. cbn [negb].
      match goal with
      | |- fst (?c ?w0) = Raise e -> _ =>
          assert (Hr : raises_only no_adapter_error c)
      end.
      { assert (Hp : forall e, is_ExternalAPIError e = false -> no_adapter_error e)
          by auto.
        destruct body; raises_only;
          (apply raises_only_lift; [assumption | apply plain_required_int]). }
      match goal with
      | |- fst (?c ?w0) = Raise e -> _ =>
          destruct (c w0) as [[r|e0] w1] eqn:E; simpl; [discriminate|];
            intros [= ->]; exact (Hr _ _ _ E)
      end.
Qed.

(** X12.  Which answers make a search fail as an adapter error.  For both
    adapters, with [o] the answer to the one request of the search: a
    timeout gives [ExternalAPIError(source, "Request timed out")] and a
    connection error [ExternalAPIError(source, "Request failed: ...")],
    both with no status code; an answer with a status other than 200 gives
    an [ExternalAPIError] of the source with that status code; and on a
    200 the search raises no [ExternalAPIError] at all (what it can raise
    then is an error on the shape of the body, which is none). *)
Theorem search_fails_unless_200 (env : Env) (query : string) (max_results : Z)
    (w : World) :
  (forall start_index language print_type order_by,
      search_failure_policy GOOGLE_BOOKS
        (http env (http_count w)
           (google_search_request env query max_results start_index
              language print_type order_by))
        (fst (search_google_books env query max_results start_index
                language print_type order_by w))) /\
  (forall page,
      search_failure_policy OPEN_LIBRARY
        (http env (http_count w) (open_library_search_request query max_results page))
        (fst (search_open_library env query max_results page w))).
Proof.
  split.
  - intros. apply search_google_books_policy.
  - intros. apply search_open_library_policy.
Qed.

Example rate_limited_search :
  fst (search_google_books (sample_env rate_limiting) "dune" 10 0 None None None fresh_world)
  = Raise (ExternalAPIError GOOGLE_BOOKS
             "Rate limit exceeded. Please try again later." (Some 429)).
Proof. vm_compute. reflexivity. Qed.

Lemma then_emit_Ok_inv {A} (c : M A) (e : event) w a w' :
  then_emit c e w = (Ok a, w') -> exists w1, c w = (Ok a, w1).
Proof.
  unfold then_emit. destruct (c w) as [r w1]. intros [= -> _]. eauto.
Qed.

Lemma parse_google_book_source env item b :
  _parse_google_book env item = Some b -> source b = GOOGLE_BOOKS.
Proof.
  unfold _parse_google_book. intros H. apply except_None_Some in H.
  repeat res_step H. injection H as <-. reflexivity.
Qed.

Lemma parse_open_library_book_source env doc b :
  _parse_open_library_book env doc = Some b ->
  source b = OPEN_LIBRARY /\ external_id b <> "" /\
  info_link b = Some ("https://openlibrary.org/works/" +:+ external_id b).
Proof.
  unfold _parse_open_library_book. intros H. apply except_None_Some in H.
  do 2 res_step H.
  destruct (String.eqb_spec v0 "") as [->|Hne]; [discriminate H|].
  repeat res_step H. injection H as <-. simpl. auto.
Qed.

Lemma omap_Forall {A B} (f : A -> option B) (P : B -> Prop) (l : list A) :
  (forall a b, f a = Some b -> P b) -> Forall P (omap f l).
Proof.
  intros Hf. induction l as [|a l IH]; simpl; [constructor|].
  destruct (f a) as [b|] eqn:E; [constructor; eauto | exact IH].
Qed.

(** The response that a search builds from the body [data] of a 200. *)
Definition response_of (env : Env) (s : ExternalSource)
    (parse : json -> option ExternalBookResult) (items_key total_key : string)
    (q : string) (data : json) (r : ExternalSearchResponse) : Prop :=
  sr_source r = s /\ query r = q /\
  (exists a its, Py.get_default data items_key (JArr []) = Ok a /\
                 Py.iter a = Ok its /\ items r = omap parse its) /\
  (exists t, Py.get_default data total_key (JInt 0) = Ok t /\
             required_int env t = Ok (total_items r)) /\
  Forall (fun b => source b = s) (items r).

Lemma search_google_books_returns env q m si l p ob w r w' :
  search_google_books env q m si l p ob w = (Ok r, w') ->
  exists data,
    http env (http_count w) (google_search_request env q m si l p ob)
    = Response 200 (Some data) /\
    response_of env GOOGLE_BOOKS (_parse_google_book env) "items" "totalItems" q data r.
Proof.
  intros H. unfold search_google_books in H.
  apply then_emit_Ok_inv in H as [w0 H].
  apply bind_Ok_inv in H as (u & w1 & E1 & H). injection E1 as _ <-.
  apply bind_Ok_inv in H as (start & w2 & E2 & H). injection E2 as <- <-.
  apply bind_Ok_inv in H as (o & w3 & E3 & H). injection E3 as <- <-.
  cbn [http_count] in H.
  change {| url := GOOGLE_BOOKS_BASE_URL +:+ "/volumes";
            params := google_search_params env q m si l p ob |}
    with (google_search_request env q m si l p ob) in H.
  apply bind_Ok_inv in H as (data & w4 & Ed & H).
  destruct (http env (http_count w) (google_search_request env q m si l p ob))
    as [|msg|status body]; try discriminate Ed.
  destruct (Z.eqb_spec status 429); [discriminate Ed|].
  destruct (Z.eqb_spec status 200) as [->|]; [|discriminate Ed].
  destruct body as [d|]; [|discriminate Ed]. apply ret_inv in Ed as [-> ->].
  exists data. split; [reflexivity|].
  apply bind_Ok_inv in H as (total & w5 & Et & H). apply lift_Ok_inv in Et as [Et ->].
  apply bind_Ok_inv in H as (a & w6 & Ea & H). apply lift_Ok_inv in Ea as [Ea ->].
  apply bind_Ok_inv in H as (its & w7 & Ei & H). apply lift_Ok_inv in Ei as [Ei ->].
  apply bind_Ok_inv in H as (end_time & w8 & En & H).
  apply bind_Ok_inv in H as (tot & w9 & Er & H). apply lift_Ok_inv in Er as [Er ->].
  apply ret_inv in H as [<- _].
  unfold response_of. simpl. repeat split; eauto.
  apply omap_Forall. intros x b. apply parse_google_book_source.
Qed.

Lemma search_open_library_returns env q m page w r w' :
  search_open_library env q m page w = (Ok r, w') ->
  exists data,
    http env (http_count w) (open_library_search_request q m page)
    = Response 200 (Some data) /\
    response_of env OPEN_LIBRARY (_parse_open_library_book env) "docs" "numFound" q data r.
Proof.
  intros H. unfold search_open_library in H.
  apply then_emit_Ok_inv in H as [w0 H].
  apply bind_Ok_inv in H as (u & w1 & E1 & H). injection E1 as _ <-.
  apply bind_Ok_inv in H as (start & w2 & E2 & H). injection E2 as <- <-.
  apply bind_Ok_inv in H as (o & w3 & E3 & H). injection E3 as <- <-.
  cbn [http_count] in H.
  change {| url := OPEN_LIBRARY_BASE_URL +:+ "/search.json";
            params := open_library_search_params q m page |}
    with (open_library_search_request q m page) in H.
  apply bind_Ok_inv in H as (data & w4 & Ed & H).
  destruct (http env (http_count w) (open_library_search_request q m page))
    as [|msg|status body]; try discriminate Ed.
  destruct (Z.eqb_spec status 200) as [->|]; [|discriminate Ed].
  destruct body as [d|]; [|discriminate Ed]. apply ret_inv in Ed as [-> ->].
  exists data. split; [reflexivity|].
  apply bind_Ok_inv in H as (total & w5 & Et & H). apply lift_Ok_inv in Et as [Et ->].
  apply bind_Ok_inv in H as (a & w6 & Ea & H). apply lift_Ok_inv in Ea as [Ea ->].
  apply bind_Ok_inv in H as (its & w7 & Ei & H). apply lift_Ok_inv in Ei as [Ei ->].
  apply bind_Ok_inv in H as (end_time & w8 & En & H).
  apply bind_Ok_inv in H as (tot & w9 & Er & H). apply lift_Ok_inv in Er as [Er ->].
  apply ret_inv in H as [<- _].
  unfold response_of. simpl. repeat split; eauto.
  apply omap_Forall. intros x b Hb. now apply parse_open_library_book_source in Hb.
Qed.

(** X13.  What a search returns.  When [search_google_books] or
    [search_open_library] returns, the upstream answered 200 with a body,
    and the response carries the adapter's source and the query, the
    total that the body reports under [totalItems] / [numFound] (not the
    number of items), and as items the entries of the body's [items] /
    [docs] that the adapter's parser accepts, in their order, the others
    being passed over; every item carries the adapter's source, and an
    Open Library item has a non-empty id and the link of its work. *)
Theorem search_returns_parsed_items (env : Env) (query : string) (max_results : Z)
    (w : World) :
  (forall start_index language print_type order_by r w',
      search_google_books env query max_results start_index
        language print_type order_by w = (Ok r, w') ->
      exists data,
        http env (http_count w)
          (google_search_request env query max_results start_index
             language print_type order_by) = Response 200 (Some data) /\
        response_of env GOOGLE_BOOKS (_parse_google_book env)
          "items" "totalItems" query data r) /\
  (forall page r w',
      search_open_library env query max_results page w = (Ok r, w') ->
      exists data,
        http env (http_count w) (open_library_search_request query max_results page)
        = Response 200 (Some data) /\
        response_of env OPEN_LIBRARY (_parse_open_library_book env)
          "docs" "numFound" query data r /\
        Forall (fun b => external_id b <> "" /\
                         info_link b
                         = Some ("https://openlibrary.org/works/" +:+ external_id b))
               (items r)).
Proof.
  split.
  - intros. eapply search_google_books_returns; eauto.
  - intros page r w' H.
    destruct (search_open_library_returns _ _ _ _ _ _ _ H) as (data & Ho & Hr).
    exists data. split; [exact Ho|]. split; [exact Hr|].
    destruct Hr as (_ & _ & (a & its & _ & _ & ->) & _).
    apply omap_Forall. intros x b Hb.
    now apply parse_open_library_book_source in Hb.
Qed.

(** An upstream whose searches answer with two entries each, one of them
    not a book. *)
Definition shelves : nat -> Request -> http_outcome :=
  fun _ r =>
    if String.prefix GOOGLE_BOOKS_BASE_URL (url r)
    then Response 200 (Some (JObj [("totalItems", JInt 57);
                                   ("items", JArr [JInt 3; sample_volume])]))
    else Response 200 (Some (JObj [("numFound", JInt 2);
                                   ("docs", JArr [sample_doc; JObj []])])).

Lemma search_returns_parsed_items_witness :
  exists r w' data,
    search_google_books (sample_env shelves) "story" 10 0 None None None fresh_world
    = (Ok r, w') /\
    total_items r = 57 /\ map external_id (items r) = ["zyTCAlFPjgYC"] /\
    response_of (sample_env shelves) GOOGLE_BOOKS (_parse_google_book (sample_env shelves))
      "items" "totalItems" "story" data r.
Proof.
  destruct (search_google_books (sample_env shelves) "story" 10 0 None None None
              fresh_world) as [[r|e] w'] eqn:E; [|vm_compute in E; discriminate E].
  destruct (proj1 (search_returns_parsed_items (sample_env shelves) "story" 10
                     fresh_world) 0 None None None r w' E) as (data & _ & Hr).
  exists r, w', data. split; [reflexivity|].
  vm_compute in E. injection E as <- _.
  split; [reflexivity|]. split; [reflexivity|]. exact Hr.
Defined.

Example open_library_search_on_shelves :
  match fst (search_open_library (sample_env shelves) "book" 10 1 fresh_world) with
  | Ok r => Some (total_items r, map external_id (items r), map info_link (items r))
  | Raise _ => None
  end
  = Some (2, ["OL82563W"], [Some "https://openlibrary.org/works/OL82563W"]).
Proof. vm_compute. reflexivity. Qed.

(* ===================================================================== *)
(** ** Search, details and cache endpoints *)
(* ===================================================================== *)

Lemma NoDup_map_filter {A B} (f : A -> B) (p : A -> bool) (l : list A) :
  List.NoDup (map f l) -> List.NoDup (map f (List.filter p l)).
Proof.
  induction l as [|a l IH]; simpl; intros Hnd; [constructor|].
  inversion Hnd as [|x xs Hnotin Hnd']; subst.
  destruct (p a); simpl; [constructor|]; auto.
  intros Hin. apply Hnotin. apply in_map_iff in Hin as (y & Hy & Hin).
  apply in_map_iff. exists y. split; [assumption|].
  now apply filter_In in Hin.
Qed.

Lemma store_ok_delete (p : Model.ExternalBook -> bool) w :
  store_ok w -> store_ok (with_db (List.filter p (db w)) (next_id w) w).
Proof.
  intros (Hid & Hlt & Hkey). split; [|split]; simpl.
  - now apply NoDup_map_filter.
  - intros b Hb. apply Hlt. now apply filter_In in Hb.
  - now apply NoDup_map_filter.
Qed.

Lemma filter_nil_iff {A} (p : A -> bool) (l : list A) :
  List.filter p l = [] <-> forall x, In x l -> p x = false.
Proof.
  split; [intros H x; now apply filter_nil_inv | apply filter_none].
Qed.

Lemma filter_filter_negb {A} (p : A -> bool) (l : list A) :
  List.filter p (List.filter (fun x => negb (p x)) l) = [].
Proof.
  apply filter_none. intros x Hx. apply filter_In in Hx as [_ Hx].
  now apply negb_true_iff in Hx.
Qed.

Definition not_found : exn := HTTPException 404 "External book not found".
Definition not_authorized : exn := HTTPException 403 "Not authorized to delete this book".

(** The user may delete the row: a superuser, or the user who imported
    it. *)
Definition may_delete (current_user : Auth.User) (book : Model.ExternalBook) : Prop :=
  Auth.is_superuser current_user = true \/
  Model.imported_by_id book = Some (Auth.id current_user).

Definition has_id (external_book_id : Z) (b : Model.ExternalBook) : bool :=
  Z.eqb (Model.id b) external_book_id.

(** X14.  Who may delete a cached book, and what the deletion does.
    [delete_cached_book] returns only when the table has one row of the
    id and the user is a superuser or the user who imported that row;
    then exactly the rows of that id are gone, the other rows and the
    sequence are as they were, the table's constraints still hold if
    they did, and [get_cached_book] of the id answers 404.  Otherwise it
    raises and changes nothing: 404 when no row has the id, 403 when the
    row is there and the user is neither a superuser nor its importer (a
    row that nobody imported can be deleted by a superuser only). *)
Theorem delete_cached_book_authorized (current_user : Auth.User)
    (external_book_id : Z) (w : World) :
  match delete_cached_book current_user external_book_id w with
  | (Ok message, w') =>
      message = "External book deleted successfully" /\
      (exists book,
          List.filter (has_id external_book_id) (db w) = [book] /\
          may_delete current_user book) /\
      db w' = List.filter (fun r => negb (has_id external_book_id r)) (db w) /\
      next_id w' = next_id w /\
      (store_ok w -> store_ok w') /\
      get_cached_book external_book_id w' = (Raise not_found, w')
  | (Raise e, w') =>
      w' = w /\
      ((e = not_found /\ List.filter (has_id external_book_id) (db w) = []) \/
       (e = not_authorized /\
        exists book,
          List.filter (has_id external_book_id) (db w) = [book] /\
          ~ may_delete current_user book) \/
       (e = MultipleResultsFound /\
        (1 < length (List.filter (has_id external_book_id) (db w)))%nat))
  end.
Proof.
  unfold delete_cached_book, bind, select_by_id.
  change (fun b => Z.eqb (Model.id b) external_book_id) with (has_id external_book_id).
  destruct (List.filter (has_id external_book_id) (db w)) as [|book [|b' l]] eqn:Hf.
  - split; [reflexivity|]. left. split; reflexivity.
  - assert (Hid : Model.id book = external_book_id).
    { assert (Hin : In book (List.filter (has_id external_book_id) (db w)))
        by (rewrite Hf; now left).
      apply filter_In in Hin as [_ Hin]. now apply Z.eqb_eq in Hin. }
    destruct (Auth.is_superuser current_user) eqn:Hsu; simpl.
    + split; [reflexivity|]. split; [exists book; split; [reflexivity | now left]|].
      rewrite Hid. change (fun r => negb (Z.eqb (Model.id r) external_book_id))
        with (fun r => negb (has_id external_book_id r)).
      split; [reflexivity|]. split; [reflexivity|].
      split; [apply store_ok_delete|].
      unfold get_cached_book, bind, select_by_id. simpl.
      change (fun b => Z.eqb (Model.id b) external_book_id) with (has_id external_book_id).
      now rewrite filter_filter_negb.
    + destruct (bool_decide_reflect (Model.imported_by_id book
                                     = Some (Auth.id current_user))) as [Hby|Hby]; simpl.
      * split; [reflexivity|]. split; [exists book; split; [reflexivity | now right]|].
        rewrite Hid. change (fun r => negb (Z.eqb (Model.id r) external_book_id))
          with (fun r => negb (has_id external_book_id r)).
        split; [reflexivity|]. split; [reflexivity|].
        split; [apply store_ok_delete|].
        unfold get_cached_book, bind, select_by_id. simpl.
        change (fun b => Z.eqb (Model.id b) external_book_id) with (has_id external_book_id).
        now rewrite filter_filter_negb.
      * split; [reflexivity|]. right. left. split; [reflexivity|].
        exists book. split; [reflexivity|]. intros [H|H]; [congruence | contradiction].
  - split; [reflexivity|]. right. right. split; [reflexivity|]. simpl. lia.
Qed.

(** The row of user 7, a user 8 and a superuser 1. *)
Example delete_by_another_user :
  (fst (delete_cached_book {| Auth.id := 8; Auth.is_superuser := false |} 1 library),
   fst (delete_cached_book {| Auth.id := 7; Auth.is_superuser := false |} 1 library),
   fst (delete_cached_book {| Auth.id := 1; Auth.is_superuser := true |} 1 library),
   fst (delete_cached_book {| Auth.id := 1; Auth.is_superuser := true |} 2 library))
  = (Raise not_authorized,
     Ok "External book deleted successfully",
     Ok "External book deleted successfully",
     Raise not_found).
Proof. vm_compute. reflexivity. Qed.

(** [a] comes before [b] under [order_by(ExternalBook.created_at.desc())]. *)
Definition newer_or_same (a b : Model.ExternalBook) : Prop :=
  Model.created_at b <= Model.created_at a.

(** The items of the page that [get_cached_books] answers with. *)
Definition page_items (order_by_created_at_desc : list Model.ExternalBook -> list Model.ExternalBook)
    (source : option ExternalSource) (imported_only : bool) (skip limit : Z) (w : World)
  : list CachedSchema.ExternalBookResponse :=
  match fst (get_cached_books order_by_created_at_desc source imported_only skip limit w) with
  | Ok r => CachedSchema.items r
  | Raise _ => []
  end.

Lemma Sorted_drop {A} (R : A -> A -> Prop) (l : list A) n : Sorted R l -> Sorted R (drop n l).
Proof.
  revert l. induction n as [|n IH]; intros l H; [now rewrite drop_0|].
  destruct l as [|a l]; simpl; [constructor|]. apply IH. now inversion H.
Qed.

Lemma Sorted_take {A} (R : A -> A -> Prop) (l : list A) n : Sorted R l -> Sorted R (take n l).
Proof.
  revert l. induction n as [|n IH]; intros l H; [constructor|].
  destruct l as [|a l]; simpl; [constructor|].
  inversion H as [|x xs Hs Hhd]; subst. constructor; [now apply IH|].
  destruct l as [|b l]; [destruct n; constructor|].
  destruct n; simpl; [constructor|]. constructor. now inversion Hhd.
Qed.

Lemma In_take {A} (l : list A) n x : In x (take n l) -> In x l.
Proof.
  revert l. induction n as [|n IH]; intros [|a l]; simpl; try tauto.
  intros [->|H]; auto.
Qed.

Lemma In_drop {A} (l : list A) n x : In x (drop n l) -> In x l.
Proof.
  revert l. induction n as [|n IH]; intros [|a l]; simpl; try tauto.
  intros H. right. now apply IH.
Qed.

Lemma In_take_drop {A} (l : list A) n m x : In x (take n (drop m l)) -> In x l.
Proof. intros H. eapply In_drop, In_take, H. Qed.

(** An order for the rows: insertion by [created_at], newest first. *)
Fixpoint insert_newest_first (b : Model.ExternalBook) (rows : list Model.ExternalBook)
  : list Model.ExternalBook :=
  match rows with
  | [] => [b]
  | x :: rest =>
      if Z.leb (Model.created_at x) (Model.created_at b)
      then b :: rows
      else x :: insert_newest_first b rest
  end.

Definition newest_first (rows : list Model.ExternalBook) : list Model.ExternalBook :=
  fold_right insert_newest_first [] rows.

Lemma insert_newest_first_permutes b rows :
  Permutation (insert_newest_first b rows) (b :: rows).
Proof.
  induction rows as [|x rest IH]; simpl; [reflexivity|].
  destruct (Z.leb _ _); [reflexivity|].
  rewrite IH. apply perm_swap.
Qed.

Lemma newest_first_permutes rows : Permutation (newest_first rows) rows.
Proof.
  induction rows as [|b rows IH]; simpl; [reflexivity|].
  rewrite insert_newest_first_permutes. now constructor.
Qed.

Lemma insert_newest_first_sorted b rows :
  Sorted newer_or_same rows -> Sorted newer_or_same (insert_newest_first b rows).
Proof.
  induction rows as [|x rest IH]; simpl; intros Hs; [repeat constructor|].
  destruct (Z.leb_spec (Model.created_at x) (Model.created_at b)) as [Hle|Hlt].
  - constructor; [assumption|]. constructor. exact Hle.
  - inversion Hs as [|y ys Hrest Hhd]; subst.
    constructor; [now apply IH|].
    destruct rest as [|z rest]; simpl.
    + constructor. unfold newer_or_same. lia.
    + destruct (Z.leb _ _); constructor; [unfold newer_or_same; lia|].
      now inversion Hhd.
Qed.

Lemma newest_first_sorted rows : Sorted newer_or_same (newest_first rows).
Proof.
  induction rows as [|b rows IH]; simpl; [constructor|].
  now apply insert_newest_first_sorted.
Qed.

Lemma NoDup_map_inj {A B} (f : A -> B) (l : list A) a b :
  List.NoDup (map f l) -> In a l -> In b l -> f a = f b -> a = b.
Proof.
  induction l as [|x l IH]; simpl; intros Hnd Ha Hb Hf; [contradiction|].
  inversion Hnd as [|y ys Hnotin Hnd']; subst.
  destruct Ha as [->|Ha], Hb as [->|Hb]; auto.
  - exfalso. apply Hnotin. rewrite Hf. now apply in_map.
  - exfalso. apply Hnotin. rewrite <- Hf. now apply in_map.
Qed.

(** The database answers [order_by(ExternalBook.created_at.desc())] with
    the rows it is given, newest first; rows of equal [created_at] come in
    an order that the statement does not fix.  Each query has its own
    answer: two queries may be answered by two such orders. *)
Definition orders_by_created_at_desc
    (order : list Model.ExternalBook -> list Model.ExternalBook) : Prop :=
  (forall rows, Permutation (order rows) rows) /\
  (forall rows, Sorted newer_or_same (order rows)).

Lemma newer_or_same_trans : Relations_1.Transitive newer_or_same.
Proof. intros a b c. unfold newer_or_same. lia. Qed.

(** Rows of distinct [created_at] have one listing, newest first. *)
Lemma newest_first_unique (l1 l2 : list Model.ExternalBook) :
  Sorted newer_or_same l1 -> Sorted newer_or_same l2 -> Permutation l1 l2 ->
  List.NoDup (map Model.created_at l1) -> l1 = l2.
Proof.
  intros H1 H2. apply (Sorted_StronglySorted newer_or_same_trans) in H1, H2.
  revert l2 H2. induction H1 as [|a l1 Hs1 IH Ha]; intros l2 H2 Hp Hnd.
  - apply Permutation_nil in Hp. now subst.
  - destruct H2 as [|b l2 Hs2 Hb].
    + symmetry in Hp. apply Permutation_nil in Hp. discriminate Hp.
    + assert (Hab : a = b).
      { assert (Hin_a : In a (b :: l2)) by (apply (Permutation_in _ Hp); now left).
        assert (Hin_b : In b (a :: l1))
          by (apply (Permutation_in _ (Permutation_sym Hp)); now left).
        destruct Hin_a as [Hba|Hin_a]; [now subst|].
        destruct Hin_b as [Hab|Hin_b]; [exact Hab|].
        rewrite List.Forall_forall in Ha, Hb.
        pose proof (Ha b Hin_b) as Hle1. pose proof (Hb a Hin_a) as Hle2.
        unfold newer_or_same in Hle1, Hle2.
        apply (NoDup_map_inj Model.created_at (a :: l1)); auto;
          [now left | now right | lia]. }
      subst b. f_equal. apply IH; [exact Hs2 | | now inversion Hnd].
      now apply Permutation_cons_inv in Hp.
Qed.

(** X15.  Pages of the cache listing.  With [skip >= 0] and [limit >= 0]
    (the endpoint validates [skip >= 0], [1 <= limit <= 100]) and a
    database that answers [ORDER BY created_at DESC] with the rows newest
    first, [get_cached_books] returns, changes nothing, and: [total] is
    the number of rows that pass the filters, whatever the page; the page
    has [min(limit, max(0, total - skip))] items; [has_more] holds exactly
    when [skip + limit < total]; the items are rows that pass the
    filters, newest first.  The statement has no tie-breaker and every
    page is a query of its own: when the rows that pass the filters have
    distinct [created_at], then, however the database answers each query,
    the page of [limit + limit'] rows at [skip] is this page followed by
    the page of [limit'] at [skip + limit].  (With equal [created_at] a
    row may come twice and another not at all:
    [get_cached_books_pages_tied].) *)
Theorem get_cached_books_pages
    (order : list Model.ExternalBook -> list Model.ExternalBook)
    (source : option ExternalSource) (imported_only : bool)
    (skip limit : Z) (w : World) :
  orders_by_created_at_desc order ->
  0 <= skip -> 0 <= limit ->
  exists r,
    get_cached_books order source imported_only skip limit w = (Ok r, w) /\
    CachedSchema.total r
    = Z.of_nat (length (List.filter (cached_filter source imported_only) (db w))) /\
    Z.of_nat (length (CachedSchema.items r))
    = Z.min limit (Z.max 0 (CachedSchema.total r - skip)) /\
    (CachedSchema.has_more r = true <-> skip + limit < CachedSchema.total r) /\
    (exists books,
        CachedSchema.items r = map model_validate books /\
        Sorted newer_or_same books /\
        forall b, In b books -> In b (db w) /\ cached_filter source imported_only b = true) /\
    (List.NoDup (map Model.created_at
                   (List.filter (cached_filter source imported_only) (db w))) ->
     forall order' order'' limit',
       orders_by_created_at_desc order' -> orders_by_created_at_desc order'' ->
       0 <= limit' ->
       page_items order' source imported_only skip (limit + limit') w
       = (CachedSchema.items r
          ++ page_items order'' source imported_only (skip + limit) limit' w)%list).
Proof.
  intros [order_permutes order_sorts] Hskip Hlimit.
  unfold get_cached_books. eexists. split; [reflexivity|].
  set (matching := List.filter (cached_filter source imported_only) (db w)).
  pose proof (Permutation_length (order_permutes matching)) as Hlen.
  cbn [CachedSchema.total CachedSchema.items CachedSchema.has_more].
  assert (Hitems : Z.of_nat (length (map model_validate
                      (take (Z.to_nat limit) (drop (Z.to_nat skip) (order matching)))))
                   = Z.min limit (Z.max 0 (Z.of_nat (length matching) - skip))).
  { rewrite length_map, length_take, length_drop, Hlen. lia. }
  split; [reflexivity|]. split; [exact Hitems|]. split.
  { rewrite Hitems, Z.ltb_lt. lia. }
  split.
  { eexists. split; [reflexivity|]. split.
    - apply Sorted_take, Sorted_drop, order_sorts.
    - intros b Hb. apply In_take_drop in Hb.
      apply (Permutation_in _ (order_permutes matching)) in Hb.
      now apply filter_In in Hb. }
  intros Hnd order' order'' limit' [Hp' Hs'] [Hp'' Hs''] Hlimit'.
  unfold page_items, get_cached_books. simpl. fold matching.
  assert (Hone : forall o, (forall rows, Permutation (o rows) rows) ->
                           (forall rows, Sorted newer_or_same (o rows)) ->
                           o matching = order matching).
  { intros o Hp Hs. apply newest_first_unique; auto.
    - rewrite Hp. symmetry. apply order_permutes.
    - apply (Permutation_NoDup (l := map Model.created_at matching)); [|exact Hnd].
      apply Permutation_map. symmetry. apply Hp. }
  rewrite (Hone order' Hp' Hs'), (Hone order'' Hp'' Hs'').
  rewrite <- map_app. f_equal.
  rewrite Z2Nat.inj_add by lia. rewrite <- take_take_drop. f_equal.
  rewrite drop_drop. f_equal. rewrite Z2Nat.inj_add by lia. reflexivity.
Qed.

Lemma newest_first_orders : orders_by_created_at_desc newest_first.
Proof. split; [apply newest_first_permutes | apply newest_first_sorted]. Qed.

(** Another answer of the database: the same sort, ties the other way
    round. *)
Definition newest_first_of_rev (rows : list Model.ExternalBook) : list Model.ExternalBook :=
  newest_first (rev rows).

Lemma newest_first_of_rev_orders : orders_by_created_at_desc newest_first_of_rev.
Proof.
  split; intros rows; unfold newest_first_of_rev.
  - rewrite newest_first_permutes. symmetry. apply Permutation_rev.
  - apply newest_first_sorted.
Qed.

(** A cached row of Open Library with the id [i], created at [t]. *)
Definition listed_row (i t : Z) : Model.ExternalBook :=
  {| Model.id := i;
     Model.source := "open_library";
     Model.external_id := "OL" +:+ pretty i +:+ "W";
     Model.title := "A Book";
     Model.authors := None;
     Model.description := None;
     Model.cover_url := None;
     Model.published_date := None;
     Model.published_year := None;
     Model.language := None;
     Model.categories := None;
     Model.isbn_10 := None;
     Model.isbn_13 := None;
     Model.publisher := None;
     Model.page_count := None;
     Model.average_rating := None;
     Model.ratings_count := None;
     Model.metadata_json := None;
     Model.preview_link := None;
     Model.info_link := None;
     Model.download_url := None;
     Model.is_imported := false;
     Model.imported_book_id := None;
     Model.imported_by_id := None;
     Model.imported_at := None;
     Model.created_at := t;
     Model.updated_at := None;
     Model.last_fetched_at := None |}.

(** Three rows created at three times, and two rows created at one. *)
Definition shelf : World :=
  {| db := [listed_row 1 10; listed_row 2 30; listed_row 3 20]; next_id := 4;
     trace := []; http_count := 0; clock_count := 40; loop := LoopUnset |}.

Definition tied_shelf : World :=
  {| db := [listed_row 1 10; listed_row 2 10]; next_id := 3;
     trace := []; http_count := 0; clock_count := 40; loop := LoopUnset |}.

Lemma get_cached_books_pages_witness :
  exists r,
    get_cached_books newest_first (Some OPEN_LIBRARY) false 1 1 shelf = (Ok r, shelf) /\
    CachedSchema.total r = 3 /\
    map CachedSchema.id (CachedSchema.items r) = [3] /\
    (CachedSchema.has_more r = true <-> 1 + 1 < CachedSchema.total r) /\
    map CachedSchema.id
      (page_items newest_first_of_rev (Some OPEN_LIBRARY) false 1 (1 + 1) shelf)
    = (map CachedSchema.id (CachedSchema.items r)
       ++ map CachedSchema.id
            (page_items newest_first (Some OPEN_LIBRARY) false (1 + 1) 1 shelf))%list.
Proof.
  destruct (get_cached_books_pages newest_first (Some OPEN_LIBRARY) false 1 1 shelf
              newest_first_orders)
    as (r & Hr & Htotal & Hlen & Hmore & _ & Hnext); [lia | lia |].
  exists r. split; [exact Hr|]. split; [exact Htotal|].
  split; [injection Hr as <-; vm_compute; reflexivity|].
  split; [exact Hmore|].
  rewrite <- map_app. f_equal.
  apply Hnext; [| apply newest_first_of_rev_orders | apply newest_first_orders | lia].
  vm_compute. repeat constructor; simpl; intuition discriminate.
Defined.

(** Without the distinct [created_at] the pages need not fit: on two rows
    created at the same time, the page at [skip = 0] of one answer and the
    page at [skip = 1] of another hold the same row, and the other row is
    on neither. *)
Example get_cached_books_pages_tied :
  (map CachedSchema.id (page_items newest_first None false 0 1 tied_shelf),
   map CachedSchema.id (page_items newest_first_of_rev None false 1 1 tied_shelf))
  = ([1], [1]).
Proof. vm_compute. reflexivity. Qed.

(** ** Import status in search results and details *)

(** What the table says on the import of a key: [is_imported] and
    [imported_book_id] of its row, if it has one. *)
Definition import_info_in (w : World) (src : ExternalSource) (id : string)
  : option (bool * option Z) :=
  (fun e => (Model.is_imported e, Model.imported_book_id e))
    <$> List.find (key_matches (source_value src) id) (db w).

Lemma find_filter_head {A} (p : A -> bool) (l : list A) :
  List.find p l = List.head (List.filter p l).
Proof.
  induction l as [|a l IH]; simpl; [reflexivity|]. destruct (p a); auto.
Qed.

Lemma select_by_key_find source external_id w :
  store_ok w ->
  select_by_key source external_id w
  = (Ok (List.find (key_matches source external_id) (db w)), w).
Proof.
  intros (_ & _ & Hk). unfold select_by_key. rewrite find_filter_head.
  destruct (filter_key_unique source external_id (db w) Hk) as [-> | [e ->]];
    reflexivity.
Qed.

Lemma find_app_first {A} (p : A -> bool) (l l' : list A) :
  List.find p (l ++ l') = match List.find p l with
                          | Some a => Some a
                          | None => List.find p l'
                          end.
Proof.
  induction l as [|a l IH]; simpl; [reflexivity|]. destruct (p a); auto.
Qed.

Definition status_of (row : Model.ExternalBook) : bool * option Z :=
  (Model.is_imported row, Model.imported_book_id row).

Lemma fold_status_lookup (l : list Model.ExternalBook) :
  forall (m : gmap string (bool * option Z)) x,
  fold_left (fun imported_map row =>
               <[Model.external_id row := status_of row]> imported_map) l m !! x
  = match List.find (fun r => String.eqb (Model.external_id r) x) (rev l) with
    | Some r => Some (status_of r)
    | None => m !! x
    end.
Proof.
  induction l as [|a l IH]; intros m x; simpl; [reflexivity|].
  rewrite IH. rewrite find_app_first.
  destruct (List.find _ (rev l)) as [r|]; [reflexivity|]. simpl.
  destruct (String.eqb_spec (Model.external_id a) x) as [->|Hne].
  - apply lookup_insert_eq.
  - now apply lookup_insert_ne.
Qed.

Lemma find_ext_in {A} (p q : A -> bool) (l : list A) :
  (forall a, In a l -> p a = q a) -> List.find p l = List.find q l.
Proof.
  induction l as [|a l IH]; simpl; intros H; [reflexivity|].
  rewrite (H a) by now left. destruct (q a); [reflexivity|]. apply IH.
  intros b Hb. apply H. now right.
Qed.

Lemma find_rev_unique {A} (p : A -> bool) (l : list A) :
  (forall a b, In a l -> In b l -> p a = true -> p b = true -> a = b) ->
  List.find p (rev l) = List.find p l.
Proof.
  intros Hu. destruct (List.find p l) as [a|] eqn:Hl.
  - apply find_some in Hl as [Ha Hpa].
    destruct (List.find p (rev l)) as [b|] eqn:Hr.
    + apply find_some in Hr as [Hb Hpb]. apply in_rev in Hb.
      f_equal. now apply Hu.
    + exfalso. pose proof (find_none _ _ Hr a) as Hn.
      rewrite Hn in Hpa; [discriminate|]. now apply in_rev in Ha.
  - destruct (List.find p (rev l)) as [b|] eqn:Hr; [|reflexivity].
    apply find_some in Hr as [Hb Hpb]. apply in_rev in Hb.
    rewrite (find_none _ _ Hl b Hb) in Hpb. discriminate.
Qed.

Lemma find_filter_implied {A} (p q : A -> bool) (l : list A) :
  (forall a, In a l -> p a = true -> q a = true) ->
  List.find p (List.filter q l) = List.find p l.
Proof.
  induction l as [|a l IH]; simpl; intros H; [reflexivity|].
  destruct (q a) eqn:Hq; simpl.
  - destruct (p a); [reflexivity|]. apply IH. intros b Hb. apply H. now right.
  - destruct (p a) eqn:Hp.
    + rewrite (H a) in Hq by auto. discriminate.
    + apply IH. intros b Hb. apply H. now right.
Qed.

Lemma imported_map_lookup src external_ids w x :
  store_ok w -> In x external_ids ->
  exists imported_map,
    imported_map_of (source_value src) external_ids w = (Ok imported_map, w) /\
    imported_map !! x = import_info_in w src x.
Proof.
  intros (_ & _ & Hk) Hx. unfold imported_map_of.
  destruct external_ids as [|i ids]; [contradiction|].
  eexists. split; [reflexivity|].
  set (ids' := i :: ids) in *.
  change (fun (imported_map : gmap string (bool * option Z)) row =>
            <[Model.external_id row := (Model.is_imported row, Model.imported_book_id row)]>
              imported_map)
    with (fun (imported_map : gmap string (bool * option Z)) row =>
            <[Model.external_id row := status_of row]> imported_map).
  rewrite fold_status_lookup, lookup_empty.
  assert (Hmatch : forall r, In r (status_rows (source_value src) ids' (db w)) ->
            String.eqb (Model.external_id r) x = key_matches (source_value src) x r).
  { intros r Hr. apply filter_In in Hr as [_ Hr]. apply andb_true_iff in Hr as [Hs _].
    unfold key_matches. now rewrite Hs. }
  rewrite find_rev_unique.
  2:{ intros a b Ha Hb Hpa Hpb. rewrite Hmatch in Hpa, Hpb by assumption.
      apply key_matches_key_of in Hpa, Hpb.
      apply filter_In in Ha as [Ha _]. apply filter_In in Hb as [Hb _].
      apply (NoDup_map_inj key_of (db w)); congruence. }
  rewrite (find_ext_in _ (key_matches (source_value src) x)) by exact Hmatch.
  unfold status_rows. rewrite find_filter_implied.
  - unfold import_info_in. destruct (List.find _ (db w)); reflexivity.
  - intros a _ Ha. apply key_matches_inv in Ha as [Hs He].
    rewrite Hs, String.eqb_refl. simpl. apply bool_decide_eq_true.
    rewrite He. now apply list_elem_of_In.
Qed.

Lemma imported_map_of_returns source external_ids w :
  exists imported_map, imported_map_of source external_ids w = (Ok imported_map, w).
Proof. unfold imported_map_of. destruct external_ids; eexists; reflexivity. Qed.

(** The response of a search endpoint for one source: the adapter's
    response with each item marked by what the table says of its key. *)
Definition marked_response (w : World) (src : ExternalSource) (q : string)
    (search_response : ExternalSearchResponse) : SearchSchema.ExternalSearchResponse :=
  {| SearchSchema.sr_source := src;
     SearchSchema.query := q;
     SearchSchema.total_items := total_items search_response;
     SearchSchema.items :=
       map (fun item => with_import_info item (import_info_in w src (external_id item)))
           (items search_response);
     SearchSchema.search_time_ms := search_time_ms search_response |}.

Lemma with_import_status_marks src q search_response w :
  store_ok w ->
  with_import_status src q search_response w
  = (Ok (marked_response w src q search_response), w).
Proof.
  intros Hw. unfold with_import_status.
  destruct (imported_map_of_returns (source_value src)
              (map external_id (items search_response)) w) as [imported_map Hm].
  rewrite (bind_Ok _ _ _ _ _ Hm). unfold ret, marked_response. do 3 f_equal.
  apply map_ext_in. intros item Hitem. f_equal.
  destruct (imported_map_lookup src (map external_id (items search_response)) w
              (external_id item) Hw) as (m' & Hm' & Hl).
  { now apply in_map. }
  rewrite Hm in Hm'. injection Hm' as <-. exact Hl.
Qed.

Lemma keeps_store_search_google_books env q m si l p ob :
  keeps_store (search_google_books env q m si l p ob).
Proof. unfold search_google_books. keeps. Qed.

Lemma keeps_store_search_open_library env q m page :
  keeps_store (search_open_library env q m page).
Proof. unfold search_open_library. keeps. Qed.

(** The page of Open Library that holds the offset. *)
Definition page_of (limit offset : Z) : Z :=
  if Z.ltb 0 limit then offset / limit + 1 else 1.

(** The adapter call of [search_single_source]. *)
Definition adapter_search (env : Env) (source : ExternalSource) (q : string)
    (limit offset : Z) : M ExternalSearchResponse :=
  match source with
  | GOOGLE_BOOKS => search_google_books env q limit offset None None None
  | OPEN_LIBRARY => search_open_library env q limit (page_of limit offset)
  end.

Lemma keeps_store_adapter_search env source q limit offset :
  keeps_store (adapter_search env source q limit offset).
Proof.
  destruct source; [apply keeps_store_search_google_books
                   | apply keeps_store_search_open_library].
Qed.

Lemma marked_response_ext w w' src q sr :
  db w' = db w -> marked_response w' src q sr = marked_response w src q sr.
Proof. unfold marked_response, import_info_in. now intros ->. Qed.

(** How an endpoint answers for an exception of the adapter: an adapter
    error becomes [HTTPException(503, str(e))], another exception passes. *)
Definition as_503 (e : exn) : exn :=
  if is_ExternalAPIError e then HTTPException 503 (exn_str e) else e.

(** X16.  The single-source search endpoint.  On a table that satisfies
    the unique index, [search_single_source] is the adapter's search (for
    Open Library, of the page [offset // limit + 1]) followed by the
    marking of the items: it returns the adapter's response, source,
    query, total and time unchanged and the items in their order, each
    with [is_imported] and [imported_book_id] of the row that the table
    has for (source, external_id), and [False], [None] when it has none.
    An [ExternalAPIError] of the adapter becomes [HTTPException(503)] with
    the error's text; any other exception passes.  The table is not
    changed. *)
Theorem search_single_source_marks_imports (env : Env) (source : ExternalSource)
    (q : string) (limit offset : Z) (w : World) :
  store_ok w ->
  match adapter_search env source q limit offset w with
  | (Ok search_response, w') =>
      search_single_source env source q limit offset w
      = (Ok (marked_response w source q search_response), w') /\
      store w' = store w
  | (Raise e, w') =>
      search_single_source env source q limit offset w = (Raise (as_503 e), w') /\
      store w' = store w
  end.
Proof.
  intros Hw.
  assert (Heq : search_single_source env source q limit offset
                = bind (try_except (adapter_search env source q limit offset)
                          is_ExternalAPIError unavailable)
                    (with_import_status source q)).
  { destruct source; reflexivity. }
  rewrite Heq. clear Heq.
  pose proof (keeps_store_adapter_search env source q limit offset w) as Hk.
  unfold bind, try_except.
  destruct (adapter_search env source q limit offset w) as [[sr|e] w1]; simpl in Hk.
  - split; [|exact Hk].
    rewrite with_import_status_marks by now apply (store_ok_ext w).
    f_equal. f_equal. apply marked_response_ext. now injection Hk.
  - split; [|exact Hk]. unfold as_503.
    destruct (is_ExternalAPIError e); reflexivity.
Qed.

(** A table with a row that is cached and not imported, beside the
    imported one. *)
Definition cached_row : Model.ExternalBook :=
  {| Model.id := 2;
     Model.source := "open_library";
     Model.external_id := "OL82563W";
     Model.title := "A Book";
     Model.authors := None;
     Model.description := None;
     Model.cover_url := None;
     Model.published_date := None;
     Model.published_year := None;
     Model.language := None;
     Model.categories := None;
     Model.isbn_10 := None;
     Model.isbn_13 := None;
     Model.publisher := None;
     Model.page_count := None;
     Model.average_rating := None;
     Model.ratings_count := None;
     Model.metadata_json := None;
     Model.preview_link := None;
     Model.info_link := None;
     Model.download_url := None;
     Model.is_imported := false;
     Model.imported_book_id := None;
     Model.imported_by_id := None;
     Model.imported_at := None;
     Model.created_at := 4;
     Model.updated_at := None;
     Model.last_fetched_at := None |}.

Definition two_rows : World :=
  {| db := [imported_row; cached_row]; next_id := 3; trace := [];
     http_count := 0; clock_count := 10; loop := LoopUnset |}.

Lemma store_ok_two_rows : store_ok two_rows.
Proof.
  split; [|split].
  - repeat constructor; simpl; intuition discriminate.
  - intros b [<- | [<- | []]]; reflexivity.
  - repeat constructor; simpl; intuition discriminate.
Qed.

Lemma search_single_source_marks_imports_witness :
  exists r w',
    search_single_source (sample_env shelves) GOOGLE_BOOKS "story" 10 0 two_rows
    = (Ok r, w') /\
    map (fun i => (SearchSchema.external_id i, SearchSchema.is_imported i,
                   SearchSchema.imported_book_id i)) (SearchSchema.items r)
    = [("zyTCAlFPjgYC", true, Some 40)] /\
    SearchSchema.total_items r = 57.
Proof.
  pose proof (search_single_source_marks_imports (sample_env shelves) GOOGLE_BOOKS
                "story" 10 0 two_rows store_ok_two_rows) as H.
  destruct (adapter_search (sample_env shelves) GOOGLE_BOOKS "story" 10 0 two_rows)
    as [[sr|e] w1] eqn:E; [|vm_compute in E; discriminate E].
  destruct H as [H _]. exists (marked_response two_rows GOOGLE_BOOKS "story" sr), w1.
  split; [exact H|]. vm_compute in E. injection E as <- _.
  split; reflexivity.
Defined.

Example open_library_search_marks_cached_row :
  match fst (search_single_source (sample_env shelves) OPEN_LIBRARY "book" 10 0 two_rows) with
  | Ok r => map (fun i => (SearchSchema.external_id i, SearchSchema.is_imported i,
                           SearchSchema.imported_book_id i)) (SearchSchema.items r)
  | Raise _ => []
  end
  = [("OL82563W", false, None)].
Proof. vm_compute. reflexivity. Qed.

Example search_single_source_offline :
  fst (search_single_source (sample_env offline) OPEN_LIBRARY "book" 10 0 two_rows)
  = Raise (HTTPException 503 "open_library: Request timed out").
Proof. vm_compute. reflexivity. Qed.

Lemma keeps_trace_imported_map_of source ids : keeps_trace (imported_map_of source ids).
Proof. intros w. unfold imported_map_of. destruct ids; reflexivity. Qed.

Lemma keeps_trace_with_import_status src q sr : keeps_trace (with_import_status src q sr).
Proof.
  unfold with_import_status. apply keeps_bind; [apply keeps_trace_imported_map_of|].
  intros m. apply keeps_ret.
Qed.

Lemma adapter_search_trace env source q limit offset w :
  trace (snd (adapter_search env source q limit offset w))
  = (trace w ++ [EvSearch source;
                 EvHttp (match source with
                         | GOOGLE_BOOKS =>
                             google_search_request env q limit offset None None None
                         | OPEN_LIBRARY =>
                             open_library_search_request q limit (page_of limit offset)
                         end);
                 EvSearchEnd source])%list.
Proof.
  destruct source; [apply search_google_books_trace | apply search_open_library_trace].
Qed.

Lemma search_single_source_trace env source q limit offset w :
  trace (snd (search_single_source env source q limit offset w))
  = trace (snd (adapter_search env source q limit offset w)).
Proof.
  assert (Heq : search_single_source env source q limit offset
                = bind (try_except (adapter_search env source q limit offset)
                          is_ExternalAPIError unavailable)
                    (with_import_status source q)).
  { destruct source; reflexivity. }
  rewrite Heq. unfold bind, try_except.
  destruct (adapter_search env source q limit offset w) as [[sr|e] w1]; simpl.
  - apply keeps_trace_with_import_status.
  - destruct (is_ExternalAPIError e); reflexivity.
Qed.

(** X17.  What the single-source search sends upstream.  With
    [1 <= limit <= 40] and [offset >= 0] (the endpoint's validation), a
    call of [search_single_source] makes one request.  To Google Books it
    carries [maxResults = limit] and [startIndex = offset]: the window
    starts at the offset.  To Open Library it carries [limit = limit] and
    [page = offset // limit + 1]: the window is the page that holds the
    offset, and it starts at the offset only when [limit] divides it. *)
Theorem search_single_source_window (env : Env) (source : ExternalSource)
    (q : string) (limit offset : Z) (w : World) :
  1 <= limit <= 40 -> 0 <= offset ->
  exists r,
    trace (snd (search_single_source env source q limit offset w))
    = (trace w ++ [EvSearch source; EvHttp r; EvSearchEnd source])%list /\
    match source with
    | GOOGLE_BOOKS =>
        Py.dict_lookup (params r) "maxResults" = Some (JInt limit) /\
        Py.dict_lookup (params r) "startIndex" = Some (JInt offset)
    | OPEN_LIBRARY =>
        exists page,
          Py.dict_lookup (params r) "limit" = Some (JInt limit) /\
          Py.dict_lookup (params r) "page" = Some (JInt page) /\
          (page - 1) * limit <= offset < page * limit /\
          ((page - 1) * limit = offset <-> offset mod limit = 0)
    end.
Proof.
  intros Hlimit Hoffset.
  rewrite search_single_source_trace, adapter_search_trace.
  eexists. split; [reflexivity|]. destruct source.
  - simpl. unfold MAX_RESULTS_LIMIT. split; [|reflexivity].
    do 2 f_equal. lia.
  - exists (offset / limit + 1). unfold page_of.
    destruct (Z.ltb_spec 0 limit); [|lia]. simpl.
    split; [do 2 f_equal; lia|]. split; [reflexivity|].
    pose proof (Z.div_mod offset limit ltac:(lia)) as Hdm.
    pose proof (Z.mod_pos_bound offset limit ltac:(lia)) as Hm.
    split; [nia|]. split; intros H'; nia.
Qed.

Lemma search_single_source_window_witness :
  exists r,
    trace (snd (search_single_source (sample_env shelves) OPEN_LIBRARY "book" 10 25
                  fresh_world))
    = [EvSearch OPEN_LIBRARY; EvHttp r; EvSearchEnd OPEN_LIBRARY] /\
    Py.dict_lookup (params r) "page" = Some (JInt 3).
Proof.
  destruct (search_single_source_window (sample_env shelves) OPEN_LIBRARY "book" 10 25
              fresh_world) as (r & Ht & page & Hl & Hp & Hw & _); [lia | lia |].
  exists r. split; [exact Ht|]. rewrite Hp. do 2 f_equal. lia.
Defined.

(** How [get_book_details] answers for an exception of the adapter. *)
Definition as_404_or_503 (e : exn) : exn :=
  match e with
  | ExternalAPIError _ _ status_code =>
      HTTPException (if bool_decide (status_code = Some 404) then 404 else 503)
                    (exn_str e)
  | _ => e
  end.

Lemma fetch_and_store_message env user request existing w r w' :
  fetch_and_store env user request existing w = (Ok r, w') ->
  Schema.message r <> "Book already imported".
Proof.
  unfold fetch_and_store, bind, try_except.
  destruct (get_details env _ _ w) as [[bd|x] w1]; cbn -[write_import].
  - destruct (write_import _ _ _ _ _ _ _ _ _ w1) as [[k|x] w2];
      [|discriminate]. intros [= <- _]. discriminate.
  - destruct (is_ExternalAPIError x); cbn; [|discriminate].
    intros [= <- _]. discriminate.
Qed.

(** X18.  The details endpoint, and what its [is_imported] means.  On a
    table that satisfies the unique index, [get_book_details] returns
    the adapter's result with [is_imported] and [imported_book_id] of the
    row that the table has for the key ([False], [None] with no row); an
    [ExternalAPIError] of the adapter with status 404 becomes
    [HTTPException(404)], any other one [HTTPException(503)], each with
    the error's text; the table is not changed.  And the flag agrees with
    the import: [import_external_book] answers "Book already imported",
    with no adapter call, exactly for the keys that the table marks as
    imported. *)
Theorem get_book_details_marks_import (env : Env) (source : ExternalSource)
    (external_id : string) (w : World) :
  store_ok w ->
  (match get_details env source external_id w with
   | (Ok book_data, w') =>
       get_book_details env source external_id w
       = (Ok (with_import_info book_data (import_info_in w source external_id)), w')
   | (Raise e, w') =>
       get_book_details env source external_id w = (Raise (as_404_or_503 e), w')
   end) /\
  store (snd (get_book_details env source external_id w)) = store w /\
  (forall user request,
      Schema.source request = source -> Schema.external_id request = external_id ->
      ((exists imported_book_id,
           import_info_in w source external_id = Some (true, imported_book_id)) <->
       (exists i, import_external_book env user request w
                  = (Ok (already_imported request i), w)))).
Proof.
  intros Hw.
  pose proof (keeps_store_get_details env source external_id w) as Hk.
  assert (Hfirst :
    match get_details env source external_id w with
    | (Ok book_data, w') =>
        get_book_details env source external_id w
        = (Ok (with_import_info book_data (import_info_in w source external_id)), w')
    | (Raise e, w') =>
        get_book_details env source external_id w = (Raise (as_404_or_503 e), w')
    end).
  { unfold get_book_details, bind, try_except.
    destruct (get_details env source external_id w) as [[b|e] w1]; simpl in Hk.
    - rewrite (select_by_key_find _ _ w1 (store_ok_ext w w1 Hk Hw)).
      unfold ret, import_info_in. injection Hk as -> _. reflexivity.
    - destruct e; try reflexivity. simpl.
      destruct (bool_decide (status_code = Some 404)); reflexivity. }
  split; [exact Hfirst|]. split.
  - destruct (get_details env source external_id w) as [[b|e] w1];
      rewrite Hfirst; exact Hk.
  - intros user request <- <-. unfold import_external_book.
    rewrite (bind_Ok _ _ _ _ _ (select_by_key_find _ _ w Hw)).
    unfold import_info_in.
    destruct (List.find _ (db w)) as [e|] eqn:Hfind; simpl.
    + destruct (Model.is_imported e) eqn:Hi.
      * split; [intros _; exists (Model.id e); reflexivity | eauto].
      * split; [intros [ib [=]]|].
        intros [i H]. apply fetch_and_store_message in H. now contradiction H.
    + split; [intros [ib [=]]|].
      intros [i H]. apply fetch_and_store_message in H. now contradiction H.
Qed.

Lemma get_book_details_marks_import_witness :
  exists r w',
    get_book_details (sample_env catalog) GOOGLE_BOOKS "zyTCAlFPjgYC" two_rows
    = (Ok r, w') /\
    SearchSchema.is_imported r = true /\ SearchSchema.imported_book_id r = Some 40 /\
    store w' = store two_rows.
Proof.
  destruct (get_book_details_marks_import (sample_env catalog) GOOGLE_BOOKS
              "zyTCAlFPjgYC" two_rows store_ok_two_rows) as (H & Hst & _).
  destruct (get_details (sample_env catalog) GOOGLE_BOOKS "zyTCAlFPjgYC" two_rows)
    as [[b|e] w1] eqn:E; [|vm_compute in E; discriminate E].
  rewrite H in Hst. eexists. exists w1. split; [exact H|].
  split; [reflexivity|]. split; [reflexivity | exact Hst].
Defined.

Example details_of_a_missing_book :
  (fst (get_book_details (sample_env catalog) GOOGLE_BOOKS "missing" two_rows),
   fst (get_book_details (sample_env rate_limiting) OPEN_LIBRARY "OL82563W" two_rows))
  = (Raise (HTTPException 404 "google_books: Book with ID 'missing' not found"),
     Raise (HTTPException 503 "open_library: API returned status 429")).
Proof. vm_compute. reflexivity. Qed.

(** ** The multi-source search endpoint *)

Lemma raises_only_try_except_adapter {A} (c : M A) (h : exn -> M A) :
  (forall e, raises_only no_adapter_error (h e)) ->
  raises_only no_adapter_error (try_except c is_ExternalAPIError h).
Proof.
  intros Hh w e w'. unfold try_except.
  destruct (c w) as [[a|e0] w1]; [discriminate|].
  destruct (is_ExternalAPIError e0) eqn:He.
  - apply Hh.
  - intros [= <- _]. exact He.
Qed.

Lemma search_all_sources_no_adapter_error env q m sources :
  raises_only no_adapter_error (search_all_sources env q m sources).
Proof.
  assert (Hp : forall e, is_ExternalAPIError e = false -> no_adapter_error e) by auto.
  unfold search_all_sources. apply raises_only_bind.
  - apply raises_only_for_eachM. intros tasks s. unfold make_task.
    destruct s; raises_only.
  - intros tasks. apply raises_only_for_eachM. intros results st.
    unfold await_task. apply raises_only_try_except_adapter.
    intros e. apply raises_only_ret.
Qed.

Lemma keeps_store_search_source env q m s : keeps_store (search_source env q m s).
Proof.
  destruct s; [apply keeps_store_search_google_books
              | apply keeps_store_search_open_library].
Qed.

Lemma keeps_store_search_all_sources env q m sources :
  keeps_store (search_all_sources env q m sources).
Proof.
  intros w. rewrite search_all_sources_unfold.
  generalize (default [GOOGLE_BOOKS; OPEN_LIBRARY] sources). intros srcs.
  transitivity (store (with_trace (trace w ++ map EvCoroutine srcs)%list w));
    [|reflexivity].
  generalize (with_trace (trace w ++ map EvCoroutine srcs)%list w).
  generalize (∅ : gmap ExternalSource ExternalSearchResponse).
  induction srcs as [|s srcs IH]; intros acc w0; simpl; [reflexivity|].
  unfold bind.
  pose proof (await_task_world q acc s (search_source env q m s) w0) as Hw.
  pose proof (keeps_store_search_source env q m s w0) as Hk.
  unfold task_of at 1.
  destruct (await_task q acc (s, search_source env q m s) w0) as [[acc'|e] w1];
    simpl in Hw; subst w1.
  - rewrite IH. exact Hk.
  - exact Hk.
Qed.

Lemma search_all_sources_domain env q m sources w results w' s :
  search_all_sources env q m sources w = (Ok results, w') ->
  s ∉ default [GOOGLE_BOOKS; OPEN_LIBRARY] sources -> results !! s = None.
Proof.
  rewrite search_all_sources_unfold. intros H Hs.
  apply await_tasks_entries in H as [_ Hout]. rewrite (Hout s Hs). apply lookup_empty.
Qed.

(** The sum of [f] over the entries of a dict. *)
Definition total_over (f : ExternalSearchResponse -> Z)
    (entries : list (ExternalSource * ExternalSearchResponse)) : Z :=
  foldr (fun entry acc => f (snd entry) + acc) 0 entries.

(** [response_results] after the loop over [entries]. *)
Definition marked_results (w : World) (q : string)
    (entries : list (ExternalSource * ExternalSearchResponse))
    (response_results : gmap string SearchSchema.ExternalSearchResponse)
  : gmap string SearchSchema.ExternalSearchResponse :=
  fold_left (fun acc entry =>
               <[source_value (fst entry) := marked_response w (fst entry) q (snd entry)]> acc)
            entries response_results.

Lemma search_endpoint_loop q entries : forall response_results total_items' total_time w,
  store_ok w ->
  for_eachM (search_endpoint_body q) entries (response_results, total_items', total_time) w
  = (Ok (marked_results w q entries response_results,
         total_items' + total_over total_items entries,
         total_time + total_over search_time_ms entries), w).
Proof.
  induction entries as [|[src sr] entries IH]; intros m t tt w Hw; simpl.
  - unfold ret. repeat f_equal; lia.
  - unfold search_endpoint_body at 1.
    rewrite (bind_Ok _ _ _ _ _ (bind_Ok _ _ _ _ _ (with_import_status_marks src q sr w Hw))).
    unfold ret at 1. rewrite IH by assumption. unfold marked_results. simpl.
    rewrite !Z.add_assoc. reflexivity.
Qed.

Lemma source_value_inj s s' : source_value s = source_value s' -> s = s'.
Proof. destruct s, s'; simpl; congruence. Qed.

Lemma marked_results_lookup w q results (sources : list ExternalSource) s :
  forall acc : gmap string SearchSchema.ExternalSearchResponse,
  marked_results w q (dict_items sources results) acc !! source_value s
  = if bool_decide (s ∈ sources)
    then match results !! s with
         | Some sr => Some (marked_response w s q sr)
         | None => acc !! source_value s
         end
    else acc !! source_value s.
Proof.
  unfold marked_results, dict_items.
  induction sources as [|s0 sources IH]; intros acc; simpl; [reflexivity|].
  destruct (results !! s0) as [sr0|] eqn:H0; simpl.
  - rewrite IH. destruct (decide (s = s0)) as [->|Hne].
    + rewrite H0. rewrite lookup_insert_eq.
      rewrite (bool_decide_eq_true_2 (s0 ∈ s0 :: sources)) by (left).
      destruct (bool_decide (s0 ∈ sources)); reflexivity.
    + rewrite lookup_insert_ne by (intros E; apply source_value_inj in E; congruence).
      destruct (bool_decide_reflect (s ∈ sources)) as [Hin|Hnin].
      * rewrite bool_decide_eq_true_2 by now right. reflexivity.
      * rewrite bool_decide_eq_false_2; [reflexivity|].
        intros Hin. apply elem_of_cons in Hin as [?|?]; contradiction.
  - rewrite IH. destruct (decide (s = s0)) as [->|Hne].
    + rewrite H0. rewrite (bool_decide_eq_true_2 (s0 ∈ s0 :: sources)) by (left).
      destruct (bool_decide (s0 ∈ sources)); reflexivity.
    + destruct (bool_decide_reflect (s ∈ sources)) as [Hin|Hnin].
      * rewrite bool_decide_eq_true_2 by now right. reflexivity.
      * rewrite bool_decide_eq_false_2; [reflexivity|].
        intros Hin. apply elem_of_cons in Hin as [?|?]; contradiction.
Qed.

(** The sources that the endpoint asks [search_all_sources] for. *)
Definition requested (source : option ExternalSource) : option (list ExternalSource) :=
  match source with Some s => Some [s] | None => None end.

(** X19.  The multi-source search endpoint never answers 503.  On a table
    that satisfies the unique index, [search_external_books] returns
    whenever [search_all_sources] does, and raises what it raises, which
    is never an [ExternalAPIError]: the endpoint's [except
    ExternalAPIError] clause is never entered, and a source that is down
    shows as an empty result.  The response has, under the name of each
    source, the response of [search_all_sources] for it with the items
    marked by the table's import state, nothing under other names, and
    as totals the sums of [total_items] and of [search_time_ms] over the
    sources; the table is not changed. *)
Theorem search_external_books_never_unavailable (env : Env) (q : string)
    (source : option ExternalSource) (limit : Z) (w : World) :
  store_ok w ->
  match search_all_sources env q limit (requested source) w with
  | (Ok results, w') =>
      exists r,
        search_external_books env q source limit w = (Ok r, w') /\
        SearchSchema.m_query r = q /\
        (forall s, SearchSchema.results r !! source_value s
                   = marked_response w s q <$> results !! s) /\
        SearchSchema.m_total_items r
        = total_over total_items
            (dict_items (default [GOOGLE_BOOKS; OPEN_LIBRARY] (requested source)) results) /\
        SearchSchema.total_search_time_ms r
        = total_over search_time_ms
            (dict_items (default [GOOGLE_BOOKS; OPEN_LIBRARY] (requested source)) results) /\
        store w' = store w
  | (Raise e, w') =>
      search_external_books env q source limit w = (Raise e, w') /\
      is_ExternalAPIError e = false /\
      store w' = store w
  end.
Proof.
  intros Hw.
  pose proof (keeps_store_search_all_sources env q limit (requested source) w) as Hk.
  pose proof (search_all_sources_no_adapter_error env q limit (requested source) w) as Hr.
  assert (Hdead : try_except (search_all_sources env q limit (requested source))
                    is_ExternalAPIError unavailable w
                  = search_all_sources env q limit (requested source) w).
  { unfold try_except.
    destruct (search_all_sources env q limit (requested source) w) as [[results|e] w1];
      [reflexivity|].
    now rewrite (Hr e w1 eq_refl). }
  unfold search_external_books. fold (requested source).
  destruct (search_all_sources env q limit (requested source) w)
    as [[results|e] w1] eqn:Es; simpl in Hk.
  - assert (Hw1 : store_ok w1) by now apply (store_ok_ext w).
    rewrite (bind_Ok _ _ _ _ _ Hdead).
    rewrite (bind_Ok _ _ _ _ _ (search_endpoint_loop q _ ∅ 0 0 w1 Hw1)).
    eexists. split; [reflexivity|]. simpl.
    split; [reflexivity|]. split; [|auto].
    intros s. rewrite marked_results_lookup, lookup_empty.
    assert (Hdb : db w1 = db w) by now injection Hk.
    destruct (bool_decide_reflect
                (s ∈ default [GOOGLE_BOOKS; OPEN_LIBRARY] (requested source)))
      as [Hin|Hnin].
    + destruct (results !! s); simpl; [|reflexivity].
      f_equal. now apply marked_response_ext.
    + now rewrite (search_all_sources_domain _ _ _ _ _ _ _ s Es Hnin).
  - rewrite (bind_Raise _ _ _ _ _ Hdead).
    split; [reflexivity|]. split; [exact (Hr e w1 eq_refl) | exact Hk].
Qed.

Lemma search_external_books_never_unavailable_witness :
  exists r w',
    search_external_books (sample_env google_only) "story" None 10 two_rows = (Ok r, w') /\
    SearchSchema.m_total_items r = 1 /\
    (SearchSchema.total_items <$> SearchSchema.results r !! "open_library") = Some 0.
Proof.
  pose proof (search_external_books_never_unavailable (sample_env google_only) "story"
                None 10 two_rows store_ok_two_rows) as H.
  destruct (search_all_sources (sample_env google_only) "story" 10 (requested None)
              two_rows) as [[results|e] w1] eqn:E; [|vm_compute in E; discriminate E].
  destruct H as (r & Hr & _ & Hres & Htot & _).
  exists r, w1. split; [exact Hr|].
  assert (HO : results !! OPEN_LIBRARY = Some (empty_response OPEN_LIBRARY "story") /\
               (total_items <$> results !! GOOGLE_BOOKS) = Some 1).
  { vm_compute in E. injection E as <- _. split; reflexivity. }
  destruct HO as [HO HG]. split.
  - rewrite Htot. simpl. rewrite HO.
    destruct (results !! GOOGLE_BOOKS) as [g|]; [|discriminate HG].
    injection HG as HG. simpl. rewrite HG. reflexivity.
  - change "open_library" with (source_value OPEN_LIBRARY). rewrite Hres, HO. reflexivity.
Defined.

(* ===================================================================== *)
(** ** What an import writes *)
(* ===================================================================== *)

(** The row holds the adapter's result [d], with the three values that
    the caller may override ([x or book_data.x]), and the import state. *)
Definition imported_from (env : Env) (row : Model.ExternalBook) (d : ExternalBookResult)
    (title_override description_override language_override : option string)
    (user_id : option Z) : Prop :=
  Model.title row = default "" (or_else title_override (Some (title d))) /\
  Model.description row = or_else description_override (description d) /\
  Model.language row = or_else language_override (language d) /\
  Model.authors row = Some (authors d) /\
  Model.cover_url row = thumbnail_url d /\
  Model.published_date row = published_date d /\
  Model.published_year row = parse_published_year env (published_date d) /\
  Model.categories row = Some (categories d) /\
  Model.isbn_10 row = isbn_10 d /\
  Model.isbn_13 row = isbn_13 d /\
  Model.publisher row = publisher d /\
  Model.page_count row = page_count d /\
  Model.average_rating row = average_rating d /\
  Model.ratings_count row = ratings_count d /\
  Model.preview_link row = preview_link d /\
  Model.info_link row = info_link d /\
  Model.metadata_json row = Some (raw_metadata d) /\
  Model.is_imported row = true /\
  Model.imported_by_id row = user_id.

(** What the row keeps of the row that was there, and what a new row
    starts with. *)
Definition placed (existing : option Model.ExternalBook) (source external_id : string)
    (w : World) (row : Model.ExternalBook) : Prop :=
  match existing with
  | Some e =>
      Model.id row = Model.id e /\ Model.created_at row = Model.created_at e /\
      Model.download_url row = Model.download_url e /\
      Model.imported_book_id row = Model.imported_book_id e
  | None =>
      Model.id row = next_id w /\ Model.download_url row = None /\
      Model.imported_book_id row = None
  end /\
  Model.source row = source /\ Model.external_id row = external_id.

Lemma write_import_row env existing source external_id d t de l user_id w :
  List.NoDup (map Model.id (db w)) ->
  List.filter (key_matches source external_id) (db w)
    = match existing with Some e => [e] | None => [] end ->
  exists row w',
    write_import env existing source external_id d t de l user_id w
      = (Ok (Model.id row), w') /\
    List.filter (key_matches source external_id) (db w') = [row] /\
    imported_from env row d t de l user_id /\
    placed existing source external_id w row.
Proof.
  intros Hnd Hf. unfold write_import. destruct existing as [e|].
  - assert (He : In e (db w) /\ key_matches source external_id e = true).
    { apply filter_In. rewrite Hf. now left. }
    destruct He as [_ He]. apply key_matches_inv in He as [Hs Hi].
    unfold bind, now, commit_update, bind, now, ret. simpl.
    match goal with
    | |- context [replace_row ?b' _] => exists b'
    end.
    eexists. split; [reflexivity|]. simpl.
    split; [|split; [repeat split | repeat split; assumption]].
    apply (filter_key_replace_row source external_id (db w) e); auto.
    now apply key_matches_refl.
  - unfold bind, now, add_and_commit, bind, now. simpl.
    match goal with
    | |- context [(db w ++ [?b'])%list] => exists b'
    end.
    eexists. split; [reflexivity|]. simpl.
    split; [|split; repeat split].
    rewrite List.filter_app, Hf. simpl.
    unfold key_matches at 1. simpl. now rewrite !String.eqb_refl.
Qed.

(** The request with other values in the two fields that the import does
    not read. *)
Definition with_author_category (request : Schema.ExternalBookImportRequest)
    (author category : option string) : Schema.ExternalBookImportRequest :=
  {| Schema.source := Schema.source request;
     Schema.external_id := Schema.external_id request;
     Schema.title := Schema.title request;
     Schema.author := author;
     Schema.description := Schema.description request;
     Schema.category := category;
     Schema.language := Schema.language request |}.

(** X20.  What an import writes, and which overrides count.  After an
    [import_external_book] that answers "Book imported successfully" (on
    a table that satisfies its constraints) the table has one row of the
    key, under the id returned: it holds the adapter's result, except
    that a non-empty [title], [description] or [language] of the request
    stands in place of the adapter's (an empty string counts as absent);
    it is marked imported by the user; and it keeps id, [created_at],
    [download_url] and [imported_book_id] of the row that was there, or
    is new under the next id of the sequence.  [author] and [category] of
    the request are accepted and never read: they change nothing of the
    outcome. *)
Theorem import_applies_overrides (env : Env) (user : Z)
    (request : Schema.ExternalBookImportRequest) (w : World)
    (r : Schema.ImportResult) (w' : World) :
  store_ok w ->
  import_external_book env user request w = (Ok r, w') ->
  Schema.message r = "Book imported successfully" ->
  (exists book_data row,
      fst (get_details env (Schema.source request) (Schema.external_id request) w)
      = Ok book_data /\
      List.filter (key_matches (source_value (Schema.source request))
                     (Schema.external_id request)) (db w') = [row] /\
      Schema.external_book_id r = Some (Model.id row) /\
      imported_from env row book_data (Schema.title request)
        (Schema.description request) (Schema.language request) (Some user) /\
      placed (List.find (key_matches (source_value (Schema.source request))
                           (Schema.external_id request)) (db w))
        (source_value (Schema.source request)) (Schema.external_id request) w row) /\
  (forall author category,
      import_external_book env user (with_author_category request author category) w
      = (Ok r, w')).
Proof.
  intros Hw H Hm. split.
  - unfold import_external_book in H.
    rewrite (bind_Ok _ _ _ _ _ (select_by_key_find _ _ w Hw)) in H.
    pose proof (find_filter_head (key_matches (source_value (Schema.source request))
                                    (Schema.external_id request)) (db w)) as Hhead.
    destruct Hw as (Hnd & _ & Hkey).
    destruct (filter_key_unique (source_value (Schema.source request))
                (Schema.external_id request) (db w) Hkey) as [Hf | [e0 Hf]];
      rewrite Hf in Hhead; simpl in Hhead; rewrite Hhead in H |- *.
    + unfold fetch_and_store, bind, try_except in H.
      pose proof (keeps_store_get_details env (Schema.source request)
                    (Schema.external_id request) w) as Hk.
      destruct (get_details env _ _ w) as [[d|x] w1]; cbn -[write_import] in H, Hk.
      2:{ destruct (is_ExternalAPIError x); cbn in H; [|discriminate H].
          injection H as <- _. discriminate Hm. }
      injection Hk as Hdb Hn.
      destruct (write_import_row env None (source_value (Schema.source request))
                  (Schema.external_id request) d (Schema.title request)
                  (Schema.description request) (Schema.language request) (Some user) w1)
        as (row & w2 & Hwr & Hrow & Hfrom & Hplaced).
      { now rewrite Hdb. } { now rewrite Hdb. }
      rewrite Hwr in H. injection H as <- <-.
      exists d, row. unfold placed in *. rewrite <- Hn. auto.
    + destruct (Model.is_imported e0) eqn:Hi.
      { apply ret_inv in H as [<- _]. discriminate Hm. }
      unfold fetch_and_store, bind, try_except in H.
      pose proof (keeps_store_get_details env (Schema.source request)
                    (Schema.external_id request) w) as Hk.
      destruct (get_details env _ _ w) as [[d|x] w1]; cbn -[write_import] in H, Hk.
      2:{ destruct (is_ExternalAPIError x); cbn in H; [|discriminate H].
          injection H as <- _. discriminate Hm. }
      injection Hk as Hdb Hn.
      destruct (write_import_row env (Some e0) (source_value (Schema.source request))
                  (Schema.external_id request) d (Schema.title request)
                  (Schema.description request) (Schema.language request) (Some user) w1)
        as (row & w2 & Hwr & Hrow & Hfrom & Hplaced).
      { now rewrite Hdb. } { now rewrite Hdb. }
      rewrite Hwr in H. injection H as <- <-.
      exists d, row. auto.
  - intros author category. rewrite <- H. reflexivity.
Qed.

(** A request that overrides the title, with an empty description. *)
Definition retitled_request : Schema.ExternalBookImportRequest :=
  {| Schema.source := GOOGLE_BOOKS;
     Schema.external_id := "zyTCAlFPjgYC";
     Schema.title := Some "My copy";
     Schema.author := Some "Somebody";
     Schema.description := Some "";
     Schema.category := Some "Shelf";
     Schema.language := None |}.

Lemma import_applies_overrides_witness :
  exists r w' row,
    import_external_book (sample_env catalog) 7 retitled_request fresh_world = (Ok r, w') /\
    db w' = [row] /\
    Model.title row = "My copy" /\ Model.description row = None /\
    Model.language row = Some "en" /\ Model.imported_by_id row = Some 7.
Proof.
  destruct (import_external_book (sample_env catalog) 7 retitled_request fresh_world)
    as [[r|e] w'] eqn:E; [|vm_compute in E; discriminate E].
  assert (Hok : store_ok fresh_world).
  { split; [constructor|]. split; [intros b []|constructor]. }
  assert (Hm : Schema.message r = "Book imported successfully").
  { vm_compute in E. injection E as <- _. reflexivity. }
  destruct (import_applies_overrides (sample_env catalog) 7 retitled_request fresh_world
              r w' Hok E Hm) as [(d & row & Hd & Hrow & _ & Hfrom & _) _].
  assert (Hdb : exists b, db w' = [b]).
  { vm_compute in E. injection E as _ <-. eexists. reflexivity. }
  destruct Hdb as [b Hdb]. rewrite Hdb in Hrow. simpl in Hrow.
  destruct (key_matches _ _ b); [|discriminate Hrow]. injection Hrow as ->.
  exists r, w', row. split; [reflexivity|]. split; [exact Hdb|].
  assert (Hby : Model.imported_by_id row = Some 7) by apply Hfrom.
  destruct Hfrom as (Ht & Hde & Hl & _).
  vm_compute in Hd. injection Hd as <-.
  split; [exact Ht|]. split; [exact Hde|]. split; [exact Hl | exact Hby].
Defined.

(** ** Author lookups of [get_open_library_book_details] *)

(** The key of the author that an entry of [authors] refers to, when the
    entry has the shape of a reference. *)
Definition author_key_of (author_ref : json) : res json :=
  res_bind (Py.get_default author_ref "author" (JObj []))
           (fun a => Py.get_default a "key" (JStr "")).

(** What a lookup adds to [authors]: the [name] of a 200 with a JSON
    object for body (["Unknown"] when it has no name), nothing
    otherwise. *)
Definition name_in (o : http_outcome) : list json :=
  match o with
  | Response status (Some author_data) =>
      if Z.eqb status 200
      then match Py.get_default author_data "name" (JStr "Unknown") with
           | Ok name => [name]
           | Raise _ => []
           end
      else []
  | _ => []
  end.

Definition author_request (env : Env) (author_key : json) : Request :=
  {| url := OPEN_LIBRARY_BASE_URL +:+ py_str env author_key +:+ ".json"; params := [] |}.

Lemma author_body_step env authors author_ref w :
  match author_key_of author_ref with
  | Ok author_key =>
      if Py.truthy author_key
      then author_body env authors author_ref w
           = (Ok (authors ++ name_in (http env (http_count w)
                                        (author_request env author_key)))%list,
              snd (client_get env (author_request env author_key) w))
      else author_body env authors author_ref w = (Ok authors, w)
  | Raise e => author_body env authors author_ref w = (Raise e, w)
  end.
Proof.
  unfold author_key_of, author_body, bind, lift.
  destruct (Py.get_default author_ref "author" (JObj [])) as [a|e]; [|reflexivity].
  simpl. destruct (Py.get_default a "key" (JStr "")) as [k|e]; [|reflexivity].
  destruct (Py.truthy k); [|reflexivity].
  simpl. fold (author_request env k).
  destruct (http env (http_count w) (author_request env k)) as [|m|status [d|]];
    simpl; try (rewrite app_nil_r; reflexivity).
  destruct (Z.eqb status 200); [|rewrite app_nil_r; reflexivity].
  destruct (Py.get_default d "name" (JStr "Unknown")); [reflexivity|].
  rewrite app_nil_r. reflexivity.
Qed.

(** The entry has the shape of a reference to an author. *)
Definition is_author_ref (author_ref : json) : Prop :=
  exists author_key, author_key_of author_ref = Ok author_key.

(** The keys that the loop looks up: the truthy [author.key] of the
    entries, in their order. *)
Definition looked_up (refs : list json) : list json :=
  omap (fun author_ref =>
          match author_key_of author_ref with
          | Ok author_key => if Py.truthy author_key then Some author_key else None
          | Raise _ => None
          end) refs.

(** The answers to the lookups of [keys], the first of which is the
    [n]-th request of the run. *)
Fixpoint answers_from (env : Env) (n : nat) (keys : list json) : list http_outcome :=
  match keys with
  | [] => []
  | author_key :: rest =>
      http env n (author_request env author_key) :: answers_from env (S n) rest
  end.

(** A lookup that failed: no answer, another status than 200, or a body
    that is not JSON. *)
Definition failed_lookup (o : http_outcome) : Prop :=
  match o with
  | TimeoutException | RequestError _ => True
  | Response status body => status <> 200 \/ body = None
  end.

Lemma name_in_failed o : failed_lookup o -> name_in o = [].
Proof.
  destruct o as [|m|status [d|]]; simpl; try reflexivity.
  intros [Hs|Hb]; [|discriminate Hb].
  destruct (Z.eqb_spec status 200); [contradiction | reflexivity].
Qed.

Lemma name_in_named status name kv :
  status = 200 -> Py.dict_lookup kv "name" = Some name ->
  name_in (Response status (Some (JObj kv))) = [name].
Proof. intros -> H. simpl. unfold Py.get_default. simpl. now rewrite H. Qed.

(** X21.  Author lookups of a work, in order.  In the loop of
    [get_open_library_book_details] over the work's [authors], when every
    entry has the shape of a reference, the loop returns; it looks up the
    truthy keys of the entries in their order, one request each and
    nothing else, and appends to [authors], in that order, what each
    answer gives: the [name] of a 200 with a JSON body, nothing
    otherwise.  So a lookup that times out, fails to connect, is answered
    with another status than 200 or with a body that is not JSON adds no
    name, and no lookup adds more than one; the table is left alone.
    (What is appended need not be a string: see
    [details_with_null_author_name].) *)
Theorem author_lookups_in_order (env : Env) (refs : list json) (authors : list json)
    (w : World) :
  Forall is_author_ref refs ->
  let answers := answers_from env (http_count w) (looked_up refs) in
  exists w',
    for_eachM (author_body env) refs authors w
      = (Ok (authors ++ concat (map name_in answers))%list, w') /\
    trace w' = (trace w ++ map (fun k => EvHttp (author_request env k))
                             (looked_up refs))%list /\
    store w' = store w /\
    Forall (fun o => failed_lookup o -> name_in o = []) answers /\
    Forall (fun o => (length (name_in o) <= 1)%nat) answers.
Proof.
  intros Hrefs. cbv zeta. revert authors w.
  induction Hrefs as [|ref refs [k Hk] _ IH]; intros authors w.
  - exists w. simpl. rewrite !app_nil_r. repeat split; constructor.
  - pose proof (author_body_step env authors ref w) as Hstep. rewrite Hk in Hstep.
    assert (Hkeys : looked_up (ref :: refs)
                    = if Py.truthy k then k :: looked_up refs else looked_up refs).
    { unfold looked_up. simpl. rewrite Hk. destruct (Py.truthy k); reflexivity. }
    rewrite Hkeys. clear Hkeys. cbn [for_eachM].
    destruct (Py.truthy k).
    + rewrite (bind_Ok _ _ _ _ _ Hstep).
      destruct (IH (authors ++ name_in (http env (http_count w) (author_request env k)))%list
                  (snd (client_get env (author_request env k) w)))
        as (w' & Hloop & Ht & Hst & Hf & Hl).
      exists w'. cbn [answers_from map concat].
      split; [rewrite Hloop; simpl; now rewrite <- app_assoc|].
      split; [rewrite Ht; simpl; now rewrite <- app_assoc|].
      split; [exact Hst|].
      split; constructor; try assumption.
      * apply name_in_failed.
      * unfold name_in. destruct (http env _ _) as [| |status [d|]]; simpl; try lia.
        destruct (Z.eqb status 200); simpl; [|lia].
        destruct (Py.get_default d "name" (JStr "Unknown")); simpl; lia.
    + rewrite (bind_Ok _ _ _ _ _ Hstep). apply IH.
Qed.

(** An upstream whose first answer is a timeout, and two references to
    the author of the catalog. *)
Definition first_times_out : nat -> Request -> http_outcome :=
  fun n r => if Nat.eqb n 0 then TimeoutException else catalog n r.

Definition two_author_refs : list json :=
  [JObj [("author", JObj [("key", JStr "/authors/OL23919A")])];
   JObj [("author", JObj [("key", JStr "/authors/OL23919A")])]].

Lemma author_lookups_in_order_witness :
  exists w',
    for_eachM (author_body (sample_env first_times_out)) two_author_refs [] fresh_world
    = (Ok [JStr "An Author"], w') /\
    length (requests_of (trace w')) = 2%nat.
Proof.
  destruct (author_lookups_in_order (sample_env first_times_out) two_author_refs []
              fresh_world) as (w' & H & Ht & _).
  - repeat constructor; eexists; reflexivity.
  - exists w'. split; [exact H|]. rewrite Ht. reflexivity.
Defined.

Example details_with_authors_offline :
  (authors <$> (match fst (get_open_library_book_details
                             (sample_env (fun n r => if Nat.eqb n 0 then catalog n r
                                                     else TimeoutException))
                             "OL82563W" fresh_world) with
                | Ok b => Some b
                | Raise _ => None
                end),
   authors <$> (match fst (get_open_library_book_details (sample_env catalog)
                             "OL82563W" fresh_world) with
                | Ok b => Some b
                | Raise _ => None
                end))
  = (Some [], Some ["An Author"]).
Proof. vm_compute. reflexivity. Qed.

(** An upstream that knows the author's record, with a null name. *)
Definition null_author_name : nat -> Request -> http_outcome :=
  fun n r =>
    if String.eqb (url r) (OPEN_LIBRARY_BASE_URL +:+ "/authors/OL23919A.json")
    then Response 200 (Some (JObj [("name", JNull)]))
    else catalog n r.

(** A lookup that succeeds can still fail the details: the null name is
    appended, and [ExternalBookResult(authors=...)], which is outside the
    [try] of the loop, rejects it. *)
Example details_with_null_author_name :
  fst (get_open_library_book_details (sample_env null_author_name) "OL82563W"
         fresh_world) = Raise ValidationError.
Proof. vm_compute. reflexivity. Qed.

(** ** What [getDetails] raises *)

(** What a details call makes of the answer [o] to its request. *)
Definition details_failure_policy (s : ExternalSource) (o : http_outcome)
    (r : res ExternalBookResult) : Prop :=
  (o = TimeoutException -> r = Raise (ExternalAPIError s "Request timed out" None)) /\
  (forall m, o = RequestError m ->
     r = Raise (ExternalAPIError s ("Request failed: " +:+ m) None)) /\
  (forall status body, o = Response status body -> status <> 200 ->
     exists m, r = Raise (ExternalAPIError s m (Some status))) /\
  (o = Response 200 None -> r = Raise JSONDecodeError).

Lemma get_details_fst env s id w :
  fst (get_details env s id w)
  = fst (details_of_answer env s id (first_answer env s id w) (after_request env s id w)).
Proof. destruct s; reflexivity. Qed.

Lemma details_of_answer_policy env s id o w :
  details_failure_policy s o (fst (details_of_answer env s id o w)).
Proof.
  unfold details_failure_policy.
  split; [intros ->; destruct s; reflexivity|].
  split; [intros m ->; destruct s; reflexivity|].
  split.
  - intros status body -> Hne.
    destruct s; simpl; unfold google_details_of_answer, open_library_details_of_answer;
      unfold bind at 1;
      destruct (Z.eqb_spec status 404) as [->|H404]; simpl; eauto;
      destruct (Z.eqb_spec status 200) as [->|H200]; simpl; eauto; contradiction.
  - intros ->. destruct s; reflexivity.
Qed.

(** X22.  Which answers make a details call fail, and how.  For both
    adapters, with [o] the answer to the (first) request of the call: a
    timeout and a connection error give an [ExternalAPIError] of the
    source with no status code; an answer with a status other than 200
    gives an [ExternalAPIError] of the source with that status (404
    among them); a 200 whose body is no JSON raises the decoder's error.
    On a 200 with a JSON body the two adapters differ: Google Books
    returns what [_parse_google_book] makes of the body and raises
    [ExternalAPIError("Failed to parse book data")] when it makes
    nothing, so it raises no other exception; Open Library raises no
    [ExternalAPIError], and an ill-formed body shows as the exception of
    the step that met it. *)
Theorem details_fail_unless_200 (env : Env) (s : ExternalSource) (external_id : string)
    (w : World) :
  details_failure_policy s (first_answer env s external_id w)
    (fst (get_details env s external_id w)) /\
  (forall data,
      first_answer env s external_id w = Response 200 (Some data) ->
      match s with
      | GOOGLE_BOOKS =>
          fst (get_details env s external_id w)
          = match _parse_google_book env data with
            | Some parsed => Ok parsed
            | None => Raise (ExternalAPIError GOOGLE_BOOKS "Failed to parse book data" None)
            end
      | OPEN_LIBRARY =>
          forall e, fst (get_details env s external_id w) = Raise e ->
                    is_ExternalAPIError e = false
      end).
Proof.
  rewrite get_details_fst. split; [apply details_of_answer_policy|].
  intros data ->. destruct s.
  - simpl. unfold google_details_of_answer, bind. simpl.
    destruct (_parse_google_book env data); reflexivity.
  - intros e He.
    assert (Hn : raises_only no_adapter_error
                   (open_library_details_of_answer env external_id
                      (Response 200 (Some data)))).
    { assert (Hp : forall e, is_ExternalAPIError e = false -> no_adapter_error e) by auto.
      unfold open_library_details_of_answer.
      apply raises_only_bind; [simpl; raises_only|].
      intros work_data.
      assert (Ha : forall authors ref,
                 raises_only no_adapter_error (author_body env authors ref)).
      { intros authors ref. unfold author_body. raises_only. }
      repeat first
        [ apply Ha
        | apply raises_only_for_eachM; intros ? ?
        | progress raises_only ]. }
    simpl in He.
    destruct (open_library_details_of_answer env external_id (Response 200 (Some data))
                (after_request env OPEN_LIBRARY external_id w)) as [[b|e0] w1] eqn:E;
      [discriminate He|].
    injection He as ->. exact (Hn _ _ _ E).
Qed.

Example google_details_unparseable :
  fst (get_details (sample_env (fun _ _ => Response 200 (Some (JArr []))))
         GOOGLE_BOOKS "zyTCAlFPjgYC" fresh_world)
  = Raise (ExternalAPIError GOOGLE_BOOKS "Failed to parse book data" None).
Proof. vm_compute. reflexivity. Qed.

Example open_library_details_unparseable :
  fst (get_details (sample_env (fun _ _ => Response 200 (Some (JArr []))))
         OPEN_LIBRARY "OL82563W" fresh_world)
  = Raise AttributeError.
Proof. vm_compute. reflexivity. Qed.

(** ** Thumbnails *)

Lemma replace_http_prefix s :
  Py.startswith "http://" s = true ->
  exists rest, Py.replace "http://" "https://" s = "https://" +:+ rest.
Proof.
  unfold Py.startswith, Py.replace. intros H. destruct s as [|c s]; [discriminate H|].
  cbn [Py.replace_go]. rewrite H. eauto.
Qed.

Lemma https_thumbnail_scheme v v' :
  https_thumbnail v = Ok v' ->
  match v' with
  | JStr s => Py.startswith "http://" s = false
  | _ => True
  end.
Proof.
  unfold https_thumbnail. destruct (Py.truthy v) eqn:Ht.
  - destruct v as [| | | |s| |]; try discriminate.
    destruct (Py.startswith "http://" s) eqn:Hs.
    + intros [= <-]. destruct (replace_http_prefix s Hs) as [rest ->]. reflexivity.
    + intros [= <-]. exact Hs.
  - intros [= <-]. destruct v as [| | | |s| |]; auto.
    destruct s; [reflexivity | discriminate Ht].
Qed.

(** The address is not a plain [http://] one. *)
Definition not_plain_http (thumbnail_url : option string) : Prop :=
  match thumbnail_url with
  | Some s => Py.startswith "http://" s = false
  | None => True
  end.

(** X23.  No thumbnail is served over plain http.  The [thumbnail_url] of
    a result of [_parse_google_book] never begins with [http://]: an
    address that upstream gave with that scheme begins with [https://].
    The one of a result of [_parse_open_library_book] is the cover
    address [https://covers.openlibrary.org/b/id/<cover_i>-M.jpg], or
    none. *)
Theorem thumbnails_are_not_plain_http (env : Env) (v : json) (r : ExternalBookResult) :
  (_parse_google_book env v = Some r -> not_plain_http (thumbnail_url r)) /\
  (_parse_open_library_book env v = Some r ->
   not_plain_http (thumbnail_url r) /\
   exists cover_id,
     Py.get v "cover_i" = Ok cover_id /\
     thumbnail_url r
     = if Py.truthy cover_id
       then Some ("https://covers.openlibrary.org/b/id/" +:+ py_str env cover_id +:+ "-M.jpg")
       else None).
Proof.
  split.
  - unfold _parse_google_book. intros H. apply except_None_Some in H.
    do 7 res_step H.
    match goal with
    | Hh : https_thumbnail _ = Ok ?t |- _ =>
        pose proof (https_thumbnail_scheme _ _ Hh) as Hscheme
    end.
    repeat res_step H. injection H as <-. simpl.
    match goal with
    | Hv : Validate.opt_str ?t = Ok ?f, Hs : match ?t with _ => _ end |- not_plain_http ?f =>
        destruct (opt_str_inv _ _ Hv) as [[-> ->] | (s & -> & ->)];
          [exact I | exact Hs]
    end.
  - unfold _parse_open_library_book. intros H. apply except_None_Some in H.
    do 2 res_step H.
    match type of H with (if ?b then _ else _) = _ => destruct b; [discriminate|] end.
    res_step H.
    match goal with
    | Hc : Py.get v "cover_i" = Ok ?c |- _ => rename c into cover_id
    end.
    repeat res_step H. injection H as <-. simpl.
    split; [|exists cover_id; split; [assumption | reflexivity]].
    unfold cover_thumbnail. destruct (Py.truthy cover_id); [reflexivity | exact I].
Qed.

Example google_thumbnail_rewritten :
  (thumbnail_url <$> _parse_google_book (sample_env offline) sample_volume)
  = Some (Some "https://books.example/thumb.jpg").
Proof. vm_compute. reflexivity. Qed.

(** ** The sources listing *)

(** The [key] parameter that the requests to Google Books carry. *)
Definition key_sent (env : Env) : option json :=
  if nonempty (google_books_api_key env)
  then Some (JStr (default "" (google_books_api_key env)))
  else None.

(** X24.  The sources listing and the requests agree.  [get_sources]
    lists the two members of [ExternalSource], by their values and in
    their order, each as available; [has_api_key] of Google Books holds
    exactly when a key is configured, which is exactly when the requests
    to Google Books, search and details, carry it as [key]; the requests
    to Open Library never carry a key, and its entry says
    [has_api_key = True]. *)
Theorem sources_listing_matches_requests (env : Env) :
  map SourceSchema.id (get_sources env) = map source_value [GOOGLE_BOOKS; OPEN_LIBRARY] /\
  map SourceSchema.is_available (get_sources env) = [true; true] /\
  map SourceSchema.has_api_key (get_sources env) = [bool_decide (is_Some (key_sent env)); true] /\
  (forall query max_results start_index language print_type order_by,
      Py.dict_lookup (params (google_search_request env query max_results start_index
                                language print_type order_by)) "key"
      = key_sent env) /\
  (forall google_books_id,
      Py.dict_lookup (params (google_details_request env google_books_id)) "key"
      = key_sent env) /\
  (forall query max_results page,
      Py.dict_lookup (params (open_library_search_request query max_results page)) "key"
      = None) /\
  (forall work_key, params (work_request work_key) = []).
Proof.
  split; [reflexivity|]. split; [reflexivity|]. split.
  { simpl. unfold key_sent. destruct (nonempty (google_books_api_key env)); reflexivity. }
  split.
  { intros q m si l p ob. unfold google_search_request, google_search_params, key_sent.
    simpl.
    destruct (nonempty (google_books_api_key env)); simpl; [reflexivity|].
    destruct (nonempty l), (nonempty p), (nonempty ob); reflexivity. }
  split.
  { intros. unfold google_details_request, key_sent. simpl.
    destruct (nonempty (google_books_api_key env)); reflexivity. }
  split; reflexivity.
Qed.

(** ** The two import paths *)

Lemma fetch_book_data_get_details env s id :
  fetch_book_data env (source_value s) id = get_details env s id.
Proof. destruct s; reflexivity. Qed.

(** How the outcome of the endpoint corresponds to the outcome of the
    task's coroutine: the same row id; or the failed result of the error
    that the coroutine raised; or the same exception. *)
Definition same_outcome (request : Schema.ExternalBookImportRequest)
    (r : res Schema.ImportResult) (d : res Task.ImportDict) : Prop :=
  match r, d with
  | Ok r, Ok d =>
      exists i, r = imported_as request i /\
                d = success_dict (source_value (Schema.source request))
                      (Schema.external_id request) i
  | Ok r, Raise e => is_ExternalAPIError e = true /\ r = fetch_failed request e
  | Raise e, Raise e' => is_ExternalAPIError e = false /\ e = e'
  | Raise _, Ok _ => False
  end.

(** X25.  The two import paths agree on a key that is not imported yet.
    On a table that satisfies its constraints, for a key with no row or
    with a row that is not marked imported, and when the task's
    [metadata_overrides] holds for "title", "description" and "language"
    what the request carries in these fields (the key absent, or the dict
    empty or [None], where the field is [None]), the endpoint
    [import_external_book] and the task's coroutine [_import_book_async]
    make the same adapter calls and leave the same
    table; the endpoint returns the id that the coroutine returns, or
    the failed result for the adapter error that the coroutine raises,
    or raises the same exception.  (On an imported key they differ: the
    endpoint answers at once, the coroutine imports again.) *)
Theorem import_paths_agree (env : Env) (user : Z)
    (request : Schema.ExternalBookImportRequest)
    (overrides : option (list (string * string))) (w : World) :
  store_ok w ->
  (forall e, List.find (key_matches (source_value (Schema.source request))
                          (Schema.external_id request)) (db w) = Some e ->
             Model.is_imported e = false) ->
  override overrides "title" = Schema.title request ->
  override overrides "description" = Schema.description request ->
  override overrides "language" = Schema.language request ->
  let endpoint := import_external_book env user request w in
  let coroutine := _import_book_async env (source_value (Schema.source request))
                     (Schema.external_id request) (Some user) overrides w in
  store (snd endpoint) = store (snd coroutine) /\
  trace (snd endpoint) = trace (snd coroutine) /\
  same_outcome request (fst endpoint) (fst coroutine).
Proof.
  intros Hw Hnot Ht Hd Hl. cbv zeta.
  unfold import_external_book, _import_book_async.
  rewrite (bind_Ok _ _ _ _ _ (select_by_key_find _ _ w Hw)).
  rewrite fetch_book_data_get_details, Ht, Hd, Hl.
  set (existing := List.find (key_matches (source_value (Schema.source request))
                                (Schema.external_id request)) (db w)) in *.
  assert (Hfetch :
    (match existing with
     | Some e => if Model.is_imported e
                 then ret (already_imported request (Model.id e))
                 else fetch_and_store env user request existing
     | None => fetch_and_store env user request existing
     end) w = fetch_and_store env user request existing w).
  { destruct existing as [e|]; [|reflexivity]. now rewrite (Hnot e eq_refl). }
  unfold already_imported in Hfetch. rewrite Hfetch. clear Hfetch.
  unfold fetch_and_store, bind, try_except.
  pose proof (keeps_store_get_details env (Schema.source request)
                (Schema.external_id request) w) as Hk.
  destruct (get_details env (Schema.source request) (Schema.external_id request) w)
    as [[b|e] w1]; cbn -[write_import select_by_key] in Hk |- *.
  - assert (Hw1 : store_ok w1) by now apply (store_ok_ext w).
    rewrite (select_by_key_find _ _ w1 Hw1).
    assert (Hex : List.find (key_matches (source_value (Schema.source request))
                               (Schema.external_id request)) (db w1) = existing).
    { injection Hk as -> _. reflexivity. }
    rewrite Hex.
    destruct (write_import env existing _ _ b _ _ _ (Some user) w1) as [[i|x] w2] eqn:Ew.
    + simpl. split; [reflexivity|]. split; [reflexivity|]. exists i. split; reflexivity.
    + exfalso. exact (raises_only_write_import (fun _ => False) env existing _ _ b _ _ _
                        (Some user) w1 x w2 Ew).
  - destruct (is_ExternalAPIError e) eqn:He; simpl; auto.
Qed.

(** [metadata_overrides.get(k)] looks at every entry of the dict, the
    first included; an empty dict and [None] give [None]. *)
Example override_lookups :
  (override (Some [("title", "My Title")]) "title",
   override (Some [("title", "My Title"); ("language", "en")]) "language",
   override (Some [("title", "My Title")]) "description",
   override (Some []) "title",
   override None "title")
  = (Some "My Title", Some "en", None, None, None).
Proof. reflexivity. Qed.

(** The overrides that the task gets for [retitled_request]: the dict
    holds the title and the (empty) description, and no language. *)
Definition retitled_overrides : option (list (string * string)) :=
  Some [("title", "My copy"); ("description", "")].

Lemma import_paths_agree_witness :
  override retitled_overrides "title" = Some "My copy" /\
  db (snd (import_external_book (sample_env catalog) 7 retitled_request fresh_world))
  = db (snd (_import_book_async (sample_env catalog) "google_books" "zyTCAlFPjgYC"
               (Some 7) retitled_overrides fresh_world)) /\
  map Model.title (db (snd (_import_book_async (sample_env catalog) "google_books"
                              "zyTCAlFPjgYC" (Some 7) retitled_overrides fresh_world)))
  = ["My copy"] /\
  same_outcome retitled_request
    (fst (import_external_book (sample_env catalog) 7 retitled_request fresh_world))
    (fst (_import_book_async (sample_env catalog) "google_books" "zyTCAlFPjgYC"
            (Some 7) retitled_overrides fresh_world)).
Proof.
  assert (Hok : store_ok fresh_world).
  { split; [constructor|]. split; [intros b []|constructor]. }
  destruct (import_paths_agree (sample_env catalog) 7 retitled_request
              retitled_overrides fresh_world Hok)
    as (Hst & _ & Hsame); try reflexivity.
  - intros e [=].
  - split; [reflexivity|]. split; [exact (f_equal fst Hst)|].
    split; [reflexivity | exact Hsame].
Defined.

(* ===================================================================== *)
(** ** What the periodic refresh queues *)
(* ===================================================================== *)

Section StaleQueue.
Variable env : Env.
Variable timedelta_days : Z -> Z.
Variable datetime_min datetime_max : Z.
Variable limit_rows : Z -> list Model.ExternalBook -> list Model.ExternalBook.
Variable delay : nat -> Z -> bool.
Hypothesis limit_rows_some :
  forall n rows, 0 <= n ->
    sublist (limit_rows n rows) rows /\
    length (limit_rows n rows) = Nat.min (Z.to_nat n) (length rows).

Lemma queue_loop (its : list (nat * Z)) : forall updated failed sent,
  exists new,
    fold_left (queue_body delay) its (updated, failed, sent)
    = (updated + Z.of_nat (length new),
       failed + (Z.of_nat (length its) - Z.of_nat (length new)),
       (sent ++ new)%list) /\
    sublist new (map snd its).
Proof.
  induction its as [|[k book_id] its IH]; intros updated failed sent; simpl.
  - exists []. rewrite app_nil_r. simpl. split; [|constructor].
    rewrite Z.sub_diag, !Z.add_0_r. reflexivity.
  - destruct (delay k book_id).
    + destruct (IH (updated + 1) failed (sent ++ [book_id])%list) as (new & -> & Hsub).
      exists (book_id :: new). split; [|now constructor].
      rewrite <- app_assoc. simpl length.
      apply pair_equal_spec. split; [apply pair_equal_spec; split; lia | reflexivity].
    + destruct (IH updated (failed + 1) sent) as (new & -> & Hsub).
      exists new. split; [|now constructor].
      apply pair_equal_spec. split; [apply pair_equal_spec; split; lia | reflexivity].
Qed.

Lemma imap_snd_from (g : nat -> nat) (ids : list Z) :
  map snd (imap (fun k book_id => (g k, book_id)) ids) = ids.
Proof.
  revert g. induction ids as [|a ids IH]; intros g; simpl; [reflexivity|].
  f_equal. apply (IH (fun k => g (S k))).
Qed.

Lemma imap_snd (ids : list Z) : map snd (imap (fun k book_id => (k, book_id)) ids) = ids.
Proof. apply (imap_snd_from (fun k => k)). Qed.

Lemma sublist_List_filter {A} (p : A -> bool) (l : list A) : sublist (List.filter p l) l.
Proof.
  induction l as [|a l IH]; simpl; [constructor|].
  destruct (p a); now constructor.
Qed.

Definition no_stale_books : Stale.Summary :=
  {| Stale.total := 0; Stale.updated := Some 0; Stale.queued := None;
     Stale.failed := 0; Stale.message := "No stale books found" |}.

(** X26.  What the periodic refresh queues.  For [batch_size >= 0] and
    whatever rows the database picks for the limit and whatever the
    queue does.  Let [cutoff] be the reading of the clock less
    [max_age_days] days.  When [max_age_days] is one of the at most
    999999999 days of a [timedelta] and [cutoff] is a date between
    [datetime.min] and [datetime.max], [update_stale_metadata] returns
    and leaves the table alone: [total] is the smaller of [batch_size]
    and the number of rows that are imported and were fetched before
    [cutoff] or never; every id sent to the queue is the id of such a
    row, and no id is sent twice when the ids of the table are distinct;
    [queued + failed = total].  With no such row the dict is [{total: 0,
    updated: 0, failed: 0, message: "No stale books found"}]; otherwise
    it has [queued], the number of ids sent, and no [updated].  For any
    other [max_age_days] the task raises [OverflowError] after it read
    the clock: the table is not read and nothing is queued. *)
Theorem update_stale_metadata_queues_stale_rows (max_age_days batch_size : Z)
    (w : World) :
  0 <= batch_size ->
  let cutoff := clock env (clock_count w) - timedelta_days max_age_days in
  let run := update_stale_metadata env timedelta_days datetime_min datetime_max
               limit_rows delay max_age_days batch_size w in
  (Z.abs max_age_days <= 999999999 -> datetime_min <= cutoff <= datetime_max ->
   exists summary sent,
     run = (Ok (summary, sent), snd (now env w)) /\
     Stale.total summary
     = Z.min batch_size
         (Z.of_nat (length (List.filter (is_stale cutoff) (db w)))) /\
     Z.of_nat (length sent) + Stale.failed summary = Stale.total summary /\
     (forall book_id, In book_id sent ->
        exists row, In row (db w) /\ Model.id row = book_id /\
                    is_stale cutoff row = true) /\
     (List.NoDup (map Model.id (db w)) -> List.NoDup sent) /\
     (Stale.total summary = 0 -> summary = no_stale_books /\ sent = []) /\
     (Stale.total summary <> 0 ->
      Stale.queued summary = Some (Z.of_nat (length sent)) /\
      Stale.updated summary = None)) /\
  (999999999 < Z.abs max_age_days \/ cutoff < datetime_min \/ datetime_max < cutoff ->
   run = (Raise OverflowError, snd (now env w))).
Proof.
  intros Hb cutoff run. subst run.
  unfold update_stale_metadata, bind, now, lift, timedelta, datetime_sub. simpl.
  fold cutoff.
  destruct (Z.ltb_spec 999999999 (Z.abs max_age_days)) as [Hbig|Hdays];
    [split; [intros; lia | intros _; reflexivity]|].
  simpl.
  change (clock env (clock_count w) - timedelta_days max_age_days) with cutoff.
  destruct (Z.leb_spec datetime_min cutoff) as [Hmin|Hmin];
    [|split; [intros; lia | intros _; reflexivity]].
  destruct (Z.leb_spec cutoff datetime_max) as [Hmax|Hmax];
    [|split; [intros; lia | intros _; reflexivity]].
  simpl. split; [intros _ _ | intros; lia].
  destruct (limit_rows_some batch_size (List.filter (is_stale cutoff) (db w)) Hb)
    as [Hsub Hlen].
  set (stale_books := limit_rows batch_size (List.filter (is_stale cutoff) (db w))) in *.
  assert (Htotal : Z.of_nat (length (map Model.id stale_books))
                   = Z.min batch_size
                       (Z.of_nat (length (List.filter (is_stale cutoff) (db w))))).
  { rewrite length_map, Hlen. lia. }
  assert (Hin : forall book_id, In book_id (map Model.id stale_books) ->
            exists row, In row (db w) /\ Model.id row = book_id /\
                        is_stale cutoff row = true).
  { intros book_id Hid. apply in_map_iff in Hid as (row & Hrow & Hid).
    exists row. apply list_elem_of_In in Hid.
    apply (fun H => elem_of_sublist _ _ _ H Hsub) in Hid. apply list_elem_of_In in Hid.
    apply filter_In in Hid as [Hdb Hst]. auto. }
  assert (Hnd : List.NoDup (map Model.id (db w)) -> List.NoDup (map Model.id stale_books)).
  { intros Hnd. apply NoDup_ListNoDup. apply NoDup_ListNoDup in Hnd.
    eapply sublist_NoDup; [exact Hnd|].
    apply fmap_sublist. etransitivity; [exact Hsub|]. apply sublist_List_filter. }
  destruct (map Model.id stale_books) as [|book_id ids] eqn:Hids.
  - exists no_stale_books, []. split; [reflexivity|]. simpl in Htotal.
    split; [exact Htotal|]. split; [reflexivity|].
    split; [intros ? []|]. split; [constructor|]. split; [auto|].
    intros Hne. now contradiction Hne.
  - destruct (queue_loop (imap (fun k b => (k, b)) (book_id :: ids)) 0 0 [])
      as (new & Hloop & Hnew).
    rewrite imap_snd in Hnew.
    rewrite Hloop. rewrite length_imap. simpl app.
    eexists. exists new. split; [reflexivity|]. simpl Stale.total. simpl Stale.failed.
    simpl Stale.queued. simpl Stale.updated.
    split; [exact Htotal|]. split; [lia|].
    split.
    { intros b Hb'. apply Hin. apply list_elem_of_In.
      apply (elem_of_sublist new); [now apply list_elem_of_In | exact Hnew]. }
    split.
    { intros Hnd'. apply NoDup_ListNoDup. eapply sublist_NoDup; [|exact Hnew].
      apply NoDup_ListNoDup. now apply Hnd. }
    split; [simpl length; lia|].
    intros _. split; reflexivity.
Qed.

End StaleQueue.

(** A database that gives the first rows of the table, and a queue that
    takes every task. *)
Definition first_rows (n : Z) (rows : list Model.ExternalBook) : list Model.ExternalBook :=
  take (Z.to_nat n) rows.

Lemma first_rows_some n rows :
  0 <= n ->
  sublist (first_rows n rows) rows /\
  length (first_rows n rows) = Nat.min (Z.to_nat n) (length rows).
Proof. intros _. split; [apply sublist_take | apply length_take]. Qed.

(** A clock that counts milliseconds from 1970: the length of a day, and
    the first and the last instant of a [datetime]. *)
Definition day_ms (days : Z) : Z := 86400000 * days.
Definition datetime_min_ms : Z := -62135596800000.
Definition datetime_max_ms : Z := 253402300799999.

Lemma update_stale_metadata_queues_stale_rows_witness :
  (exists summary,
      update_stale_metadata (sample_env offline) day_ms datetime_min_ms datetime_max_ms
        first_rows (fun _ _ => true) 0 50 library
      = (Ok (summary, [1]), snd (now (sample_env offline) library)) /\
      Stale.queued summary = Some 1 /\ Stale.total summary = 1) /\
  update_stale_metadata (sample_env offline) day_ms datetime_min_ms datetime_max_ms
    first_rows (fun _ _ => true) 800000 50 library
  = (Raise OverflowError, snd (now (sample_env offline) library)).
Proof.
  split.
  - destruct (update_stale_metadata_queues_stale_rows (sample_env offline)
                day_ms datetime_min_ms datetime_max_ms first_rows (fun _ _ => true)
                first_rows_some 0 50 library) as [Hruns _]; [lia|].
    destruct Hruns as (summary & sent & H & Htotal & _);
      [vm_compute; discriminate | vm_compute; split; discriminate |].
    assert (Hs : sent = [1] /\ Stale.queued summary = Some 1).
    { vm_compute in H. injection H as <- <-. split; reflexivity. }
    destruct Hs as [-> Hq]. exists summary. split; [exact H|]. split; [exact Hq|].
    rewrite Htotal. reflexivity.
  - destruct (update_stale_metadata_queues_stale_rows (sample_env offline)
                day_ms datetime_min_ms datetime_max_ms first_rows (fun _ _ => true)
                first_rows_some 800000 50 library) as [_ Hraises]; [lia|].
    apply Hraises. right. left. vm_compute. reflexivity.
Defined.

(* ===================================================================== *)
(** ** From an import to the cache endpoints *)
(* ===================================================================== *)

Lemma select_by_id_found external_book_id row w :
  List.NoDup (map Model.id (db w)) -> In row (db w) -> Model.id row = external_book_id ->
  select_by_id external_book_id w = (Ok (Some row), w).
Proof.
  intros Hnd Hin <-. unfold select_by_id.
  now rewrite (filter_id_nodup (db w) row Hnd Hin).
Qed.

(** X27.  An imported book is in the cache.  After an
    [import_external_book] that answers with success (imported now, or
    already imported), on a table that satisfies its constraints,
    [get_cached_book] of the id that the import returned answers with the
    row of the request's key, marked imported; and that row is counted
    and listed by [get_cached_books] under the filter of its source and
    [imported_only]. *)
Theorem imported_book_is_cached (env : Env) (user : Z)
    (request : Schema.ExternalBookImportRequest) (w : World)
    (r : Schema.ImportResult) (w' : World) :
  store_ok w ->
  import_external_book env user request w = (Ok r, w') ->
  Schema.success r = true ->
  exists i row,
    Schema.external_book_id r = Some i /\
    get_cached_book i w' = (Ok (model_validate row), w') /\
    Model.id row = i /\
    Model.source row = source_value (Schema.source request) /\
    Model.external_id row = Schema.external_id request /\
    Model.is_imported row = true /\
    In row (List.filter (cached_filter (Some (Schema.source request)) true) (db w')).
Proof.
  intros Hw H Hs.
  pose proof (import_external_book_keeps_ok env user request w Hw) as Hw'.
  rewrite H in Hw'. simpl in Hw'.
  assert (Hrow : exists row,
             In row (db w') /\ Schema.external_book_id r = Some (Model.id row) /\
             key_matches (source_value (Schema.source request))
               (Schema.external_id request) row = true /\
             Model.is_imported row = true).
  { unfold import_external_book in H.
    rewrite (bind_Ok _ _ _ _ _ (select_by_key_find _ _ w Hw)) in H.
    destruct (List.find _ (db w)) as [e|] eqn:Hfind.
    - destruct (Model.is_imported e) eqn:Hi.
      + apply ret_inv in H as [<- ->]. apply find_some in Hfind as [Hin Hk].
        exists e. auto.
      + pose proof Hfind as Hf. rewrite find_filter_head in Hf.
        destruct Hw as (Hnd & _ & Hkey).
        destruct (filter_key_unique (source_value (Schema.source request))
                    (Schema.external_id request) (db w) Hkey) as [Hnil | [e0 Hone]];
          [rewrite Hnil in Hf; discriminate Hf|].
        rewrite Hone in Hf. injection Hf as ->.
        unfold fetch_and_store, bind, try_except in H.
        pose proof (keeps_store_get_details env (Schema.source request)
                      (Schema.external_id request) w) as Hk.
        destruct (get_details env _ _ w) as [[d|x] w1]; cbn -[write_import] in H, Hk.
        2:{ destruct (is_ExternalAPIError x); cbn in H; [|discriminate H].
            injection H as <- _. discriminate Hs. }
        injection Hk as Hdb Hn.
        destruct (write_import_row env (Some e) (source_value (Schema.source request))
                    (Schema.external_id request) d (Schema.title request)
                    (Schema.description request) (Schema.language request) (Some user) w1)
          as (row & w2 & Hwr & Hrow & Hfrom & Hplaced).
        { now rewrite Hdb. } { now rewrite Hdb. }
        rewrite Hwr in H. injection H as <- <-.
        assert (Hin : In row (List.filter (key_matches (source_value (Schema.source request))
                                             (Schema.external_id request)) (db w2)))
          by (rewrite Hrow; now left).
        apply filter_In in Hin as [Hin Hk].
        exists row. split; [exact Hin|]. split; [reflexivity|]. split; [exact Hk|].
        apply Hfrom.
    - pose proof Hfind as Hf. rewrite find_filter_head in Hf.
      destruct Hw as (Hnd & _ & Hkey).
      destruct (filter_key_unique (source_value (Schema.source request))
                  (Schema.external_id request) (db w) Hkey) as [Hnil | [e0 Hone]];
        [|rewrite Hone in Hf; discriminate Hf].
      unfold fetch_and_store, bind, try_except in H.
      pose proof (keeps_store_get_details env (Schema.source request)
                    (Schema.external_id request) w) as Hk.
      destruct (get_details env _ _ w) as [[d|x] w1]; cbn -[write_import] in H, Hk.
      2:{ destruct (is_ExternalAPIError x); cbn in H; [|discriminate H].
          injection H as <- _. discriminate Hs. }
      injection Hk as Hdb Hn.
      destruct (write_import_row env None (source_value (Schema.source request))
                  (Schema.external_id request) d (Schema.title request)
                  (Schema.description request) (Schema.language request) (Some user) w1)
        as (row & w2 & Hwr & Hrow & Hfrom & Hplaced).
      { now rewrite Hdb. } { now rewrite Hdb. }
      rewrite Hwr in H. injection H as <- <-.
      assert (Hin : In row (List.filter (key_matches (source_value (Schema.source request))
                                           (Schema.external_id request)) (db w2)))
        by (rewrite Hrow; now left).
      apply filter_In in Hin as [Hin Hk].
      exists row. split; [exact Hin|]. split; [reflexivity|]. split; [exact Hk|].
      apply Hfrom. }
  destruct Hrow as (row & Hin & Hid & Hk & Hi).
  apply key_matches_inv in Hk as [Hsrc Hext].
  exists (Model.id row), row. split; [exact Hid|]. split.
  { unfold get_cached_book.
    rewrite (bind_Ok _ _ _ _ _ (select_by_id_found (Model.id row) row w'
                                  (proj1 Hw') Hin eq_refl)).
    reflexivity. }
  split; [reflexivity|]. split; [exact Hsrc|]. split; [exact Hext|]. split; [exact Hi|].
  apply filter_In. split; [exact Hin|].
  unfold cached_filter. rewrite Hsrc, String.eqb_refl, Hi. reflexivity.
Qed.

Lemma imported_book_is_cached_witness :
  exists r w' resp,
    import_external_book (sample_env catalog) 7 sample_request fresh_world = (Ok r, w') /\
    get_cached_book 1 w' = (Ok resp, w') /\
    CachedSchema.title resp = "The Google Story" /\
    CachedSchema.is_imported resp = true.
Proof.
  destruct (import_external_book (sample_env catalog) 7 sample_request fresh_world)
    as [[r|e] w'] eqn:E; [|vm_compute in E; discriminate E].
  assert (Hok : store_ok fresh_world).
  { split; [constructor|]. split; [intros b []|constructor]. }
  assert (Hs : Schema.success r = true /\ Schema.external_book_id r = Some 1).
  { vm_compute in E. injection E as <- _. split; reflexivity. }
  destruct Hs as [Hs H1].
  destruct (imported_book_is_cached (sample_env catalog) 7 sample_request fresh_world
              r w' Hok E Hs) as (i & row & Hi & Hget & _ & _ & _ & Himp & _).
  rewrite H1 in Hi. injection Hi as <-.
  exists r, w', (model_validate row). split; [reflexivity|]. split; [exact Hget|].
  split; [|exact Himp].
  assert (Ht : forall resp w1, get_cached_book 1 w' = (Ok resp, w1) ->
                               CachedSchema.title resp = "The Google Story").
  { vm_compute in E. injection E as _ <-. intros resp w1 Hr. vm_compute in Hr.
    injection Hr as <- _. reflexivity. }
  exact (Ht _ _ Hget).
Defined.
